(** * TF_SDL: the PubChem batch fetcher and the thermo property enricher

    A shallow embedding of [src/utils/property_extractor.py]:
    [fetch_details_for_batch], [generate_material_bank], the catalog
    [supported_properties] and [process_materials].

    The program is glue around three external systems: the PubChem REST
    endpoint (through [requests]), the [thermo] package ([Chemical],
    [Mixture]) and [pandas].  The external systems are oracles (Section
    variables), and so are the two decisions of pandas and pyarrow that
    depend on their version: whether a write to the table raises, and
    whether the file can be written.  The Python values, the dict, the
    [range] object, slicing and the handful of DataFrame operations
    that the script uses are modelled here.  Effects are explicit: a computation takes the mutable
    object it works on and returns a result (a value or a raised
    exception), the object as mutated so far, and the events it emitted.
    An exception never rolls the mutation back, exactly as in Python. *)

From Stdlib Require Import ZArith QArith String Ascii List Bool Lia.
Import ListNotations.

Set Warnings "-register-all".

Local Open Scope string_scope.
Local Open Scope list_scope.
Local Open Scope Z_scope.

(** ** Python values *)

Module Py.

(** A Python float: exact rationals stand for the finite doubles (every
    double is one), with the two infinities and NaN, which the [json]
    module of Python also reads. *)
Inductive pyfloat : Type :=
| FFinite (q : Q)
| FInf (negative : bool)
| FNaN.

(** The values that [response.json()] builds, which are also the values
    held by the cells of the tables: [None], [bool], [int], [float],
    [str], [list] and [dict] with string keys ([members] holds the dict
    after parsing, so a key occurs once and lookup takes the first). *)
Inductive pyval : Type :=
| JNull
| JBool (b : bool)
| JInt (n : Z)
| JFloat (f : pyfloat)
| JStr (s : string)
| JArr (items : list pyval)
| JObj (members : list (string * pyval)).

(** [np.nan]. *)
Definition NaN : pyval := JFloat FNaN.

(** The exceptions (all subclasses of [Exception]) that the modelled
    operations raise; [OtherError] stands for any other subclass of
    [Exception], tagged by the oracle that raised it. *)
Inductive exn : Type :=
| AttributeError
| KeyError
| TypeError
| IndexError
| ValueError
| OtherError (tag : string).

Inductive result (A : Type) : Type :=
| Ok (a : A)
| Raise (e : exn).

Arguments Ok {A} a.
Arguments Raise {A} e.

(** Truth value testing, [bool(v)]. *)
Definition truthy (v : pyval) : bool :=
  match v with
  | JNull => false
  | JBool b => b
  | JInt n => negb (n =? 0)
  | JFloat (FFinite q) => negb (Qeq_bool q 0)
  | JFloat _ => true
  | JStr s => negb (String.eqb s "")
  | JArr items => match items with [] => false | _ => true end
  | JObj members => match members with [] => false | _ => true end
  end.

(** [hash(v)] raises [TypeError] on a list or a dict. *)
Definition hashable (v : pyval) : bool :=
  match v with
  | JArr _ | JObj _ => false
  | _ => true
  end.

(** The numeric value of a bool, int or finite float, for [==]. *)
Definition numeric_value (v : pyval) : option Q :=
  match v with
  | JBool b => Some (inject_Z (if b then 1 else 0))
  | JInt n => Some (inject_Z n)
  | JFloat (FFinite q) => Some q
  | _ => None
  end.

(** [a == b] on hashable values, as the dict and the pandas index use it
    to match keys: numbers compare by value across bool, int and float,
    NaN equals nothing (two parsed NaN are distinct objects), strings
    compare by content. *)
Definition py_eq (a b : pyval) : bool :=
  match numeric_value a, numeric_value b with
  | Some x, Some y => Qeq_bool x y
  | _, _ =>
      match a, b with
      | JNull, JNull => true
      | JStr s, JStr t => String.eqb s t
      | JFloat (FInf n), JFloat (FInf m) => Bool.eqb n m
      | _, _ => false
      end
  end.

(** *** dict: an insertion-ordered association list *)

Definition dict (V : Type) : Type := list (pyval * V).

(** [d[k] = v] on a hashable [k]: an equal key keeps its place and its
    key object and takes the new value, a new key goes to the end. *)
Fixpoint dict_store {V} (k : pyval) (v : V) (d : dict V) : dict V :=
  match d with
  | [] => [(k, v)]
  | (k', v') :: rest =>
      if py_eq k' k then (k', v) :: rest else (k', v') :: dict_store k v rest
  end.

(** [d[k] = v]. *)
Definition dict_setitem {V} (k : pyval) (v : V) (d : dict V) : result (dict V) :=
  if hashable k then Ok (dict_store k v d) else Raise TypeError.

(** [d.update(other)]: the keys of [other] are keys already, so hashable. *)
Definition dict_update {V} (d other : dict V) : dict V :=
  fold_left (fun acc kv => dict_store (fst kv) (snd kv) acc) other d.

(** Lookup in the members of a parsed JSON object. *)
Fixpoint obj_lookup (key : string) (members : list (string * pyval)) : option pyval :=
  match members with
  | [] => None
  | (k, v) :: rest => if String.eqb k key then Some v else obj_lookup key rest
  end.

Definition from_option {A} (default : A) (o : option A) : A :=
  match o with
  | Some x => x
  | None => default
  end.

(** [v.get(key, default)]: only a dict has [get]. *)
Definition py_get (v : pyval) (key : string) (default : pyval) : result pyval :=
  match v with
  | JObj members => Ok (from_option default (obj_lookup key members))
  | _ => Raise AttributeError
  end.

Definition chars (s : string) : list pyval :=
  map (fun c => JStr (String c EmptyString)) (list_ascii_of_string s).

(** [iter(v)], as [for x in v] consumes it: a list gives its items, a dict
    its keys, a string its characters; the rest is not iterable. *)
Definition py_iter (v : pyval) : result (list pyval) :=
  match v with
  | JArr items => Ok items
  | JObj members => Ok (map (fun kv => JStr (fst kv)) members)
  | JStr s => Ok (chars s)
  | _ => Raise TypeError
  end.

(** *** range and slicing *)

(** The length of a [range] object, as CPython's [compute_range_length]. *)
Definition compute_range_length (start stop step : Z) : Z :=
  let '(lo, hi, st) :=
    if 0 <? step then (start, stop, step) else (stop, start, - step) in
  if hi <=? lo then 0 else (hi - lo - 1) / st + 1.

(** The items of [range(start, stop, step)] for a non-zero [step]. *)
Definition range_items (start stop step : Z) : list Z :=
  map (fun k => start + Z.of_nat k * step)
      (seq 0 (Z.to_nat (compute_range_length start stop step))).

(** [range(start, stop, step)]: a zero step raises [ValueError]. *)
Definition range (start stop step : Z) : result (list Z) :=
  if step =? 0 then Raise ValueError else Ok (range_items start stop step).

(** A slice bound clamped into [0, len], as [PySlice_AdjustIndices]. *)
Definition adjust_index (len i : Z) : Z :=
  if i <? 0 then Z.max 0 (i + len) else Z.min i len.

(** [l[lo:hi]]. *)
Definition slice {A} (l : list A) (lo hi : Z) : list A :=
  let len := Z.of_nat (length l) in
  let a := adjust_index len lo in
  let b := adjust_index len hi in
  firstn (Z.to_nat (b - a)) (skipn (Z.to_nat a) l).

(** [l[0]] and [l[-1]]. *)
Definition first_item {A} (l : list A) : result A :=
  match l with
  | [] => Raise IndexError
  | x :: _ => Ok x
  end.

Definition last_item {A} (l : list A) : result A :=
  match rev l with
  | [] => Raise IndexError
  | x :: _ => Ok x
  end.

End Py.

Import Py.

(** ** Effects: mutable object, exceptions, emitted events *)

(** What the script prints, one constructor per f-string. *)
Inductive message : Type :=
| MsgErrorBatch (first last : Z) (e : exn)
| MsgFailedBatch (first last : Z) (status : Z)
| MsgBatchCompleted (k : Z)
| MsgErrorMaterial (i : Z) (e : exn)
| MsgMaterialProcessed (i : Z).

(** What the script does to the outside world, in order. *)
Inductive event : Type :=
| HttpGet (cids : list Z)
| Print (msg : message)
| Sleep (seconds : Q)
| Warn (prop : string)
| ToParquet (file : string) (table : list (string * list pyval)).

Module Eff.

(** A computation over a mutable object of type [S]. *)
Definition prog (S A : Type) : Type := S -> result A * S * list event.

Definition ret {S A} (a : A) : prog S A := fun s => (Ok a, s, []).

Definition bind {S A B} (m : prog S A) (k : A -> prog S B) : prog S B :=
  fun s =>
    match m s with
    | (Ok a, s1, out1) =>
        let '(r, s2, out2) := k a s1 in (r, s2, out1 ++ out2)
    | (Raise e, s1, out1) => (Raise e, s1, out1)
    end.

Definition lift {S A} (r : result A) : prog S A := fun s => (r, s, []).
Definition get {S} : prog S S := fun s => (Ok s, s, []).
Definition modify {S} (f : S -> S) : prog S unit := fun s => (Ok tt, f s, []).
Definition emit {S} (e : event) : prog S unit := fun s => (Ok tt, s, [e]).

(** [try: m except Exception as e: handler e]. *)
Definition try_except {S} (m : prog S unit) (handler : exn -> prog S unit) : prog S unit :=
  fun s =>
    match m s with
    | (Ok a, s1, out1) => (Ok a, s1, out1)
    | (Raise e, s1, out1) =>
        let '(r, s2, out2) := handler e s1 in (r, s2, out1 ++ out2)
    end.

(** [try: m except AttributeError: handler]: any other exception goes on. *)
Definition try_except_AttributeError {S} (m handler : prog S unit) : prog S unit :=
  fun s =>
    match m s with
    | (Raise AttributeError, s1, out1) =>
        let '(r, s2, out2) := handler s1 in (r, s2, out1 ++ out2)
    | other => other
    end.

(** [for x in xs: body x]: an exception leaves the loop. *)
Fixpoint for_each {S X} (xs : list X) (body : X -> prog S unit) : prog S unit :=
  match xs with
  | [] => ret tt
  | x :: rest => bind (body x) (fun _ => for_each rest body)
  end.

(** A call of a function whose mutable object is local to it. *)
Definition call {S L A} (m : prog L A) (init : L) : prog S A :=
  fun s => let '(r, _, out) := m init in (r, s, out).

(** The object as a computation leaves it, returning or raising. *)
Definition final {S A} (m : prog S A) (s : S) : S := snd (fst (m s)).

(** The events of a computation. *)
Definition output {S A} (m : prog S A) (s : S) : list event := snd (m s).

(** A relation between the object before and after that a computation
    respects however it ends. *)
Definition stable {S A} (R : S -> S -> Prop) (m : prog S A) : Prop :=
  forall s, R s (final m s).

End Eff.

Import Eff.

Declare Scope prog_scope.
Delimit Scope prog_scope with prog.
Notation "x <- m ;; k" := (bind m (fun x => k))
  (at level 61, m at next level, right associativity) : prog_scope.
Notation "m ;; k" := (bind m (fun _ => k))
  (at level 61, right associativity) : prog_scope.
Local Open Scope prog_scope.

Definition print {S} (msg : message) : prog S unit := emit (Print msg).
Definition sleep {S} (seconds : Q) : prog S unit := emit (Sleep seconds).

(** ** The pandas table *)

Module Frame.

(** A DataFrame: the row labels and the columns, column-major.  In a
    well-formed table the column labels are distinct and every column
    has one cell per row. *)
Record DataFrame : Type := {
  index_name : option string;
  index : list pyval;
  columns : list (string * list pyval)
}.

Definition wf (df : DataFrame) : Prop :=
  NoDup (map fst (columns df)) /\
  Forall (fun c => length (snd c) = length (index df)) (columns df).

(** [df.shape[0]]. *)
Definition shape0 (df : DataFrame) : Z := Z.of_nat (length (index df)).

Fixpoint find_column (col : string) (cols : list (string * list pyval)) : option (list pyval) :=
  match cols with
  | [] => None
  | (c, cells) :: rest => if String.eqb c col then Some cells else find_column col rest
  end.

(** The cell at row position [p] of column [col], if both exist. *)
Definition cell (df : DataFrame) (p : nat) (col : string) : option pyval :=
  match find_column col (columns df) with
  | Some cells => nth_error cells p
  | None => None
  end.

Fixpoint replace_column (col : string) (cells : list pyval) (cols : list (string * list pyval))
  : list (string * list pyval) :=
  match cols with
  | [] => [(col, cells)]
  | (c, old) :: rest =>
      if String.eqb c col then (c, cells) :: rest
      else (c, old) :: replace_column col cells rest
  end.

(** [df[col] = v] for a scalar [v]: the column is overwritten in place,
    or appended when the label is new. *)
Definition setitem (col : string) (v : pyval) (df : DataFrame) : DataFrame :=
  {| index_name := index_name df;
     index := index df;
     columns := replace_column col (repeat v (length (index df))) (columns df) |}.

(** What [df.loc[i, col]] evaluates to: a scalar when one row carries
    the label, a Series of the matching cells when several do. *)
Inductive located : Type :=
| Scalar (v : pyval)
| Series (vs : list pyval).

(** The cells of the rows whose label equals [i]. *)
Fixpoint select (i : pyval) (labels cells : list pyval) : list pyval :=
  match labels, cells with
  | l :: labels', c :: cells' =>
      if py_eq l i then c :: select i labels' cells' else select i labels' cells'
  | _, _ => []
  end.

(** [df.loc[i, col]]: [KeyError] when the label or the column is not there. *)
Definition loc_get (df : DataFrame) (i : Z) (col : string) : result located :=
  match find_column col (columns df) with
  | None => Raise KeyError
  | Some cells =>
      match select (JInt i) (index df) cells with
      | [] => Raise KeyError
      | [v] => Ok (Scalar v)
      | vs => Ok (Series vs)
      end
  end.

(** Whether some row carries the label [i]. *)
Definition has_label (i : Z) (df : DataFrame) : bool :=
  existsb (fun l => py_eq l (JInt i)) (index df).

(** The cells of a column after the rows labelled [i] took [v]. *)
Fixpoint assign (i v : pyval) (labels cells : list pyval) : list pyval :=
  match labels, cells with
  | l :: labels', c :: cells' =>
      (if py_eq l i then v else c) :: assign i v labels' cells'
  | _, _ => cells
  end.

(** [df.loc[i, col] = v], with pandas' setting with enlargement: a label
    that is not in the index becomes a new last row, NaN in every
    column; a column that is not in the table becomes a new last
    column, NaN in every row; then the rows labelled [i] take [v]. *)
Definition loc_set (i : Z) (col : string) (v : pyval) (df : DataFrame) : DataFrame :=
  let grown :=
    if has_label i df then df
    else {| index_name := index_name df;
            index := index df ++ [JInt i];
            columns := map (fun c => (fst c, snd c ++ [NaN])) (columns df) |} in
  let old :=
    match find_column col (columns grown) with
    | Some cells => cells
    | None => repeat NaN (length (index grown))
    end in
  {| index_name := index_name grown;
     index := index grown;
     columns := replace_column col (assign (JInt i) v (index grown) old) (columns grown) |}.

(** The column labels. *)
Definition names (df : DataFrame) : list string := map fst (columns df).

(** The row at position [p] is as it was: each of its cells is the old
    one, or NaN in a column that the table did not have. *)
Definition keeps (p : nat) (df df' : DataFrame) : Prop :=
  forall col, cell df' p col = cell df p col \/
              (cell df p col = None /\ cell df' p col = Some NaN).

End Frame.

Import Frame.

(** ** Stage 1: the batch fetcher *)

(** What [requests.get] returns: the status and what [response.json()]
    gives (a value, or the exception of a body that is not JSON). *)
Record response : Type := {
  status_code : Z;
  json : result pyval
}.

(** One record of [batch_data]: [{'smiles': .., 'name': .., 'formula': ..}]. *)
Record compound : Type := {
  smiles : pyval;
  name : pyval;
  formula : pyval
}.

(** [pd.DataFrame.from_dict(d, orient='index')] on a dict of such
    records: one row per key in insertion order, the three fields as
    columns; an empty dict gives a table with no columns. *)
Definition from_dict (d : dict compound) : DataFrame :=
  match d with
  | [] => {| index_name := None; index := []; columns := [] |}
  | _ => {| index_name := None;
            index := map fst d;
            columns := [("smiles", map (fun kv => smiles (snd kv)) d);
                        ("name", map (fun kv => name (snd kv)) d);
                        ("formula", map (fun kv => formula (snd kv)) d)] |}
  end.

Section Fetcher.

(** The PubChem endpoint: the URL is a function of the identifiers of
    the chunk, so the oracle takes them; [requests.get] may raise.  Every
    chunk is requested once and the chunks are pairwise distinct, so a
    function of the chunk covers a server whose answers change in time. *)
Variable requests_get : list Z -> result response.

Definition http_get {S} (cids : list Z) : prog S response :=
  emit (HttpGet cids) ;; lift (requests_get cids).

(** Lines 20-29, the body of [for prop in properties]. *)
Definition store_item (prop : pyval) : prog (dict compound) unit :=
  cid <- lift (py_get prop "CID" JNull) ;;
  smiles <- lift (py_get prop "IsomericSMILES" JNull) ;;
  name <- lift (py_get prop "IUPACName" JNull) ;;
  formula <- lift (py_get prop "MolecularFormula" JNull) ;;
  if truthy cid && truthy smiles then
    batch_data <- get ;;
    stored <- lift (dict_setitem cid
                      {| smiles := smiles; name := name; formula := formula |}
                      batch_data) ;;
    modify (fun _ => stored)
  else ret tt.

(** Line 18: the list that the loop runs over. *)
Definition response_items (r : response) : result (list pyval) :=
  match json r with
  | Raise e => Raise e
  | Ok body =>
      match py_get body "PropertyTable" (JObj []) with
      | Raise e => Raise e
      | Ok table =>
          match py_get table "Properties" (JArr []) with
          | Raise e => Raise e
          | Ok properties => py_iter properties
          end
      end
  end.

(** Lines 18-29, the [try] block. *)
Definition parse_batch (r : response) : prog (dict compound) unit :=
  properties <- lift (response_items r) ;;
  for_each properties store_item.

(** [cids[0]] and [cids[-1]], which both f-strings evaluate. *)
Definition batch_bounds {S} (cids : list Z) : prog S (Z * Z) :=
  first <- lift (first_item cids) ;;
  last <- lift (last_item cids) ;;
  ret (first, last).

(** Lines 12-35, over the local [batch_data]. *)
Definition fetch_details_body (cids : list Z) : prog (dict compound) (dict compound) :=
  response <- http_get cids ;;
  (if status_code response =? 200 then
     try_except (parse_batch response)
       (fun e => b <- batch_bounds cids ;; print (MsgErrorBatch (fst b) (snd b) e))
   else
     b <- batch_bounds cids ;;
     print (MsgFailedBatch (fst b) (snd b) (status_code response))) ;;
  get.

Definition fetch_details_for_batch {S} (cids : list Z) : prog S (dict compound) :=
  call (fetch_details_body cids) [].

(** Lines 46-50, the body of the loop over the chunk offsets. *)
Definition batch_iteration (cid_list : list Z) (batch_size i : Z)
  : prog (dict compound) unit :=
  let batch := slice cid_list i (i + batch_size) in
  batch_data <- fetch_details_for_batch batch ;;
  modify (fun smiles_data => dict_update smiles_data batch_data) ;;
  sleep (1 # 5) ;;
  print (MsgBatchCompleted (i / batch_size + 1)).

(** Line 42. *)
Definition cid_list_of (start_cid end_cid : Z) : list Z :=
  range_items start_cid (end_cid + 1) 1.

(** The chunks that the loop of line 45 hands to [fetch_details_for_batch]. *)
Definition batches (start_cid end_cid batch_size : Z) : list (list Z) :=
  let cid_list := cid_list_of start_cid end_cid in
  map (fun i => slice cid_list i (i + batch_size))
      (range_items 0 (Z.of_nat (length cid_list)) batch_size).

(** Lines 42-56, over the local [smiles_data]. *)
Definition generate_body (start_cid end_cid batch_size : Z)
  : prog (dict compound) DataFrame :=
  let cid_list := cid_list_of start_cid end_cid in
  offsets <- lift (range 0 (Z.of_nat (length cid_list)) batch_size) ;;
  for_each offsets (batch_iteration cid_list batch_size) ;;
  smiles_data <- get ;;
  let material_bank := from_dict smiles_data in
  ret {| index_name := Some "CID";
         index := index material_bank;
         columns := columns material_bank |}.

Definition generate_material_bank {S} (start_cid end_cid batch_size : Z)
  : prog S DataFrame :=
  call (generate_body start_cid end_cid batch_size) [].

End Fetcher.

(** The requests of a run, in order. *)
Definition requested (out : list event) : list (list Z) :=
  flat_map (fun e => match e with HttpGet cids => [cids] | _ => [] end) out.

(** The result, the events of a run started on no object at all. *)
Definition run {A} (m : prog unit A) : result A * list event :=
  let '(r, _, out) := m tt in (r, out).

(** ** Stage 2: the property enricher *)

(** Lines 61-83. *)
Definition supported_properties : list (string * string) :=
  [("boiling point", "Tb");
   ("melting point", "Tm");
   ("viscosity", "mu");
   ("density", "rho");
   ("thermal conductivity", "k");
   ("vapour pressure", "Psat");
   ("permittivity", "permittivity");
   ("flash point", "Tflash");
   ("auto ignition temperature", "Tautoignition");
   ("heat of combustion", "Hc");
   ("enthalpy of formation", "Hf");
   ("critical temperature", "Tc");
   ("critical pressure", "Pc");
   ("critical volume", "Vc");
   ("triple point temperature", "Tt");
   ("triple point pressure", "Pt");
   ("surface tension", "sigma");
   ("molecular weight", "MW");
   ("Henry's law constant", "Henry");
   ("dipole moment", "dipole")].

(** Lines 98-99. *)
Definition solvents : list string := ["water"; "hexane"; "ethanol"; "acetonitrile"].
Definition fractions : list Q := [1 # 4; 1 # 2; 3 # 4].

(** [str] of a float, on the three literals of [fractions]: the f-string
    of lines 104 and 124 formats nothing else. *)
Definition str_float (x : Q) : string :=
  if Qeq_bool x (1 # 4) then "0.25"
  else if Qeq_bool x (1 # 2) then "0.5"
  else if Qeq_bool x (3 # 4) then "0.75"
  else "nan".

(** [f'{solvent}_fraction_{fraction}_enthalpy_mixing']. *)
Definition column_name (solvent : string) (fraction : Q) : string :=
  (solvent ++ "_fraction_" ++ str_float fraction ++ "_enthalpy_mixing")%string.

(** The labels of the mixing columns, in the order of lines 102-105. *)
Definition mixing_columns : list string :=
  flat_map (fun solvent => map (column_name solvent) fractions) solvents.

(** A dict with string keys: [prop in d] and [d[prop] = attr]. *)
Fixpoint lookup (key : string) (d : list (string * string)) : option string :=
  match d with
  | [] => None
  | (k, v) :: rest => if String.eqb k key then Some v else lookup key rest
  end.

Fixpoint store (key v : string) (d : list (string * string)) : list (string * string) :=
  match d with
  | [] => [(key, v)]
  | (k, old) :: rest =>
      if String.eqb k key then (k, v) :: rest else (k, old) :: store key v rest
  end.

(** Lines 90-95, over the local [valid_properties]. *)
Definition validate (properties : list string) : prog (list (string * string)) unit :=
  for_each properties (fun prop =>
    match lookup prop supported_properties with
    | Some attr => modify (store prop attr)
    | None => emit (Warn prop)
    end).

(** A value read off a [thermo] object: a float or [None]; in a numeric
    column pandas keeps [None] as NaN, and both are its missing marker. *)
Definition of_scalar (x : option pyfloat) : pyval :=
  match x with
  | Some f => JFloat f
  | None => NaN
  end.

(** [pd.isna(v)], and a number that is not the missing marker. *)
Definition is_missing (v : pyval) : bool :=
  match v with
  | JNull | JFloat FNaN => true
  | _ => false
  end.

Definition is_numeric (v : pyval) : bool :=
  match v with
  | JInt _ | JFloat (FFinite _) | JFloat (FInf _) => true
  | _ => false
  end.

Definition numeric_or_missing (v : pyval) : bool := is_numeric v || is_missing v.

(** A Python float, NaN among them. *)
Definition is_float (v : pyval) : bool :=
  match v with
  | JFloat _ => true
  | _ => false
  end.

(** [valid_properties] after lines 90-95. *)
Definition valid_properties_of (properties : list string) : list (string * string) :=
  final (validate properties) [].

Definition is_supported (prop : string) : bool :=
  match lookup prop supported_properties with
  | Some _ => true
  | None => false
  end.

Section Enricher.

(** The [thermo] package: the two constructors and the attribute reads,
    each of which may raise. *)
Context {chemical mixture : Type}.
Variable Chemical : located -> result chemical.
Variable getattr : chemical -> string -> result (option pyfloat).
Variable Mixture : list located -> list Q -> result mixture.
Variable Hm : mixture -> result (option pyfloat).

(** pandas and pyarrow.  A write [df.loc[i, col] = v] raises when the
    column does not take the value (its dtype decides, and the rules
    differ between versions of pandas): [write_error] gives the
    exception, if any, and a write that raises leaves the table as it
    is.  [to_parquet] raises on a table that it cannot write. *)
Variable write_error : DataFrame -> Z -> string -> pyval -> option exn.
Variable to_parquet : string -> list (string * list pyval) -> result unit.

(** [material_bank.loc[i, col]] and [material_bank.loc[i, col] = v]. *)
Definition loc (i : Z) (col : string) : prog DataFrame located :=
  material_bank <- get ;; lift (loc_get material_bank i col).

Definition set_loc (i : Z) (col : string) (v : pyval) : prog DataFrame unit :=
  material_bank <- get ;;
  match write_error material_bank i col v with
  | Some e => lift (Raise e)
  | None => modify (loc_set i col v)
  end.

(** Lines 115-119, the body of the loop over [valid_properties.items()]. *)
Definition read_property (chem : chemical) (i : Z) (item : string * string)
  : prog DataFrame unit :=
  let '(prop, attr) := item in
  try_except_AttributeError
    (v <- lift (getattr chem attr) ;; set_loc i prop (of_scalar v))
    (set_loc i prop NaN).

(** What a cell of a property column takes from a read that returns
    or raises [AttributeError]. *)
Definition property_value (chem : chemical) (attr : string) : pyval :=
  match getattr chem attr with
  | Ok x => of_scalar x
  | Raise _ => NaN
  end.

(** What a cell of a mixing column takes: the enthalpy of the mixture
    when the mixture is built and read, NaN when either fails. *)
Definition mixing_value (nm : located) (solvent : string) (fraction : Q) : pyval :=
  match Mixture [nm; Scalar (JStr solvent)] [fraction; 1 - fraction]%Q with
  | Ok mix =>
      match Hm mix with
      | Ok x => of_scalar x
      | Raise _ => NaN
      end
  | Raise _ => NaN
  end.

(** Lines 124-130, the body of the two loops over solvents and fractions. *)
Definition mixing_cell (i : Z) (solvent : string) (fraction : Q) : prog DataFrame unit :=
  let column := column_name solvent fraction in
  try_except
    (nm <- loc i "name" ;;
     mix <- lift (Mixture [nm; Scalar (JStr solvent)] [fraction; 1 - fraction]%Q) ;;
     enthalpy_of_mixing <- lift (Hm mix) ;;
     set_loc i column (of_scalar enthalpy_of_mixing))
    (fun _ => set_loc i column NaN).

(** Lines 122-130. *)
Definition mixing_loop (i : Z) : prog DataFrame unit :=
  for_each solvents (fun solvent =>
    for_each fractions (fun fraction => mixing_cell i solvent fraction)).

(** Lines 109-135, the body of the loop over the rows. *)
Definition row_iteration (valid_properties : list (string * string)) (i : Z)
  : prog DataFrame unit :=
  try_except
    (nm <- loc i "name" ;;
     chem <- lift (Chemical nm) ;;
     for_each valid_properties (read_property chem i) ;;
     mixing_loop i)
    (fun e => print (MsgErrorMaterial i e)) ;;
  sleep (1 # 500) ;;
  print (MsgMaterialProcessed i).

(** What every iteration prints last. *)
Definition row_trailer (i : Z) : list event :=
  [Sleep (1 # 500); Print (MsgMaterialProcessed i)].

(** The row labelled [i] has no chemistry object: its name cannot be
    read, or the constructor raises on it. *)
Definition row_fails (material_bank : DataFrame) (i : Z) : Prop :=
  match loc_get material_bank i "name" with
  | Ok nm => exists e, Chemical nm = Raise e
  | Raise _ => True
  end.

(** Every read of the requested attributes returns or raises
    [AttributeError]. *)
Definition reads_guarded (chem : chemical) (valid_properties : list (string * string)) : Prop :=
  forall prop attr e,
    In (prop, attr) valid_properties -> getattr chem attr = Raise e -> e = AttributeError.

(** The column [col] is not in the table, or holds floats only, NaN
    among them. *)
Definition float_column (material_bank : DataFrame) (col : string) : Prop :=
  forall cells,
    find_column col (columns material_bank) = Some cells ->
    Forall (fun v => is_float v = true) cells.

(** The writes under the label [i] that pandas takes: a float into a
    column that is new or holds floats only. *)
Definition accepts_floats (i : Z) : Prop :=
  forall material_bank col v,
    is_float v = true -> float_column material_bank col ->
    write_error material_bank i col v = None.

(** Lines 102-105. *)
Definition init_mixing_columns : prog DataFrame unit :=
  for_each solvents (fun solvent =>
    for_each fractions (fun fraction =>
      modify (setitem (column_name solvent fraction) NaN))).

(** Lines 85-140, on the caller's [material_bank], mutated in place;
    [to_parquet(output_file, index=False)] writes the columns, outside
    every [try]: what it raises leaves the function. *)
Definition process_materials (properties : list string) (run_name : string)
  : prog DataFrame unit :=
  valid_properties <- call (validate properties ;; get) [] ;;
  init_mixing_columns ;;
  material_bank <- get ;;
  rows <- lift (range 0 (shape0 material_bank) 1) ;;
  for_each rows (row_iteration valid_properties) ;;
  material_bank <- get ;;
  emit (ToParquet (run_name ++ ".parquet")%string (columns material_bank)) ;;
  lift (to_parquet (run_name ++ ".parquet")%string (columns material_bank)).

(** The table when the row loop starts, and the row loop of a run. *)
Definition before_rows (material_bank : DataFrame) : DataFrame :=
  final init_mixing_columns material_bank.

Definition row_loop (properties : list string) (material_bank : DataFrame)
  : prog DataFrame unit :=
  for_each (range_items 0 (shape0 material_bank) 1)
           (row_iteration (valid_properties_of properties)).

End Enricher.

(** The columns written by a run. *)
Definition written (out : list event) : list (list (string * list pyval)) :=
  flat_map (fun e => match e with ToParquet _ table => [table] | _ => [] end) out.

Definition warned (out : list event) : list string :=
  flat_map (fun e => match e with Warn prop => [prop] | _ => [] end) out.

(** ** Vocabulary of the statements *)

(** The entry [key -> rec] of [batch_data] stems from the item [prop]:
    the item carries the structure string of the record, a true one,
    and an identifier that is the key or equals it. *)
Definition from_item (prop key : pyval) (rec : compound) : Prop :=
  py_get prop "IsomericSMILES" JNull = Ok (smiles rec) /\
  truthy (smiles rec) = true /\
  exists cid, py_get prop "CID" JNull = Ok cid /\ (key = cid \/ py_eq key cid = true).

(** The rows whose label is not [i]. *)
Definition other_rows (labels : list pyval) (i : Z) (p : nat) : Prop :=
  exists l, nth_error labels p = Some l /\ py_eq l (JInt i) = false.

(** What the row loop may do to a well-formed table: the index stays,
    no column is lost, only the columns [W] are written or created, a
    column of numbers and missing markers stays one, and the rows [K]
    are kept. *)
Definition written_within (W : list string) (K : nat -> Prop) (df df' : DataFrame) : Prop :=
  wf df ->
  wf df' /\
  index df' = index df /\
  (forall c, ~ In c W -> find_column c (columns df') = find_column c (columns df)) /\
  (forall c, In c (names df) -> In c (names df')) /\
  (forall c, In c (names df') -> In c (names df) \/ In c W) /\
  (forall c cells',
      find_column c (columns df') = Some cells' ->
      (forall cells, find_column c (columns df) = Some cells ->
                     Forall (fun v => numeric_or_missing v = true) cells) ->
      Forall (fun v => numeric_or_missing v = true) cells') /\
  (forall p, K p -> keeps p df df').

(** The same, for the writes of the iteration [i] once the label [i]
    was found in the index [labels]. *)
Definition row_write (W : list string) (labels : list pyval) (i : Z) (df df' : DataFrame) : Prop :=
  index df = labels -> has_label i df = true ->
  written_within W (other_rows labels i) df df'.

(** The row labelled [i] of a well-formed table has a name to read. *)
Definition named (i : Z) (nm : located) (df : DataFrame) : Prop :=
  wf df /\ loc_get df i "name" = Ok nm.

(** The columns of floats stay columns of floats. *)
Definition floats_kept (df df' : DataFrame) : Prop :=
  forall col, float_column df col -> float_column df' col.

(** What the writes of a row keep: the name to read, and the columns
    [N] as columns of floats. *)
Definition row_ready (N : list string) (i : Z) (nm : located) (df : DataFrame) : Prop :=
  named i nm df /\ forall c, In c N -> float_column df c.

(** One turn of the loop of lines 91-95 on [valid_properties]. *)
Definition validate_step (acc : list (string * string)) (prop : string)
  : list (string * string) :=
  match lookup prop supported_properties with
  | Some attr => store prop attr acc
  | None => acc
  end.

(** A dict of valid properties: distinct names, each with the attribute
    that the catalog gives it. *)
Definition consistent (d : list (string * string)) : Prop :=
  NoDup (map fst d) /\
  forall prop attr, In (prop, attr) d -> lookup prop supported_properties = Some attr.

(** ** Concrete worlds, for the examples *)

Module Examples.

Definition item (cid : Z) (structure : string) : pyval :=
  JObj [("CID", JInt cid); ("IsomericSMILES", JStr structure);
        ("IUPACName", JStr "methane"); ("MolecularFormula", JStr "CH4")].

Definition body (items : list pyval) : pyval :=
  JObj [("PropertyTable", JObj [("Properties", JArr items)])].

(** A server that answers every chunk with one full item and one item
    that has no structure string. *)
Definition server_missing_smiles (cids : list Z) : result response :=
  Ok {| status_code := 200;
        json := Ok (body [item 1 "C";
                          JObj [("CID", JInt 2); ("MolecularFormula", JStr "H2O")]]) |}.

(** A server that is down: every chunk gets status 503. *)
Definition server_unavailable (cids : list Z) : result response :=
  Ok {| status_code := 503; json := Raise ValueError |}.

(** A server whose list of items holds a number after a full item. *)
Definition server_broken_item (cids : list Z) : result response :=
  Ok {| status_code := 200; json := Ok (body [item 1 "C"; JInt 5; item 2 "CC"]) |}.

(** A server whose body is not JSON. *)
Definition server_not_json (cids : list Z) : result response :=
  Ok {| status_code := 200; json := Raise ValueError |}.

(** A server that answers every chunk with one item per identifier. *)
Definition server_complete (cids : list Z) : result response :=
  Ok {| status_code := 200; json := Ok (body (map (fun cid => item cid "C") cids)) |}.

(** A [thermo] that knows water and ethanol only, has no melting point
    for anything, fails on the triple point pressure with something
    other than [AttributeError], and mixes what it knows with water. *)
Definition known (nm : string) : bool :=
  String.eqb nm "water" || String.eqb nm "ethanol".

Definition thermo_Chemical (nm : located) : result string :=
  match nm with
  | Scalar (JStr s) => if known s then Ok s else Raise ValueError
  | _ => Raise TypeError
  end.

Definition thermo_getattr (chem attr : string) : result (option pyfloat) :=
  if String.eqb attr "Tm" then Raise AttributeError
  else if String.eqb attr "Pt" then Raise (OtherError "ZeroDivisionError")
  else if String.eqb attr "rho" then Ok (Some (FFinite 997))
  else Ok None.

Definition thermo_Mixture (components : list located) (zs : list Q)
  : result (string * list Q) :=
  match components with
  | [Scalar (JStr s); Scalar (JStr solvent)] =>
      if known s && String.eqb solvent "water" then Ok (s, zs) else Raise ValueError
  | _ => Raise TypeError
  end.

Definition thermo_Hm (mix : string * list Q) : result (option pyfloat) :=
  match snd mix with
  | z :: _ => Ok (Some (FFinite (z * 100)))
  | [] => Raise IndexError
  end.

(** A pandas that takes any value into a column that is new or holds
    numbers and missing markers only, takes a missing marker into any
    column, and raises [TypeError] on any other write, as on a float
    written into a column of strings. *)
Definition pandas_write_error (df : DataFrame) (i : Z) (col : string) (v : pyval)
  : option exn :=
  match find_column col (columns df) with
  | Some cells =>
      if forallb numeric_or_missing cells || is_missing v then None else Some TypeError
  | None => None
  end.

(** A pyarrow that cannot write a column that holds both a string and
    a number. *)
Definition is_string (v : pyval) : bool :=
  match v with
  | JStr _ => true
  | _ => false
  end.

Definition pyarrow_to_parquet (file : string) (table : list (string * list pyval))
  : result unit :=
  if existsb (fun c => existsb is_string (snd c) && existsb is_numeric (snd c)) table
  then Raise (OtherError "ArrowTypeError")
  else Ok tt.

(** Tables: one indexed 0, 1 as a file read gives it, one with the same
    rows under the labels 1, 0, one that already holds a density. *)
Definition two_rows : DataFrame :=
  {| index_name := None;
     index := [JInt 0; JInt 1];
     columns := [("name", [JStr "water"; JStr "unobtainium"])] |}.

Definition two_rows_swapped : DataFrame :=
  {| index_name := None;
     index := [JInt 1; JInt 0];
     columns := [("name", [JStr "water"; JStr "unobtainium"])] |}.

Definition enriched_before : DataFrame :=
  {| index_name := None;
     index := [JInt 0];
     columns := [("name", [JStr "unobtainium"]); ("density", [JFloat (FFinite 1)])] |}.

End Examples.

(** ** Vocabulary of the further statements *)

(** Labels no two of which are equal. *)
Definition distinct_labels (labels : list pyval) : Prop :=
  ForallOrdPairs (fun a b => py_eq a b = false) labels.

(** A key and a record that line 24 lets through. *)
Definition storable (key : pyval) (rec : compound) : Prop :=
  truthy key = true /\ hashable key = true /\ truthy (smiles rec) = true.

(** The record that lines 25-29 build from an item. *)
Definition record_of (prop : pyval) : compound :=
  match prop with
  | JObj members =>
      {| smiles := from_option JNull (obj_lookup "IsomericSMILES" members);
         name := from_option JNull (obj_lookup "IUPACName" members);
         formula := from_option JNull (obj_lookup "MolecularFormula" members) |}
  | _ => {| smiles := JNull; name := JNull; formula := JNull |}
  end.

(** An item of a response that carries the identifier [cid] and a true
    structure string. *)
Definition item_for (cid : Z) (prop : pyval) : Prop :=
  py_get prop "CID" JNull = Ok (JInt cid) /\
  exists s, py_get prop "IsomericSMILES" JNull = Ok s /\ truthy s = true.

(** The entry of [smiles_data] for the identifier [cid], when the item
    [item_of cid] is stored under it. *)
Definition entry_of (item_of : Z -> pyval) (cid : Z) : pyval * compound :=
  (JInt cid, record_of (item_of cid)).

(** The table of the complete answers to the identifiers of a range,
    and a server that gives them: status 200 and one item per
    identifier of the chunk, in the order of the chunk. *)
Definition fetched_table (item_of : Z -> pyval) (start_cid end_cid : Z) : DataFrame :=
  {| index_name := Some "CID";
     index := index (from_dict (map (entry_of item_of) (cid_list_of start_cid end_cid)));
     columns := columns (from_dict (map (entry_of item_of) (cid_list_of start_cid end_cid))) |}.

Definition complete_server (item_of : Z -> pyval) (requests_get : list Z -> result response)
           (start_cid end_cid batch_size : Z) : Prop :=
  forall c, In c (batches start_cid end_cid batch_size) ->
    exists r, requests_get c = Ok r /\ status_code r = 200 /\
              response_items r = Ok (map item_of c).

(** The lines of one iteration of the row loop: the error line when the
    row failed, then what every iteration prints last. *)
Definition row_lines (i : Z) (lines : list event) : Prop :=
  lines = row_trailer i \/ exists e, lines = Print (MsgErrorMaterial i e) :: row_trailer i.

(** The batch numbers that a run prints as completed, the rows that it
    prints as processed, and the rows that it prints as failed. *)
Definition completed (out : list event) : list Z :=
  flat_map (fun e => match e with Print (MsgBatchCompleted k) => [k] | _ => [] end) out.

Definition processed (out : list event) : list Z :=
  flat_map (fun e => match e with Print (MsgMaterialProcessed i) => [i] | _ => [] end) out.

Definition failed (out : list event) : list (Z * exn) :=
  flat_map (fun e => match e with Print (MsgErrorMaterial i x) => [(i, x)] | _ => [] end) out.

Module MoreExamples.

(** A connection that is lost from the identifier 5 on. *)
Definition server_lost (cids : list Z) : result response :=
  match cids with
  | c :: _ => if c <? 5 then Examples.server_complete cids
              else Raise (OtherError "ConnectionError")
  | [] => Raise (OtherError "ConnectionError")
  end.

(** A server that answers 200 with a body that has no table. *)
Definition server_no_table (cids : list Z) : result response :=
  Ok {| status_code := 200; json := Ok (JObj [("Fault", JStr "not found")]) |}.

(** A table that has no name column. *)
Definition unnamed_rows : DataFrame :=
  {| index_name := None;
     index := [JInt 0; JInt 1];
     columns := [("smiles", [JStr "O"; JStr "CCO"])] |}.

(** A server that answers any chunk with the identifiers 7, 2, 7. *)
Definition server_repeats (cids : list Z) : result response :=
  Ok {| status_code := 200;
        json := Ok (Examples.body [Examples.item 7 "C"; Examples.item 2 "O";
                                   Examples.item 7 "CCO"]) |}.

(** A table labelled by an identifier that already holds a density. *)
Definition labelled_5 : DataFrame :=
  {| index_name := Some "CID";
     index := [JInt 5];
     columns := [("name", [JStr "water"]); ("density", [JFloat (FFinite 1)])] |}.

(** A table whose density column holds text. *)
Definition text_density : DataFrame :=
  {| index_name := None;
     index := [JInt 0; JInt 1];
     columns := [("name", [JStr "water"; JStr "unobtainium"]);
                 ("density", [JStr "high"; JStr "low"])] |}.

(** A table whose name column holds a string and a number. *)
Definition mixed_names : DataFrame :=
  {| index_name := None;
     index := [JInt 0; JInt 1];
     columns := [("name", [JStr "water"; JInt 7])] |}.

End MoreExamples.

(** ** Ranges and chunks *)

Lemma firstn_seq_prefix (m start len : nat) :
  firstn m (seq start len) = seq start (Nat.min m len).
Proof.
  revert start len; induction m as [|m IH]; intros start [|len]; simpl; auto.
  now rewrite IH.
Qed.

Lemma seq_from (a m : nat) : seq a m = map (fun k => (a + k)%nat) (seq 0 m).
Proof.
  revert a; induction m as [|m IH]; intros a; simpl; auto.
  f_equal; [lia|].
  rewrite (IH (S a)), <- (seq_shift m 0), map_map.
  apply map_ext; intros; lia.
Qed.

Lemma firstn_plus {A} (a b : nat) (l : list A) :
  firstn (a + b) l = firstn a l ++ firstn b (skipn a l).
Proof.
  revert l; induction a as [|a IH]; intros [|x l]; simpl; auto.
  - now rewrite firstn_nil.
  - now rewrite IH.
Qed.

Lemma range_length_forward (start stop : Z) :
  compute_range_length start stop 1 = Z.max 0 (stop - start).
Proof.
  unfold compute_range_length; simpl.
  destruct (stop <=? start) eqn:E; [apply Z.leb_le in E | apply Z.leb_gt in E].
  - lia.
  - rewrite Z.div_1_r; lia.
Qed.

Lemma range_items_forward (start stop : Z) :
  range_items start stop 1 =
  map (fun k => start + Z.of_nat k) (seq 0 (Z.to_nat (stop - start))).
Proof.
  unfold range_items; rewrite range_length_forward.
  replace (Z.to_nat (Z.max 0 (stop - start))) with (Z.to_nat (stop - start)) by lia.
  apply map_ext; intros; lia.
Qed.

Lemma in_range_items (start stop x : Z) :
  In x (range_items start stop 1) <-> start <= x < stop.
Proof.
  rewrite range_items_forward, in_map_iff; split.
  - intros (k & <- & Hk); apply in_seq in Hk; lia.
  - intros H; exists (Z.to_nat (x - start)); split; [lia|]; apply in_seq; lia.
Qed.

Lemma NoDup_range_items (start stop : Z) : NoDup (range_items start stop 1).
Proof.
  rewrite range_items_forward.
  apply NoDup_map_NoDup_ForallPairs; [|apply seq_NoDup].
  intros a b _ _; lia.
Qed.

Lemma length_cid_list (start_cid end_cid : Z) :
  Z.of_nat (length (cid_list_of start_cid end_cid)) = Z.max 0 (end_cid - start_cid + 1).
Proof.
  unfold cid_list_of; rewrite range_items_forward, length_map, length_seq; lia.
Qed.

(** The number of offsets of [range(0, n, b)] is the ceiling of [n / b]. *)
Lemma range_length_ceiling (n b : Z) :
  0 <= n -> 0 < b ->
  let k := compute_range_length 0 n b in
  0 <= k /\ b * (k - 1) < n <= b * k.
Proof.
  intros Hn Hb; unfold compute_range_length.
  destruct (0 <? b) eqn:E; [|apply Z.ltb_ge in E; lia].
  destruct (n <=? 0) eqn:E'; [apply Z.leb_le in E' | apply Z.leb_gt in E']; simpl.
  - lia.
  - rewrite Z.sub_0_r.
    pose proof (Z.div_mod (n - 1) b ltac:(lia)).
    pose proof (Z.mod_pos_bound (n - 1) b Hb).
    pose proof (Z.div_pos (n - 1) b ltac:(lia) Hb).
    nia.
Qed.

(** A chunk taken at an offset inside the list is [batch_size] items
    from there on, or what is left. *)
Lemma slice_at_offset {A} (l : list A) (b : Z) (j : nat) :
  0 < b -> Z.of_nat j * b < Z.of_nat (length l) ->
  slice l (0 + Z.of_nat j * b) (0 + Z.of_nat j * b + b) =
  firstn (Z.to_nat b) (skipn (j * Z.to_nat b) l).
Proof.
  intros Hb Hj; unfold slice, adjust_index.
  destruct (0 + Z.of_nat j * b <? 0) eqn:E1; [apply Z.ltb_lt in E1; lia|].
  destruct (0 + Z.of_nat j * b + b <? 0) eqn:E2; [apply Z.ltb_lt in E2; lia|].
  replace (Z.to_nat (Z.min (0 + Z.of_nat j * b) (Z.of_nat (length l))))
    with (j * Z.to_nat b)%nat by nia.
  set (rest := skipn (j * Z.to_nat b) l).
  assert (Hrest : length rest = (length l - j * Z.to_nat b)%nat)
    by (subst rest; apply length_skipn).
  destruct (Z.le_gt_cases (0 + Z.of_nat j * b + b) (Z.of_nat (length l))) as [H|H].
  - f_equal; nia.
  - rewrite !firstn_all2; auto; rewrite Hrest; nia.
Qed.

Lemma batches_by_position (start_cid end_cid batch_size : Z) :
  0 < batch_size ->
  let cid_list := cid_list_of start_cid end_cid in
  batches start_cid end_cid batch_size =
  map (fun j => firstn (Z.to_nat batch_size) (skipn (j * Z.to_nat batch_size) cid_list))
      (seq 0 (Z.to_nat (compute_range_length 0 (Z.of_nat (length cid_list)) batch_size))).
Proof.
  intros Hb cid_list; unfold batches, range_items; fold cid_list.
  rewrite map_map; apply map_ext_in; intros j Hj; apply in_seq in Hj.
  apply slice_at_offset; auto.
  destruct (range_length_ceiling (Z.of_nat (length cid_list)) batch_size) as [? ?]; [lia|auto|].
  nia.
Qed.

Lemma concat_chunks {A} (l : list A) (b k : nat) :
  concat (map (fun j => firstn b (skipn (j * b) l)) (seq 0 k)) = firstn (k * b) l.
Proof.
  induction k as [|k IH]; [reflexivity|].
  rewrite seq_S, map_app, concat_app, IH; simpl.
  rewrite app_nil_r, <- firstn_plus; f_equal; lia.
Qed.

Lemma concat_batches (start_cid end_cid batch_size : Z) :
  0 < batch_size ->
  concat (batches start_cid end_cid batch_size) = cid_list_of start_cid end_cid.
Proof.
  intros Hb; rewrite batches_by_position by auto.
  rewrite concat_chunks; apply firstn_all2.
  destruct (range_length_ceiling (Z.of_nat (length (cid_list_of start_cid end_cid))) batch_size)
    as [? ?]; [lia|auto|]; nia.
Qed.

Lemma length_batches (start_cid end_cid batch_size : Z) :
  0 < batch_size ->
  Z.of_nat (length (batches start_cid end_cid batch_size)) =
  compute_range_length 0 (Z.max 0 (end_cid - start_cid + 1)) batch_size.
Proof.
  intros Hb; unfold batches, range_items.
  rewrite !length_map, length_seq, length_cid_list.
  destruct (range_length_ceiling (Z.max 0 (end_cid - start_cid + 1)) batch_size); [lia|auto|lia].
Qed.

(** The chunk at position [j] is the run of consecutive identifiers
    from [start_cid + j * batch_size], cut at [end_cid]. *)
Lemma nth_batch (start_cid end_cid batch_size : Z) (j : nat) (c : list Z) :
  0 < batch_size ->
  nth_error (batches start_cid end_cid batch_size) j = Some c ->
  c = range_items (start_cid + Z.of_nat j * batch_size)
        (Z.min (start_cid + (Z.of_nat j + 1) * batch_size) (end_cid + 1)) 1
  /\ start_cid + Z.of_nat j * batch_size <= end_cid.
Proof.
  intros Hb Hj.
  pose proof (length_cid_list start_cid end_cid) as Hlen.
  destruct (range_length_ceiling (Z.of_nat (length (cid_list_of start_cid end_cid))) batch_size)
    as [Hk0 Hk]; [lia|auto|].
  rewrite batches_by_position in Hj by auto.
  rewrite nth_error_map, nth_error_seq in Hj.
  destruct (j <? _)%nat eqn:E; [apply Nat.ltb_lt in E | discriminate].
  simpl in Hj; injection Hj as <-.
  assert (Hin : Z.of_nat j * batch_size <= end_cid - start_cid) by nia.
  split; [|lia].
  unfold cid_list_of; rewrite !range_items_forward.
  rewrite skipn_map, firstn_map, skipn_seq, firstn_seq_prefix.
  set (a := (j * Z.to_nat batch_size)%nat).
  set (m := Nat.min _ _).
  replace (Z.to_nat (Z.min _ _ - _)) with m by (subst m a; nia).
  rewrite (seq_from (0 + a)), map_map.
  apply map_ext; intros k; subst a; nia.
Qed.

Lemma batch_unique (start_cid end_cid batch_size cid : Z) :
  0 < batch_size -> start_cid <= cid <= end_cid ->
  exists j c,
    nth_error (batches start_cid end_cid batch_size) j = Some c /\ In cid c /\
    forall j' c', nth_error (batches start_cid end_cid batch_size) j' = Some c' ->
                  In cid c' -> j' = j.
Proof.
  intros Hb Hcid.
  set (j := Z.to_nat ((cid - start_cid) / batch_size)).
  pose proof (Z.div_mod (cid - start_cid) batch_size ltac:(lia)) as Hdm.
  pose proof (Z.mod_pos_bound (cid - start_cid) batch_size Hb) as Hmod.
  pose proof (Z.div_pos (cid - start_cid) batch_size ltac:(lia) Hb) as Hq.
  assert (Hj : (j < length (batches start_cid end_cid batch_size))%nat).
  { pose proof (length_batches start_cid end_cid batch_size Hb) as Hl.
    destruct (range_length_ceiling (Z.max 0 (end_cid - start_cid + 1)) batch_size)
      as [? ?]; [lia|auto|].
    subst j; nia. }
  destruct (nth_error (batches start_cid end_cid batch_size) j) as [c|] eqn:Hc;
    [|apply nth_error_None in Hc; lia].
  exists j, c; split; [exact Hc|].
  destruct (nth_batch _ _ _ _ _ Hb Hc) as [-> _].
  split.
  - apply in_range_items; subst j; nia.
  - intros j' c' Hc' Hin.
    destruct (nth_batch _ _ _ _ _ Hb Hc') as [-> _].
    apply in_range_items in Hin; subst j; nia.
Qed.

(** ** Equations of the effect layer *)

Lemma for_each_cons {S X} (x : X) (rest : list X) (body : X -> prog S unit) (s : S) :
  for_each (x :: rest) body s =
  match body x s with
  | (Ok _, s1, out1) =>
      let '(r, s2, out2) := for_each rest body s1 in (r, s2, out1 ++ out2)
  | (Raise e, s1, out1) => (Raise e, s1, out1)
  end.
Proof. reflexivity. Qed.

Lemma for_each_app {S X} (xs ys : list X) (body : X -> prog S unit) (s : S) :
  for_each (xs ++ ys) body s =
  match for_each xs body s with
  | (Ok _, s1, out1) =>
      let '(r, s2, out2) := for_each ys body s1 in (r, s2, out1 ++ out2)
  | (Raise e, s1, out1) => (Raise e, s1, out1)
  end.
Proof.
  revert s; induction xs as [|x xs IH]; intros s.
  - simpl; unfold ret; destruct (for_each ys body s) as [[r s2] out2]; reflexivity.
  - rewrite <- app_comm_cons, !for_each_cons.
    destruct (body x s) as [[[[]|e] s1] out1]; auto.
    rewrite IH.
    destruct (for_each xs body s1) as [[[[]|e] s2] out2]; auto.
    destruct (for_each ys body s2) as [[r s3] out3].
    now rewrite app_assoc.
Qed.

Section FetcherFacts.

Variable requests_get : list Z -> result response.

Lemma py_get_obj (members : list (string * pyval)) (key : string) (default : pyval) :
  py_get (JObj members) key default = Ok (from_option default (obj_lookup key members)).
Proof. reflexivity. Qed.

(** An item is stored, skipped, or stops the loop; nothing is emitted,
    and an item that raises leaves [batch_data] as it was. *)
Lemma store_item_cases (prop : pyval) (batch_data : dict compound) :
  (exists e, store_item prop batch_data = (Raise e, batch_data, [])) \/
  store_item prop batch_data = (Ok tt, batch_data, []) \/
  (exists cid s n f,
      py_get prop "CID" JNull = Ok cid /\
      py_get prop "IsomericSMILES" JNull = Ok s /\
      py_get prop "IUPACName" JNull = Ok n /\
      py_get prop "MolecularFormula" JNull = Ok f /\
      truthy cid = true /\ truthy s = true /\ hashable cid = true /\
      store_item prop batch_data =
      (Ok tt, dict_store cid {| smiles := s; name := n; formula := f |} batch_data, [])).
Proof.
  destruct prop as [| | | | | |members];
    try (left; exists AttributeError; reflexivity).
  unfold store_item, bind, lift, get, modify, ret, dict_setitem.
  rewrite !py_get_obj.
  set (cid := from_option JNull (obj_lookup "CID" members)).
  set (s := from_option JNull (obj_lookup "IsomericSMILES" members)).
  set (n := from_option JNull (obj_lookup "IUPACName" members)).
  set (f := from_option JNull (obj_lookup "MolecularFormula" members)).
  destruct (truthy cid) eqn:Hc; simpl; auto.
  destruct (truthy s) eqn:Hs; simpl; auto.
  destruct (hashable cid) eqn:Hh; simpl; eauto.
  right; right; exists cid, s, n, f; auto 10.
Qed.

(** An item without a structure string, or with an empty one, is skipped. *)
Lemma store_item_without_smiles (prop : pyval) (batch_data : dict compound) :
  py_get prop "IsomericSMILES" JNull = Ok JNull \/
  py_get prop "IsomericSMILES" JNull = Ok (JStr "") ->
  store_item prop batch_data = (Ok tt, batch_data, []).
Proof.
  intros H.
  destruct prop as [| | | | | |members]; try (destruct H; discriminate).
  unfold store_item, bind, lift, ret.
  rewrite py_get_obj in H; rewrite !py_get_obj.
  destruct H as [H|H]; injection H as ->; simpl; now rewrite andb_false_r.
Qed.

Lemma store_items_silent (items : list pyval) (batch_data : dict compound) :
  snd (for_each items store_item batch_data) = [].
Proof.
  revert batch_data; induction items as [|prop items IH]; intros bd; auto.
  rewrite for_each_cons.
  destruct (store_item_cases prop bd) as [[e ->]|[->|(?&?&?&?&_&_&_&_&_&_&_&->)]]; auto.
  - specialize (IH bd); destruct (for_each items store_item bd) as [[? ?] ?]; auto.
  - match goal with |- context [for_each items store_item ?d] =>
      specialize (IH d); destruct (for_each items store_item d) as [[? ?] ?] end; auto.
Qed.

Lemma parse_batch_silent (r : response) (batch_data : dict compound) :
  snd (parse_batch r batch_data) = [].
Proof.
  unfold parse_batch, bind, lift.
  destruct (response_items r) as [items|e]; auto.
  pose proof (store_items_silent items batch_data) as H.
  destruct (for_each items store_item batch_data) as [[? ?] ?]; auto.
Qed.

Lemma batch_bounds_nonempty {S} (cids : list Z) (s : S) :
  cids <> [] ->
  exists first last,
    first_item cids = Ok first /\ last_item cids = Ok last /\
    batch_bounds cids s = (Ok (first, last), s, []).
Proof.
  intros H; unfold batch_bounds, bind, lift, ret, first_item, last_item.
  destruct cids as [|c cids]; [congruence|].
  destruct (rev (c :: cids)) as [|l ?] eqn:E.
  - apply (f_equal (@length Z)) in E; rewrite length_rev in E; discriminate.
  - exists c, l; auto.
Qed.

(** The shape of a call: one request, then at most one printed line. *)
Lemma fetch_details_unfold {S} (cids : list Z) (s : S) :
  fetch_details_for_batch requests_get cids s =
  match requests_get cids with
  | Raise e => (Raise e, s, [HttpGet cids])
  | Ok r =>
      if status_code r =? 200 then
        match parse_batch r [] with
        | (Ok _, kept, _) => (Ok kept, s, [HttpGet cids])
        | (Raise e, kept, _) =>
            match first_item cids, last_item cids with
            | Ok first, Ok last =>
                (Ok kept, s, [HttpGet cids; Print (MsgErrorBatch first last e)])
            | Raise e', _ | _, Raise e' => (Raise e', s, [HttpGet cids])
            end
        end
      else
        match first_item cids, last_item cids with
        | Ok first, Ok last =>
            (Ok [], s, [HttpGet cids; Print (MsgFailedBatch first last (status_code r))])
        | Raise e', _ | _, Raise e' => (Raise e', s, [HttpGet cids])
        end
  end.
Proof.
  unfold fetch_details_for_batch, call, fetch_details_body, http_get, bind at 1 2.
  unfold emit, lift at 1; simpl.
  destruct (requests_get cids) as [r|e]; auto.
  destruct (status_code r =? 200).
  - unfold try_except, bind, get.
    pose proof (parse_batch_silent r []) as Hs.
    destruct (parse_batch r []) as [[[[]|e] kept] out]; simpl in Hs; subst out; auto.
    unfold batch_bounds, bind, lift, ret, print, emit; simpl.
    destruct (first_item cids), (last_item cids); auto.
  - unfold bind, get, batch_bounds, lift, ret, print, emit; simpl.
    destruct (first_item cids), (last_item cids); auto.
Qed.


Lemma in_dict_store {V} (k : pyval) (v : V) (d : dict V) (k' : pyval) (v' : V) :
  In (k', v') (dict_store k v d) ->
  In (k', v') d \/ (v' = v /\ (k' = k \/ py_eq k' k = true)).
Proof.
  induction d as [|[k0 v0] d IH]; simpl.
  - intros [H|[]]; injection H as <- <-; auto.
  - destruct (py_eq k0 k) eqn:E; simpl.
    + intros [H|H]; auto; injection H as <- <-; auto.
    + intros [H|H]; auto; destruct (IH H); auto.
Qed.

Lemma store_items_from_items (all items : list pyval) (batch_data : dict compound) :
  incl items all ->
  (forall k rec, In (k, rec) batch_data -> exists prop, In prop all /\ from_item prop k rec) ->
  forall k rec, In (k, rec) (snd (fst (for_each items store_item batch_data))) ->
                exists prop, In prop all /\ from_item prop k rec.
Proof.
  revert batch_data; induction items as [|prop items IH]; intros bd Hincl Hbd; auto.
  assert (Hprop : In prop all) by (apply Hincl; left; reflexivity).
  assert (Hrest : incl items all) by (intros x Hx; apply Hincl; right; exact Hx).
  rewrite for_each_cons.
  destruct (store_item_cases prop bd)
    as [[e ->]|[->|(cid&s&n&f&Hcid&Hs&_&_&_&Hts&_&->)]]; auto.
  - specialize (IH bd Hrest Hbd).
    destruct (for_each items store_item bd) as [[? ?] ?]; auto.
  - match goal with |- context [for_each items store_item ?d] =>
      specialize (IH d Hrest); destruct (for_each items store_item d) as [[? ?] ?] end.
    apply IH; intros k rec Hin.
    apply in_dict_store in Hin; destruct Hin as [Hin|[-> Hk]]; auto.
    exists prop; split; auto.
    split; [exact Hs|]; split; [exact Hts|]; exists cid; auto.
Qed.

Lemma truthy_string (v : pyval) :
  truthy v = true -> v <> JNull /\ v <> JStr "".
Proof. intros H; split; intros ->; discriminate. Qed.

End FetcherFacts.

(** ** The fetcher, chunk by chunk *)

Lemma dict_update_empty {V} (d : dict V) : dict_update d [] = d.
Proof. reflexivity. Qed.

Lemma batch_iteration_unfold (requests_get : list Z -> result response)
      (cid_list : list Z) (batch_size i : Z) (smiles_data : dict compound) :
  batch_iteration requests_get cid_list batch_size i smiles_data =
  match fetch_details_for_batch requests_get (slice cid_list i (i + batch_size)) smiles_data with
  | (Ok batch_data, _, out) =>
      (Ok tt, dict_update smiles_data batch_data,
       out ++ [Sleep (1 # 5); Print (MsgBatchCompleted (i / batch_size + 1))])
  | (Raise e, _, out) => (Raise e, smiles_data, out)
  end.
Proof.
  unfold batch_iteration, bind at 1.
  set (cids := slice cid_list i (i + batch_size)).
  rewrite fetch_details_unfold.
  destruct (requests_get cids) as [r|e]; auto.
  destruct (status_code r =? 200).
  - destruct (parse_batch r []) as [[[[]|e] kept] out]; auto.
    destruct (first_item cids), (last_item cids); auto.
  - destruct (first_item cids), (last_item cids); auto.
Qed.

(** Claim C2.  Whatever the server answers, every entry of the mapping
    that [fetch_details_for_batch] returns stems from an item of the
    response whose structure field is there and is true, so neither
    [None] nor the empty string; and an item whose structure string is
    missing, null or empty is skipped: it leaves the mapping as it
    is. *)
Theorem fetch_details_requires_smiles (requests_get : list Z -> result response)
        (cids : list Z) (batch_data : dict compound) (out : list event) :
  run (fetch_details_for_batch requests_get cids) = (Ok batch_data, out) ->
  (forall key rec, In (key, rec) batch_data ->
     smiles rec <> JNull /\ smiles rec <> JStr "" /\
     exists r items prop,
       requests_get cids = Ok r /\ status_code r = 200 /\
       response_items r = Ok items /\ In prop items /\ from_item prop key rec) /\
  (forall prop kept,
     py_get prop "IsomericSMILES" JNull = Ok JNull \/
     py_get prop "IsomericSMILES" JNull = Ok (JStr "") ->
     store_item prop kept = (Ok tt, kept, [])).
Proof.
  intros Hrun; split; [|intros; now apply store_item_without_smiles].
  intros key rec Hin.
  assert (H : exists r items prop,
             requests_get cids = Ok r /\ status_code r = 200 /\
             response_items r = Ok items /\ In prop items /\ from_item prop key rec).
  { unfold run in Hrun; rewrite fetch_details_unfold in Hrun.
    destruct (requests_get cids) as [r|e]; [|discriminate].
    destruct (status_code r =? 200) eqn:E.
    - apply Z.eqb_eq in E.
      assert (Hkept : In (key, rec) (snd (fst (parse_batch r [])))).
      { destruct (parse_batch r []) as [[[[]|e] kept] o]; simpl.
        - injection Hrun as <- _; auto.
        - destruct (first_item cids), (last_item cids); try discriminate.
          injection Hrun as <- _; auto. }
      clear Hrun; unfold parse_batch, bind, lift in Hkept.
      destruct (response_items r) as [items|e] eqn:Hitems; [|destruct Hkept].
      assert (Hloop : In (key, rec) (snd (fst (for_each items store_item [])))).
      { destruct (for_each items store_item []) as [[? ?] ?]; exact Hkept. }
      destruct (store_items_from_items items items [] (incl_refl _)
                  ltac:(intros ? ? []) key rec Hloop) as (prop & Hprop & Hfrom).
      exists r, items, prop; auto.
    - destruct (first_item cids), (last_item cids); try discriminate.
      injection Hrun as <- _; destruct Hin. }
  destruct H as (r & items & prop & H1 & H2 & H3 & H4 & H5).
  destruct (truthy_string (smiles rec)) as [? ?]; [apply H5|].
  repeat split; auto; exists r, items, prop; auto.
Qed.

Lemma fetch_details_requires_smiles_witness :
  smiles {| smiles := JStr "C"; name := JStr "methane"; formula := JStr "CH4" |} <> JNull.
Proof.
  apply (proj1 (fetch_details_requires_smiles Examples.server_missing_smiles [1; 2]
                  [(JInt 1, {| smiles := JStr "C"; name := JStr "methane";
                               formula := JStr "CH4" |})]
                  [HttpGet [1; 2]] eq_refl) (JInt 1)).
  left; reflexivity.
Defined.

(** Claim C3.  For a chunk of the run whose request returns a status
    other than 200, [fetch_details_for_batch] returns the empty mapping
    after one request and one printed line that carries the bounds of
    the chunk and the status; and in the loop of
    [generate_material_bank] the iteration of this chunk leaves
    [smiles_data] as it is and is followed by the iterations of the
    other chunks, which run as they would without it. *)
Theorem failed_status_contributes_nothing (requests_get : list Z -> result response)
        (cid_list : list Z) (batch_size i : Z) (r : response) :
  let cids := slice cid_list i (i + batch_size) in
  cids <> [] -> requests_get cids = Ok r -> status_code r <> 200 ->
  exists first last,
    first_item cids = Ok first /\ last_item cids = Ok last /\
    (forall S (s : S),
       fetch_details_for_batch requests_get cids s =
       (Ok [], s, [HttpGet cids; Print (MsgFailedBatch first last (status_code r))])) /\
    (forall rest smiles_data,
       for_each (i :: rest) (batch_iteration requests_get cid_list batch_size) smiles_data =
       let '(res, final, out) :=
         for_each rest (batch_iteration requests_get cid_list batch_size) smiles_data in
       (res, final,
        [HttpGet cids; Print (MsgFailedBatch first last (status_code r));
         Sleep (1 # 5); Print (MsgBatchCompleted (i / batch_size + 1))] ++ out)).
Proof.
  intros cids Hne Hget Hstatus.
  destruct (batch_bounds_nonempty cids tt Hne) as (first & last & Hf & Hl & _).
  assert (Hfetch : forall S (s : S),
             fetch_details_for_batch requests_get cids s =
             (Ok [], s, [HttpGet cids; Print (MsgFailedBatch first last (status_code r))])).
  { intros S s; rewrite fetch_details_unfold, Hget, Hf, Hl.
    destruct (status_code r =? 200) eqn:E; auto.
    apply Z.eqb_eq in E; contradiction. }
  exists first, last; repeat split; auto.
  intros rest smiles_data.
  rewrite for_each_cons, batch_iteration_unfold; fold cids; rewrite Hfetch.
  rewrite dict_update_empty.
  destruct (for_each rest _ smiles_data) as [[res final] out]; reflexivity.
Qed.

Lemma failed_status_contributes_nothing_witness :
  exists first last,
    first_item [1; 2] = Ok first /\ last_item [1; 2] = Ok last /\
    fetch_details_for_batch Examples.server_unavailable [1; 2] tt =
    (Ok [], tt, [HttpGet [1; 2]; Print (MsgFailedBatch first last 503)]).
Proof.
  destruct (failed_status_contributes_nothing Examples.server_unavailable
              [1; 2; 3] 2 0 {| status_code := 503; json := Raise ValueError |})
    as (first & last & Hf & Hl & Hfetch & _).
  - discriminate.
  - reflexivity.
  - simpl; lia.
  - exists first, last.
    split; [exact Hf|split; [exact Hl|exact (Hfetch unit tt)]].
Defined.

(** Claim C4 has the mapping empty even when the exception comes after
    some items were stored.  On a response whose second item is a
    number the loop stops at that item with [AttributeError], and the
    mapping that is returned holds the first item. *)
Lemma parse_failure_keeps_earlier_items :
  run (fetch_details_for_batch Examples.server_broken_item [1; 2]) =
  (Ok [(JInt 1, {| smiles := JStr "C"; name := JStr "methane"; formula := JStr "CH4" |})],
   [HttpGet [1; 2]; Print (MsgErrorBatch 1 2 AttributeError)])
  /\ fst (run (fetch_details_for_batch Examples.server_broken_item [1; 2])) <> Ok [].
Proof. split; [reflexivity|discriminate]. Qed.

(** Claim C4, as the code has it.  For a chunk whose request returns
    status 200: when the body is not JSON, or the list of items cannot
    be reached in it or iterated, the error is printed and the mapping
    is empty; when an item raises inside the loop, the error is printed
    and the mapping holds what the items before it stored. *)
Theorem parse_failure_keeps_prefix (requests_get : list Z -> result response)
        (cids : list Z) (r : response) :
  cids <> [] -> requests_get cids = Ok r -> status_code r = 200 ->
  exists first last,
    first_item cids = Ok first /\ last_item cids = Ok last /\
    (forall e S (s : S),
       response_items r = Raise e ->
       fetch_details_for_batch requests_get cids s =
       (Ok [], s, [HttpGet cids; Print (MsgErrorBatch first last e)])) /\
    (forall before bad after kept e S (s : S),
       response_items r = Ok (before ++ bad :: after) ->
       for_each before store_item [] = (Ok tt, kept, []) ->
       store_item bad kept = (Raise e, kept, []) ->
       fetch_details_for_batch requests_get cids s =
       (Ok kept, s, [HttpGet cids; Print (MsgErrorBatch first last e)])).
Proof.
  intros Hne Hget Hstatus.
  destruct (batch_bounds_nonempty cids tt Hne) as (first & last & Hf & Hl & _).
  exists first, last; repeat split; auto.
  - intros e S s Hitems.
    rewrite fetch_details_unfold, Hget, Hstatus, Hf, Hl; simpl.
    unfold parse_batch, bind, lift; rewrite Hitems; reflexivity.
  - intros before bad after kept e S s Hitems Hbefore Hbad.
    rewrite fetch_details_unfold, Hget, Hstatus, Hf, Hl; simpl.
    unfold parse_batch, bind, lift; rewrite Hitems.
    rewrite for_each_app, Hbefore, for_each_cons, Hbad; reflexivity.
Qed.

Lemma parse_failure_keeps_prefix_witness :
  exists first last,
    fetch_details_for_batch Examples.server_not_json [7; 8; 9] tt =
    (Ok [], tt, [HttpGet [7; 8; 9]; Print (MsgErrorBatch first last ValueError)]).
Proof.
  destruct (parse_failure_keeps_prefix Examples.server_not_json [7; 8; 9]
              {| status_code := 200; json := Raise ValueError |})
    as (first & last & _ & _ & Hparse & _).
  - discriminate.
  - reflexivity.
  - reflexivity.
  - exists first, last; apply (Hparse ValueError unit tt); reflexivity.
Defined.

(** ** The requests of a run *)

Lemma requested_app (out1 out2 : list event) :
  requested (out1 ++ out2) = requested out1 ++ requested out2.
Proof. apply flat_map_app. Qed.

(** A call on a chunk that is not empty returns whenever the request does. *)
Lemma fetch_details_returns (requests_get : list Z -> result response)
      (cids : list Z) (r : response) :
  cids <> [] -> requests_get cids = Ok r ->
  exists batch_data out,
    requested out = [] /\
    forall S (s : S),
      fetch_details_for_batch requests_get cids s = (Ok batch_data, s, HttpGet cids :: out).
Proof.
  intros Hne Hget.
  destruct (batch_bounds_nonempty cids tt Hne) as (first & last & Hf & Hl & _).
  destruct (status_code r =? 200) eqn:E.
  - destruct (parse_batch r []) as [[[[]|e] kept] o] eqn:Hp.
    + exists kept, []; split; auto; intros S s.
      now rewrite fetch_details_unfold, Hget, E, Hp.
    + exists kept, [Print (MsgErrorBatch first last e)]; split; auto; intros S s.
      now rewrite fetch_details_unfold, Hget, E, Hp, Hf, Hl.
  - exists [], [Print (MsgFailedBatch first last (status_code r))]; split; auto; intros S s.
    now rewrite fetch_details_unfold, Hget, E, Hf, Hl.
Qed.

Lemma batch_loop_requests (requests_get : list Z -> result response)
      (cid_list : list Z) (batch_size : Z) (offsets : list Z) (smiles_data : dict compound) :
  (forall i, In i offsets ->
     slice cid_list i (i + batch_size) <> [] /\
     exists r, requests_get (slice cid_list i (i + batch_size)) = Ok r) ->
  exists final out,
    for_each offsets (batch_iteration requests_get cid_list batch_size) smiles_data =
    (Ok tt, final, out) /\
    requested out = map (fun i => slice cid_list i (i + batch_size)) offsets.
Proof.
  revert smiles_data; induction offsets as [|i offsets IH]; intros sd H.
  - exists sd, []; auto.
  - destruct (H i (or_introl eq_refl)) as [Hne [r Hr]].
    destruct (fetch_details_returns requests_get _ _ Hne Hr) as (bd & o & Ho & Hfetch).
    destruct (IH (dict_update sd bd)) as (final & out & Hrest & Hreq).
    { intros i' Hi'; apply H; right; exact Hi'. }
    exists final; eexists; split.
    + rewrite for_each_cons, batch_iteration_unfold, Hfetch, Hrest; reflexivity.
    + simpl; rewrite !requested_app, Ho, Hreq; reflexivity.
Qed.

Lemma batches_nonempty (start_cid end_cid batch_size : Z) (c : list Z) :
  0 < batch_size -> In c (batches start_cid end_cid batch_size) -> c <> [].
Proof.
  intros Hb Hin; apply In_nth_error in Hin; destruct Hin as [j Hj].
  destruct (nth_batch _ _ _ _ _ Hb Hj) as [-> Hle].
  intros Hnil.
  assert (Hin : In (start_cid + Z.of_nat j * batch_size)
                   (range_items (start_cid + Z.of_nat j * batch_size)
                      (Z.min (start_cid + (Z.of_nat j + 1) * batch_size) (end_cid + 1)) 1))
    by (apply in_range_items; lia).
  rewrite Hnil in Hin; destruct Hin.
Qed.

(** Claim C1 gives the chunk sizes 100, 100, 51 for the range 1-250 and
    batch size 100.  The range holds 250 identifiers: the sizes are not
    100, 100, 51. *)
Lemma chunk_sizes_1_250 :
  map (@length Z) (batches 1 250 100) <> [100; 100; 51]%nat.
Proof. vm_compute; discriminate. Qed.

(** Claim C1, with the sizes that the code gives.  For every inclusive
    range [start_cid, end_cid] and every positive batch size,
    [generate_material_bank] cuts the range into contiguous chunks:
    the number of chunks is the ceiling of range size / batch size; the
    chunks, in order, concatenate to the identifiers of the range, which
    are distinct and are exactly the integers from [start_cid] to
    [end_cid]; the chunk at position [j] is not empty and is the run of
    consecutive identifiers from [start_cid + j * batch_size], cut at
    [end_cid]; every identifier of the range is in one chunk and in no
    other; when every request returns, the requests of a run are these
    chunks in this order; and for the range 1-250 with batch size 100
    there are 3 chunks, of sizes 100, 100, 50. *)
Theorem chunks_partition_range (start_cid end_cid batch_size : Z) :
  0 < batch_size ->
  let chunks := batches start_cid end_cid batch_size in
  let size := Z.max 0 (end_cid - start_cid + 1) in
  let count := Z.of_nat (length chunks) in
  (batch_size * (count - 1) < size <= batch_size * count) /\
  count = (size + batch_size - 1) / batch_size /\
  concat chunks = cid_list_of start_cid end_cid /\
  NoDup (cid_list_of start_cid end_cid) /\
  (forall cid, In cid (cid_list_of start_cid end_cid) <-> start_cid <= cid <= end_cid) /\
  (forall j c, nth_error chunks j = Some c ->
     c <> [] /\
     c = range_items (start_cid + Z.of_nat j * batch_size)
           (Z.min (start_cid + (Z.of_nat j + 1) * batch_size) (end_cid + 1)) 1) /\
  (forall cid, start_cid <= cid <= end_cid ->
     exists j c,
       nth_error chunks j = Some c /\ In cid c /\
       forall j' c', nth_error chunks j' = Some c' -> In cid c' -> j' = j) /\
  (forall requests_get : list Z -> result response,
     (forall c, In c chunks -> exists r, requests_get c = Ok r) ->
     exists material_bank out,
       run (generate_material_bank requests_get start_cid end_cid batch_size) =
       (Ok material_bank, out) /\
       requested out = chunks) /\
  map (@length Z) (batches 1 250 100) = [100; 100; 50]%nat.
Proof.
  intros Hb chunks size count.
  assert (Hcount : batch_size * (count - 1) < size <= batch_size * count).
  { subst count chunks; rewrite length_batches by auto.
    apply range_length_ceiling; subst size; lia. }
  split; [exact Hcount|].
  split; [apply Z.div_unique with (r := size + batch_size - 1 - batch_size * count); lia|].
  split; [apply concat_batches; auto|].
  split; [apply NoDup_range_items|].
  split; [intros cid; unfold cid_list_of; rewrite in_range_items; lia|].
  split.
  { intros j c Hj; split.
    - apply (batches_nonempty start_cid end_cid batch_size); auto.
      eapply nth_error_In; exact Hj.
    - apply (nth_batch _ _ _ _ _ Hb Hj). }
  split; [intros cid Hcid; apply batch_unique; auto|].
  split; [|vm_compute; reflexivity].
  intros requests_get Hget.
  unfold run, generate_material_bank, call, generate_body, bind at 1, lift at 1, range.
  destruct (batch_size =? 0) eqn:E; [apply Z.eqb_eq in E; lia|].
  destruct (batch_loop_requests requests_get (cid_list_of start_cid end_cid) batch_size
              (range_items 0 (Z.of_nat (length (cid_list_of start_cid end_cid))) batch_size) [])
    as (final & out & Hloop & Hreq).
  { intros i Hi.
    assert (Hin : In (slice (cid_list_of start_cid end_cid) i (i + batch_size)) chunks)
      by (subst chunks; unfold batches;
          apply (in_map (fun i => slice (cid_list_of start_cid end_cid) i (i + batch_size)));
          exact Hi).
    split; [apply (batches_nonempty start_cid end_cid batch_size); auto | apply Hget; auto]. }
  unfold bind at 1; rewrite Hloop.
  unfold bind, get, ret; simpl.
  do 2 eexists; split; [reflexivity|].
  rewrite !app_nil_r; exact Hreq.
Qed.

Lemma chunks_partition_range_witness :
  concat (batches 1 250 100) = cid_list_of 1 250.
Proof.
  apply (chunks_partition_range 1 250 100); lia.
Defined.

(** ** The table operations *)

Lemma find_column_replace_same (col : string) (cells : list pyval) cols :
  find_column col (replace_column col cells cols) = Some cells.
Proof.
  induction cols as [|[c old] cols IH]; simpl.
  - now rewrite String.eqb_refl.
  - destruct (String.eqb c col) eqn:E; simpl; rewrite E; auto.
Qed.

Lemma find_column_replace_other (c col : string) (cells : list pyval) cols :
  c <> col -> find_column c (replace_column col cells cols) = find_column c cols.
Proof.
  intros Hne; induction cols as [|[c0 old] cols IH]; simpl.
  - destruct (String.eqb col c) eqn:E; auto.
    apply String.eqb_eq in E; congruence.
  - destruct (String.eqb c0 col) eqn:E; simpl.
    + apply String.eqb_eq in E; subst c0.
      destruct (String.eqb col c) eqn:E'; auto.
      apply String.eqb_eq in E'; congruence.
    + destruct (String.eqb c0 c); auto.
Qed.

Lemma find_column_In (c : string) cols :
  In c (map fst cols) <-> find_column c cols <> None.
Proof.
  induction cols as [|[c0 cells] cols IH]; simpl.
  - split; [intros []|congruence].
  - destruct (String.eqb c0 c) eqn:E.
    + apply String.eqb_eq in E; split; [congruence|auto].
    + apply String.eqb_neq in E; rewrite <- IH; split; [intros [?|?]; [congruence|auto]|auto].
Qed.

Lemma find_column_member (c : string) cells cols :
  find_column c cols = Some cells -> In (c, cells) cols.
Proof.
  induction cols as [|[c0 old] cols IH]; simpl; [discriminate|].
  destruct (String.eqb c0 c) eqn:E; auto.
  apply String.eqb_eq in E; subst c0; intros H; injection H as ->; auto.
Qed.

Lemma names_replace (col : string) (cells : list pyval) cols :
  map fst (replace_column col cells cols) =
  match find_column col cols with
  | Some _ => map fst cols
  | None => map fst cols ++ [col]
  end.
Proof.
  induction cols as [|[c old] cols IH]; simpl; auto.
  destruct (String.eqb c col) eqn:E; simpl; auto.
  rewrite IH; destruct (find_column col cols); auto.
Qed.

Lemma in_names_replace (c col : string) (cells : list pyval) cols :
  In c (map fst (replace_column col cells cols)) <-> In c (map fst cols) \/ c = col.
Proof.
  rewrite names_replace.
  destruct (find_column col cols) eqn:E.
  - split; auto; intros [H| ->]; auto.
    apply find_column_In; congruence.
  - rewrite in_app_iff; simpl; intuition congruence.
Qed.

Lemma NoDup_names_replace (col : string) (cells : list pyval) cols :
  NoDup (map fst cols) -> NoDup (map fst (replace_column col cells cols)).
Proof.
  intros H; rewrite names_replace.
  destruct (find_column col cols) eqn:E; auto.
  apply NoDup_app; repeat split; auto.
  - constructor; [intros []|constructor].
  - intros x Hx [<-|[]]; apply find_column_In in Hx; congruence.
Qed.

Lemma Forall_replace (P : string * list pyval -> Prop) (col : string) cells cols :
  P (col, cells) -> Forall P cols -> Forall P (replace_column col cells cols).
Proof.
  intros Hc H; induction H as [|[c old] cols Hx Hcols IH]; simpl; auto.
  destruct (String.eqb c col) eqn:E; auto.
  apply String.eqb_eq in E; subst c; auto.
Qed.

Lemma length_assign (i v : pyval) (labels cells : list pyval) :
  length (assign i v labels cells) = length cells.
Proof.
  revert cells; induction labels as [|l labels IH]; intros [|c cells]; simpl; auto.
Qed.

Lemma nth_error_assign (i v : pyval) (labels cells : list pyval) (p : nat) (l c : pyval) :
  nth_error labels p = Some l -> nth_error cells p = Some c ->
  nth_error (assign i v labels cells) p = Some (if py_eq l i then v else c).
Proof.
  revert labels cells; induction p as [|p IH]; intros [|l0 labels] [|c0 cells]; simpl;
    try discriminate.
  - intros H1 H2; injection H1 as ->; injection H2 as ->; reflexivity.
  - apply IH.
Qed.

Lemma Forall_assign (P : pyval -> Prop) (i v : pyval) (labels cells : list pyval) :
  P v -> Forall P cells -> Forall P (assign i v labels cells).
Proof.
  intros Hv H; revert labels; induction H as [|c cells Hc Hcells IH]; intros [|l labels];
    simpl; auto.
  constructor; auto; destruct (py_eq l i); auto.
Qed.

Lemma Forall_repeat {A} (P : A -> Prop) (x : A) (n : nat) : P x -> Forall P (repeat x n).
Proof. intros H; induction n; simpl; auto. Qed.

Lemma nth_error_repeat_lt {A} (x : A) (n p : nat) :
  (p < n)%nat -> nth_error (repeat x n) p = Some x.
Proof.
  revert p; induction n as [|n IH]; intros [|p] H; simpl; auto; try lia.
  apply IH; lia.
Qed.

Lemma wf_column (df : DataFrame) (c : string) (cells : list pyval) :
  wf df -> find_column c (columns df) = Some cells -> length cells = length (index df).
Proof.
  intros [_ Hlen] Hc; apply find_column_member in Hc.
  rewrite Forall_forall in Hlen; apply (Hlen _ Hc).
Qed.

(** *** [df[col] = v] *)

Lemma wf_setitem (col : string) (v : pyval) (df : DataFrame) : wf df -> wf (setitem col v df).
Proof.
  intros [Hnd Hlen]; split; simpl.
  - apply NoDup_names_replace; auto.
  - apply Forall_replace; auto; simpl; apply repeat_length.
Qed.

(** *** [df.loc[i, col] = v] on a label of the index *)

Lemma loc_set_labelled (i : Z) (col : string) (v : pyval) (df : DataFrame) :
  has_label i df = true ->
  loc_set i col v df =
  {| index_name := index_name df;
     index := index df;
     columns :=
       replace_column col
         (assign (JInt i) v (index df)
            (from_option (repeat NaN (length (index df))) (find_column col (columns df))))
         (columns df) |}.
Proof.
  unfold loc_set; intros ->.
  destruct (find_column col (columns df)); reflexivity.
Qed.

Lemma wf_loc_set (i : Z) (col : string) (v : pyval) (df : DataFrame) :
  wf df -> has_label i df = true -> wf (loc_set i col v df).
Proof.
  intros Hwf Hi; rewrite loc_set_labelled by auto.
  destruct Hwf as [Hnd Hlen]; split; simpl.
  - apply NoDup_names_replace; auto.
  - apply Forall_replace; auto; simpl.
    rewrite length_assign.
    destruct (find_column col (columns df)) as [cells|] eqn:E; simpl.
    + apply (wf_column df col cells); [split; auto | auto].
    + apply repeat_length.
Qed.

Lemma index_loc_set (i : Z) (col : string) (v : pyval) (df : DataFrame) :
  has_label i df = true -> index (loc_set i col v df) = index df.
Proof. intros Hi; rewrite loc_set_labelled by auto; reflexivity. Qed.

Lemma find_column_loc_set_other (i : Z) (c col : string) (v : pyval) (df : DataFrame) :
  has_label i df = true -> c <> col ->
  find_column c (columns (loc_set i col v df)) = find_column c (columns df).
Proof.
  intros Hi Hne; rewrite loc_set_labelled by auto; simpl.
  apply find_column_replace_other; auto.
Qed.

Lemma in_names_loc_set (i : Z) (c col : string) (v : pyval) (df : DataFrame) :
  has_label i df = true ->
  (In c (names (loc_set i col v df)) <-> In c (names df) \/ c = col).
Proof.
  intros Hi; rewrite loc_set_labelled by auto; unfold names; simpl.
  apply in_names_replace.
Qed.

(** The cell that the write is for, at a row that carries the label. *)
Lemma cell_loc_set_written (i : Z) (col : string) (v : pyval) (df : DataFrame)
      (p : nat) (l : pyval) :
  wf df -> nth_error (index df) p = Some l -> py_eq l (JInt i) = true ->
  cell (loc_set i col v df) p col = Some v.
Proof.
  intros Hwf Hp Hl.
  assert (Hi : has_label i df = true).
  { unfold has_label; apply existsb_exists; exists l; split; auto.
    eapply nth_error_In; eauto. }
  rewrite loc_set_labelled by auto; unfold cell; simpl.
  rewrite find_column_replace_same.
  assert (Hlt : (p < length (index df))%nat) by (apply nth_error_Some; congruence).
  destruct (find_column col (columns df)) as [cells|] eqn:E; simpl.
  - destruct (nth_error cells p) as [c|] eqn:Hc.
    + rewrite (nth_error_assign _ _ _ _ _ _ _ Hp Hc), Hl; reflexivity.
    + apply nth_error_None in Hc; rewrite (wf_column df col cells Hwf E) in Hc; lia.
  - rewrite (nth_error_assign _ _ _ _ _ _ _ Hp (nth_error_repeat_lt NaN _ _ Hlt)), Hl; reflexivity.
Qed.

(** A write for the label [i] keeps the rows that carry another label. *)
Lemma keeps_loc_set (i : Z) (col : string) (v : pyval) (df : DataFrame)
      (p : nat) (l : pyval) :
  wf df -> has_label i df = true ->
  nth_error (index df) p = Some l -> py_eq l (JInt i) = false ->
  keeps p df (loc_set i col v df).
Proof.
  intros Hwf Hi Hp Hl c.
  rewrite loc_set_labelled by auto; unfold cell; simpl.
  destruct (string_dec c col) as [->|Hne].
  - rewrite find_column_replace_same.
    assert (Hlt : (p < length (index df))%nat) by (apply nth_error_Some; congruence).
    destruct (find_column col (columns df)) as [cells|] eqn:E; simpl.
    + left; destruct (nth_error cells p) as [c|] eqn:Hc.
      * rewrite (nth_error_assign _ _ _ _ _ _ _ Hp Hc), Hl; reflexivity.
      * apply nth_error_None in Hc; rewrite (wf_column df col cells Hwf E) in Hc; lia.
    + right; split; auto.
      rewrite (nth_error_assign _ _ _ _ _ _ _ Hp (nth_error_repeat_lt NaN _ _ Hlt)), Hl; reflexivity.
  - left; rewrite find_column_replace_other by auto; reflexivity.
Qed.

Lemma keeps_refl (p : nat) (df : DataFrame) : keeps p df df.
Proof. intros c; auto. Qed.

Lemma keeps_trans (p : nat) (df1 df2 df3 : DataFrame) :
  keeps p df1 df2 -> keeps p df2 df3 -> keeps p df1 df3.
Proof.
  intros H12 H23 c.
  destruct (H12 c) as [E1|[E1 E1']], (H23 c) as [E2|[E2 E2']].
  - left; congruence.
  - right; split; congruence.
  - right; split; congruence.
  - congruence.
Qed.

Lemma select_labelled (i : pyval) (labels cells : list pyval) :
  select i labels cells <> [] -> existsb (fun l => py_eq l i) labels = true.
Proof.
  revert cells; induction labels as [|l labels IH]; intros cells H.
  - destruct cells; simpl in H; congruence.
  - destruct cells as [|c cells]; simpl in *; [congruence|].
    destruct (py_eq l i); simpl; auto.
    apply (IH cells H).
Qed.

Lemma loc_get_labelled (df : DataFrame) (i : Z) (col : string) (nm : located) :
  loc_get df i col = Ok nm -> has_label i df = true.
Proof.
  unfold loc_get, has_label.
  destruct (find_column col (columns df)) as [cells|]; [|discriminate].
  intros H; apply (select_labelled _ _ cells).
  destruct (select (JInt i) (index df) cells) as [|? [|? ?]]; congruence.
Qed.

(** ** Relations that a computation respects *)

Section Stable.

Context {S : Type} (R : S -> S -> Prop).
Hypothesis R_refl : forall s, R s s.
Hypothesis R_trans : forall s1 s2 s3, R s1 s2 -> R s2 s3 -> R s1 s3.

Lemma stable_ret {A} (a : A) : stable R (ret a).
Proof. intros s; apply R_refl. Qed.

Lemma stable_lift {A} (r : result A) : stable R (lift r).
Proof. intros s; apply R_refl. Qed.

Lemma stable_get : stable R get.
Proof. intros s; apply R_refl. Qed.

Lemma stable_emit (e : event) : stable R (emit e).
Proof. intros s; apply R_refl. Qed.

Lemma stable_call {L A} (m : prog L A) (init : L) : stable R (call m init).
Proof.
  intros s; unfold final, call; destruct (m init) as [[r l] out]; apply R_refl.
Qed.

Lemma stable_modify (f : S -> S) : (forall s, R s (f s)) -> stable R (modify f).
Proof. intros H s; apply H. Qed.

Lemma stable_bind {A B} (m : prog S A) (k : A -> prog S B) :
  stable R m -> (forall a, stable R (k a)) -> stable R (bind m k).
Proof.
  intros Hm Hk s; specialize (Hm s); unfold final, bind in *.
  destruct (m s) as [[[a|e] s1] out1]; auto.
  specialize (Hk a s1); unfold final in Hk.
  destruct (k a s1) as [[r s2] out2]; simpl in *; eauto.
Qed.

Lemma stable_try_except (m : prog S unit) (handler : exn -> prog S unit) :
  stable R m -> (forall e, stable R (handler e)) -> stable R (try_except m handler).
Proof.
  intros Hm Hh s; specialize (Hm s); unfold final, try_except in *.
  destruct (m s) as [[[a|e] s1] out1]; auto.
  specialize (Hh e s1); unfold final in Hh.
  destruct (handler e s1) as [[r s2] out2]; simpl in *; eauto.
Qed.

Lemma stable_try_except_AttributeError (m handler : prog S unit) :
  stable R m -> stable R handler -> stable R (try_except_AttributeError m handler).
Proof.
  intros Hm Hh s; specialize (Hm s); unfold final, try_except_AttributeError in *.
  destruct (m s) as [[[a|e] s1] out1]; auto.
  destruct e; auto.
  specialize (Hh s1); unfold final in Hh.
  destruct (handler s1) as [[r s2] out2]; simpl in *; eauto.
Qed.

Lemma stable_for_each {X} (xs : list X) (body : X -> prog S unit) :
  (forall x, In x xs -> stable R (body x)) -> stable R (for_each xs body).
Proof.
  induction xs as [|x xs IH]; intros H.
  - apply stable_ret.
  - change (stable R (bind (body x) (fun _ => for_each xs body))).
    apply stable_bind.
    + apply H; left; reflexivity.
    + intros _; apply IH; intros y Hy; apply H; right; exact Hy.
Qed.

End Stable.

(** ** The writes of one row *)

Ltac split_written :=
  refine (conj _ (conj _ (conj _ (conj _ (conj _ (conj _ _)))))).

Lemma written_within_refl (W : list string) (K : nat -> Prop) (df : DataFrame) :
  written_within W K df df.
Proof.
  intros Hwf; split_written; auto.
  intros p _; apply keeps_refl.
Qed.

Lemma written_within_trans (W : list string) (K : nat -> Prop) (df1 df2 df3 : DataFrame) :
  written_within W K df1 df2 -> written_within W K df2 df3 -> written_within W K df1 df3.
Proof.
  intros H12 H23 Hwf.
  destruct (H12 Hwf) as (Hwf2 & Hi2 & Hu2 & Hm2 & Hb2 & Hok2 & Hk2).
  destruct (H23 Hwf2) as (Hwf3 & Hi3 & Hu3 & Hm3 & Hb3 & Hok3 & Hk3).
  split_written.
  - auto.
  - congruence.
  - intros c Hc; rewrite Hu3, Hu2; auto.
  - auto.
  - intros c Hc; destruct (Hb3 c Hc); auto.
  - intros c cells3 Hc H; apply (Hok3 c cells3 Hc).
    intros cells2 Hc2; apply (Hok2 c cells2 Hc2 H).
  - intros p Hp; eapply keeps_trans; eauto.
Qed.

Lemma written_within_weaken (W : list string) (K K' : nat -> Prop) (df df' : DataFrame) :
  (forall p, K' p -> K p) -> written_within W K df df' -> written_within W K' df df'.
Proof.
  intros HK H Hwf; destruct (H Hwf) as (?&?&?&?&?&?&Hk); split_written; auto.
Qed.

Lemma has_label_index (i : Z) (df df' : DataFrame) :
  index df' = index df -> has_label i df' = has_label i df.
Proof. unfold has_label; intros ->; reflexivity. Qed.

Lemma row_write_refl (W : list string) (labels : list pyval) (i : Z) (df : DataFrame) :
  row_write W labels i df df.
Proof. intros _ _; apply written_within_refl. Qed.

Lemma row_write_trans (W : list string) (labels : list pyval) (i : Z) (df1 df2 df3 : DataFrame) :
  row_write W labels i df1 df2 -> row_write W labels i df2 df3 ->
  row_write W labels i df1 df3.
Proof.
  intros H12 H23 Hl Hi Hwf.
  specialize (H12 Hl Hi).
  destruct (H12 Hwf) as (Hwf2 & Hi2 & _).
  refine (written_within_trans _ _ _ _ _ H12 _ Hwf).
  apply H23; [congruence|rewrite (has_label_index i _ _ Hi2); exact Hi].
Qed.

Lemma numeric_or_missing_of_scalar (x : option pyfloat) :
  numeric_or_missing (of_scalar x) = true.
Proof. destruct x as [[q|n|]|]; reflexivity. Qed.

(** One write of the row [i] into a column of [W]. *)
Lemma row_write_loc_set (W : list string) (labels : list pyval) (i : Z)
      (col : string) (v : pyval) (df : DataFrame) :
  In col W -> numeric_or_missing v = true ->
  row_write W labels i df (loc_set i col v df).
Proof.
  intros Hcol Hv Hl Hi Hwf; split_written.
  - apply wf_loc_set; auto.
  - apply index_loc_set; auto.
  - intros c Hc; apply find_column_loc_set_other; auto; congruence.
  - intros c Hc; apply in_names_loc_set; auto.
  - intros c Hc; apply in_names_loc_set in Hc; auto.
    destruct Hc as [Hc| ->]; auto.
  - intros c cells' Hc Hold.
    destruct (string_dec c col) as [->|Hne].
    + rewrite loc_set_labelled in Hc by auto; simpl in Hc.
      rewrite find_column_replace_same in Hc; injection Hc as <-.
      apply Forall_assign; auto.
      destruct (find_column col (columns df)) as [cells|]; simpl; auto.
      apply Forall_repeat; reflexivity.
    + rewrite find_column_loc_set_other in Hc by auto; auto.
  - intros p (l & Hp & Hne); subst labels.
    apply (keeps_loc_set i col v df p l); auto.
Qed.

Ltac row_write_order := try apply row_write_refl; try apply row_write_trans.

Section EnricherFacts.

Context {chemical mixture : Type}.
Variable Chemical : located -> result chemical.
Variable getattr : chemical -> string -> result (option pyfloat).
Variable Mixture : list located -> list Q -> result mixture.
Variable Hm : mixture -> result (option pyfloat).
Variable write_error : DataFrame -> Z -> string -> pyval -> option exn.
Variable to_parquet : string -> list (string * list pyval) -> result unit.

Section OneRow.

Variable W : list string.
Variable labels : list pyval.
Variable i : Z.

Lemma stable_set_loc (col : string) (v : pyval) :
  In col W -> numeric_or_missing v = true ->
  stable (row_write W labels i) (set_loc write_error i col v).
Proof.
  intros Hc Hv df; unfold final, set_loc, bind, get, lift, modify.
  destruct (write_error df i col v); simpl.
  - apply row_write_refl.
  - apply row_write_loc_set; auto.
Qed.

Lemma stable_read_property (chem : chemical) (item : string * string) :
  In (fst item) W -> stable (row_write W labels i) (read_property getattr write_error chem i item).
Proof.
  destruct item as [prop attr]; simpl; intros Hp.
  apply stable_try_except_AttributeError;
    row_write_order.
  - apply stable_bind; row_write_order.
    + apply stable_lift, row_write_refl.
    + intros v; apply stable_set_loc; auto using numeric_or_missing_of_scalar.
  - apply stable_set_loc; auto.
Qed.

Lemma stable_loc (col : string) : stable (row_write W labels i) (loc i col).
Proof.
  apply stable_bind; row_write_order.
  - apply stable_get, row_write_refl.
  - intros df; apply stable_lift, row_write_refl.
Qed.

Lemma stable_mixing_cell (solvent : string) (fraction : Q) :
  In (column_name solvent fraction) W -> stable (row_write W labels i) (mixing_cell Mixture Hm write_error i solvent fraction).
Proof.
  intros Hc; apply stable_try_except; row_write_order.
  - apply stable_bind; row_write_order;
      [apply stable_loc|intros nm].
    apply stable_bind; row_write_order;
      [apply stable_lift, row_write_refl|intros mix].
    apply stable_bind; row_write_order;
      [apply stable_lift, row_write_refl|intros x].
    apply stable_set_loc; auto using numeric_or_missing_of_scalar.
  - intros _; apply stable_set_loc; auto.
Qed.

Lemma in_mixing_columns (solvent : string) (fraction : Q) :
  In solvent solvents -> In fraction fractions ->
  In (column_name solvent fraction) mixing_columns.
Proof.
  intros Hs Hf; unfold mixing_columns; apply in_flat_map.
  exists solvent; split; auto; apply in_map; auto.
Qed.

Lemma stable_mixing_loop : incl mixing_columns W -> stable (row_write W labels i) (mixing_loop Mixture Hm write_error i).
Proof.
  intros HW; apply stable_for_each; row_write_order.
  intros solvent Hs.
  apply stable_for_each; row_write_order.
  intros fraction Hf; apply stable_mixing_cell, HW, in_mixing_columns; auto.
Qed.

End OneRow.

End EnricherFacts.

(** ** Loops that cannot raise *)

Lemma for_each_returns {S X} (xs : list X) (body : X -> prog S unit) (s : S) :
  (forall x s', In x xs -> fst (fst (body x s')) = Ok tt) ->
  fst (fst (for_each xs body s)) = Ok tt.
Proof.
  revert s; induction xs as [|x xs IH]; intros s H; auto.
  rewrite for_each_cons.
  pose proof (H x s (or_introl eq_refl)) as Hx.
  destruct (body x s) as [[[[]|e] s1] out1]; simpl in Hx; [|discriminate].
  specialize (IH s1 (fun y s' Hy => H y s' (or_intror Hy))).
  destruct (for_each xs body s1) as [[r s2] out2]; auto.
Qed.

Lemma final_for_each_cons {S X} (x : X) (xs : list X) (body : X -> prog S unit) (s : S) :
  fst (fst (body x s)) = Ok tt ->
  final (for_each (x :: xs) body) s = final (for_each xs body) (final (body x) s).
Proof.
  intros Hx; unfold final; rewrite for_each_cons.
  destruct (body x s) as [[[[]|e] s1] out1]; simpl in Hx; [|discriminate].
  simpl; destruct (for_each xs body s1) as [[r s2] out2]; reflexivity.
Qed.

Lemma for_each_map {S X Y} (g : X -> Y) (xs : list X) (body : Y -> prog S unit) (s : S) :
  for_each (map g xs) body s = for_each xs (fun x => body (g x)) s.
Proof.
  revert s; induction xs as [|x xs IH]; intros s; auto.
  simpl map; rewrite !for_each_cons.
  destruct (body (g x) s) as [[[[]|e] s1] out1]; auto.
  now rewrite IH.
Qed.

Lemma for_each_flat_map {S X Y} (g : X -> list Y) (xs : list X)
      (body : Y -> prog S unit) (s : S) :
  for_each (flat_map g xs) body s = for_each xs (fun x => for_each (g x) body) s.
Proof.
  revert s; induction xs as [|x xs IH]; intros s; auto.
  simpl flat_map; rewrite for_each_app, for_each_cons.
  destruct (for_each (g x) body s) as [[[[]|e] s1] out1]; auto.
  now rewrite IH.
Qed.

(** The two nested loops over the catalogs run over the mixing columns. *)
Lemma for_each_mixing_columns {S} (body : string -> Q -> prog S unit) (s : S) :
  for_each solvents (fun solvent => for_each fractions (fun fraction => body solvent fraction)) s =
  for_each (flat_map (fun solvent => map (pair solvent) fractions) solvents)
           (fun sf => body (fst sf) (snd sf)) s.
Proof.
  rewrite for_each_flat_map.
  reflexivity.
Qed.

(** ** A run of writes into distinct columns of one row *)

Section ColumnWrites.

Variable i : Z.
Variable Inv : DataFrame -> Prop.
Hypothesis Inv_wf : forall df, Inv df -> wf df.
Hypothesis Inv_label : forall df, Inv df -> has_label i df = true.

Context {X : Type}.
Variable body : X -> prog DataFrame unit.
Variable col : X -> string.
Variable val : X -> pyval.

Lemma column_writes (xs : list X) (df : DataFrame) :
  (forall x df', In x xs -> Inv df' ->
     body x df' = (Ok tt, loc_set i (col x) (val x) df', []) /\
     Inv (loc_set i (col x) (val x) df')) ->
  NoDup (map col xs) -> Inv df ->
  exists df',
    for_each xs body df = (Ok tt, df', []) /\ Inv df' /\
    index df' = index df /\
    (forall c, ~ In c (map col xs) ->
               find_column c (columns df') = find_column c (columns df)) /\
    (forall x p l, In x xs -> nth_error (index df) p = Some l ->
                   py_eq l (JInt i) = true -> cell df' p (col x) = Some (val x)).
Proof.
  revert df; induction xs as [|x xs IH]; intros df Hbody Hnd Hinv.
  - exists df; repeat split; auto; intros x p l [].
  - destruct (Hbody x df (or_introl eq_refl) Hinv) as [Hx Hinv1].
    inversion Hnd as [|? ? Hnotin Hnd']; subst.
    destruct (IH (loc_set i (col x) (val x) df)
                (fun y df' Hy => Hbody y df' (or_intror Hy)) Hnd' Hinv1)
      as (df' & Hrun & Hinv' & Hidx & Hother & Hcells).
    pose proof (index_loc_set i (col x) (val x) df (Inv_label _ Hinv)) as Hidx1.
    exists df'; split; [|split; [|split; [|split]]]; auto.
    + rewrite for_each_cons, Hx, Hrun; reflexivity.
    + congruence.
    + intros c Hc; rewrite Hother by (intros H; apply Hc; right; exact H).
      apply find_column_loc_set_other; [apply Inv_label; auto|].
      intros ->; apply Hc; left; reflexivity.
    + intros y p l [<-|Hy] Hp Hl.
      * unfold cell; rewrite Hother by exact Hnotin.
        apply (cell_loc_set_written i (col x) (val x) df p l); auto.
      * apply (Hcells y p l Hy); auto; congruence.
Qed.

End ColumnWrites.

(** ** The iteration of one row *)

Lemma loc_get_frame (df df' : DataFrame) (i : Z) (col : string) :
  index df' = index df ->
  find_column col (columns df') = find_column col (columns df) ->
  loc_get df' i col = loc_get df i col.
Proof. unfold loc_get; intros -> ->; reflexivity. Qed.

Section RowFacts.

Context {chemical mixture : Type}.
Variable Chemical : located -> result chemical.
Variable getattr : chemical -> string -> result (option pyfloat).
Variable Mixture : list located -> list Q -> result mixture.
Variable Hm : mixture -> result (option pyfloat).
Variable write_error : DataFrame -> Z -> string -> pyval -> option exn.
Variable to_parquet : string -> list (string * list pyval) -> result unit.

(** *** The equations of the loop bodies *)

Lemma set_loc_run (i : Z) (col : string) (v : pyval) (df : DataFrame) :
  set_loc write_error i col v df =
  match write_error df i col v with
  | Some e => (Raise e, df, [])
  | None => (Ok tt, loc_set i col v df, [])
  end.
Proof.
  unfold set_loc, bind, get, lift, modify.
  destruct (write_error df i col v); reflexivity.
Qed.

Lemma read_property_run (chem : chemical) (i : Z) (prop attr : string) (df : DataFrame) :
  read_property getattr write_error chem i (prop, attr) df =
  match getattr chem attr with
  | Ok x =>
      match write_error df i prop (of_scalar x) with
      | None => (Ok tt, loc_set i prop (of_scalar x) df, [])
      | Some AttributeError => set_loc write_error i prop NaN df
      | Some e => (Raise e, df, [])
      end
  | Raise AttributeError => set_loc write_error i prop NaN df
  | Raise e => (Raise e, df, [])
  end.
Proof.
  unfold read_property, try_except_AttributeError, bind at 1, lift at 1.
  destruct (getattr chem attr) as [x|e].
  - rewrite (set_loc_run i prop (of_scalar x) df).
    destruct (write_error df i prop (of_scalar x)) as [[]|]; simpl;
      try reflexivity.
    destruct (set_loc write_error i prop NaN df) as [[r s2] out2]; reflexivity.
  - destruct e; try reflexivity.
    destruct (set_loc write_error i prop NaN df) as [[r s2] out2]; reflexivity.
Qed.

(** A read that returns or raises [AttributeError], and whose value the
    table takes. *)
Lemma read_property_accepted (chem : chemical) (i : Z) (prop attr : string) (df : DataFrame) :
  (forall e, getattr chem attr = Raise e -> e = AttributeError) ->
  write_error df i prop (property_value getattr chem attr) = None ->
  read_property getattr write_error chem i (prop, attr) df =
  (Ok tt, loc_set i prop (property_value getattr chem attr) df, []).
Proof.
  intros Hguard; rewrite read_property_run; unfold property_value.
  destruct (getattr chem attr) as [x|e].
  - intros ->; reflexivity.
  - rewrite (Hguard e eq_refl), set_loc_run; intros ->; reflexivity.
Qed.

(** A read that raises something else. *)
Lemma read_property_raises (chem : chemical) (i : Z) (prop attr : string) (df : DataFrame)
      (e : exn) :
  getattr chem attr = Raise e -> e <> AttributeError ->
  read_property getattr write_error chem i (prop, attr) df = (Raise e, df, []).
Proof.
  intros Hget He; rewrite read_property_run, Hget.
  destruct e; congruence.
Qed.

(** A write that the table does not take, after a read that returned. *)
Lemma read_property_rejected (chem : chemical) (i : Z) (prop attr : string) (df : DataFrame)
      (x : option pyfloat) (e : exn) :
  getattr chem attr = Ok x -> write_error df i prop (of_scalar x) = Some e ->
  e <> AttributeError ->
  read_property getattr write_error chem i (prop, attr) df = (Raise e, df, []).
Proof.
  intros Hget Hw He; rewrite read_property_run, Hget, Hw.
  destruct e; congruence.
Qed.

(** Whatever is read and whatever the table takes, a body of the two
    loops writes one cell or leaves the table, and prints nothing. *)
Lemma set_loc_cases (i : Z) (col : string) (v : pyval) (df : DataFrame) :
  set_loc write_error i col v df = (Ok tt, loc_set i col v df, []) \/
  exists e, set_loc write_error i col v df = (Raise e, df, []).
Proof.
  rewrite set_loc_run; destruct (write_error df i col v) as [e|]; eauto.
Qed.

Lemma read_property_cases (chem : chemical) (i : Z) (item : string * string) (df : DataFrame) :
  (exists v, read_property getattr write_error chem i item df =
             (Ok tt, loc_set i (fst item) v df, [])) \/
  (exists e, read_property getattr write_error chem i item df = (Raise e, df, [])).
Proof.
  destruct item as [prop attr]; rewrite read_property_run; cbn [fst].
  pose proof (set_loc_cases i prop NaN df) as HNaN.
  destruct (getattr chem attr) as [x|e].
  - destruct (write_error df i prop (of_scalar x)) as [[]|]; eauto;
      destruct HNaN as [->|[e ->]]; eauto.
  - destruct e; eauto; destruct HNaN as [->|[e ->]]; eauto.
Qed.

Lemma mixing_cell_run (i : Z) (solvent : string) (fraction : Q) (df : DataFrame) :
  mixing_cell Mixture Hm write_error i solvent fraction df =
  match loc_get df i "name" with
  | Ok nm =>
      match Mixture [nm; Scalar (JStr solvent)] [fraction; 1 - fraction]%Q with
      | Ok mix =>
          match Hm mix with
          | Ok x =>
              match write_error df i (column_name solvent fraction) (of_scalar x) with
              | None => (Ok tt, loc_set i (column_name solvent fraction) (of_scalar x) df, [])
              | Some _ => set_loc write_error i (column_name solvent fraction) NaN df
              end
          | Raise _ => set_loc write_error i (column_name solvent fraction) NaN df
          end
      | Raise _ => set_loc write_error i (column_name solvent fraction) NaN df
      end
  | Raise _ => set_loc write_error i (column_name solvent fraction) NaN df
  end.
Proof.
  unfold mixing_cell, try_except, bind at 1, loc, bind at 1, get at 1, lift at 1; cbn [fst snd].
  pose proof (set_loc_run i (column_name solvent fraction) NaN df) as HNaN.
  destruct (loc_get df i "name") as [nm|e]; simpl.
  2: { destruct (set_loc write_error i _ NaN df) as [[r s2] out2]; reflexivity. }
  unfold bind at 1, lift at 1.
  destruct (Mixture _ _) as [mix|e]; simpl.
  2: { destruct (set_loc write_error i _ NaN df) as [[r s2] out2]; reflexivity. }
  unfold bind at 1, lift at 1.
  destruct (Hm mix) as [x|e]; simpl.
  2: { destruct (set_loc write_error i _ NaN df) as [[r s2] out2]; reflexivity. }
  rewrite (set_loc_run i (column_name solvent fraction) (of_scalar x) df).
  destruct (write_error df i (column_name solvent fraction) (of_scalar x)); simpl;
    [|reflexivity].
  destruct (set_loc write_error i _ NaN df) as [[r s2] out2]; reflexivity.
Qed.

(** The cell of a mixing column whose value the table takes. *)
Lemma mixing_cell_accepted (i : Z) (solvent : string) (fraction : Q) (df : DataFrame) :
  let v := match loc_get df i "name" with
           | Ok nm => mixing_value Mixture Hm nm solvent fraction
           | Raise _ => NaN
           end in
  write_error df i (column_name solvent fraction) v = None ->
  mixing_cell Mixture Hm write_error i solvent fraction df =
  (Ok tt, loc_set i (column_name solvent fraction) v df, []).
Proof.
  cbv zeta; rewrite mixing_cell_run; unfold mixing_value.
  destruct (loc_get df i "name") as [nm|e];
    [|rewrite set_loc_run; intros ->; reflexivity].
  destruct (Mixture _ _) as [mix|e];
    [|rewrite set_loc_run; intros ->; reflexivity].
  destruct (Hm mix) as [x|e];
    [|rewrite set_loc_run; intros ->; reflexivity].
  intros ->; reflexivity.
Qed.

Lemma mixing_cell_cases (i : Z) (solvent : string) (fraction : Q) (df : DataFrame) :
  (exists v, mixing_cell Mixture Hm write_error i solvent fraction df =
             (Ok tt, loc_set i (column_name solvent fraction) v df, [])) \/
  (exists e, mixing_cell Mixture Hm write_error i solvent fraction df = (Raise e, df, [])).
Proof.
  rewrite mixing_cell_run.
  pose proof (set_loc_cases i (column_name solvent fraction) NaN df) as HNaN.
  destruct (loc_get df i "name") as [nm|e]; [|destruct HNaN as [->|[e' ->]]; eauto].
  destruct (Mixture _ _) as [mix|e]; [|destruct HNaN as [->|[e' ->]]; eauto].
  destruct (Hm mix) as [x|e]; [|destruct HNaN as [->|[e' ->]]; eauto].
  destruct (write_error df i _ (of_scalar x)); eauto.
  destruct HNaN as [->|[e' ->]]; eauto.
Qed.

(** *** The loops of a row print nothing *)

Lemma for_each_silent {S X} (xs : list X) (body : X -> prog S unit) (s : S) :
  (forall x s', snd (body x s') = []) -> snd (for_each xs body s) = [].
Proof.
  intros H; revert s; induction xs as [|x xs IH]; intros s; auto.
  rewrite for_each_cons.
  pose proof (H x s) as Hx; specialize (IH (snd (fst (body x s)))).
  destruct (body x s) as [[[[]|e] s1] out1]; simpl in *; subst out1; auto.
  destruct (for_each xs body s1) as [[r s2] out2]; simpl in *; auto.
Qed.

Lemma property_loop_silent (chem : chemical) (i : Z) (vp : list (string * string))
      (df : DataFrame) :
  snd (for_each vp (read_property getattr write_error chem i) df) = [].
Proof.
  apply for_each_silent; intros item df'.
  destruct (read_property_cases chem i item df') as [[v ->]|[e ->]]; reflexivity.
Qed.

Lemma mixing_loop_silent (i : Z) (df : DataFrame) :
  snd (mixing_loop Mixture Hm write_error i df) = [].
Proof.
  unfold mixing_loop; apply for_each_silent; intros solvent df'.
  apply for_each_silent; intros fraction df''.
  destruct (mixing_cell_cases i solvent fraction df'') as [[v ->]|[e ->]]; reflexivity.
Qed.

(** Lines 111-130, what the [try] of a row holds once the chemistry
    object is there. *)
Lemma row_body_silent (chem : chemical) (i : Z) (vp : list (string * string))
      (df : DataFrame) :
  snd ((for_each vp (read_property getattr write_error chem i) ;;
        mixing_loop Mixture Hm write_error i) df) = [].
Proof.
  unfold bind.
  pose proof (property_loop_silent chem i vp df) as H1.
  destruct (for_each vp _ df) as [[[[]|e] df1] out1]; simpl in H1; subst out1; auto.
  pose proof (mixing_loop_silent i df1) as H2.
  destruct (mixing_loop Mixture Hm write_error i df1) as [[r df2] out2]; simpl in *; auto.
Qed.

Lemma row_iteration_run (vp : list (string * string)) (i : Z) (df : DataFrame) :
  row_iteration Chemical getattr Mixture Hm write_error vp i df =
  match loc_get df i "name" with
  | Raise e => (Ok tt, df, Print (MsgErrorMaterial i e) :: row_trailer i)
  | Ok nm =>
      match Chemical nm with
      | Raise e => (Ok tt, df, Print (MsgErrorMaterial i e) :: row_trailer i)
      | Ok chem =>
          match (for_each vp (read_property getattr write_error chem i) ;;
                 mixing_loop Mixture Hm write_error i) df with
          | (Ok _, df1, _) => (Ok tt, df1, row_trailer i)
          | (Raise e, df1, _) => (Ok tt, df1, Print (MsgErrorMaterial i e) :: row_trailer i)
          end
      end
  end.
Proof.
  unfold row_iteration, bind at 1, try_except, bind at 1, loc, bind at 1, get, lift at 1.
  simpl.
  destruct (loc_get df i "name") as [nm|e]; auto.
  unfold bind at 1, lift at 1.
  destruct (Chemical nm) as [chem|e]; auto.
  pose proof (row_body_silent chem i vp df) as Hs.
  cbn [fst snd].
  destruct ((for_each vp (read_property getattr write_error chem i) ;;
             mixing_loop Mixture Hm write_error i) df) as [[[[]|e] df1] out1];
    simpl in Hs; subst out1; auto.
Qed.

Lemma row_iteration_returns (vp : list (string * string)) (i : Z) (df : DataFrame) :
  fst (fst (row_iteration Chemical getattr Mixture Hm write_error vp i df)) = Ok tt.
Proof.
  rewrite row_iteration_run.
  destruct (loc_get df i "name") as [nm|e]; auto.
  destruct (Chemical nm) as [chem|e]; auto.
  destruct ((_ ;; _) df) as [[[[]|e] df1] out1]; auto.
Qed.

(** What an iteration prints: its error line, if it has one, and its
    last two events. *)
Lemma row_iteration_output (vp : list (string * string)) (i : Z) (df : DataFrame) :
  output (row_iteration Chemical getattr Mixture Hm write_error vp i) df = row_trailer i \/
  exists e,
    output (row_iteration Chemical getattr Mixture Hm write_error vp i) df =
    Print (MsgErrorMaterial i e) :: row_trailer i.
Proof.
  unfold output; rewrite row_iteration_run.
  destruct (loc_get df i "name") as [nm|e]; [|right; exists e; reflexivity].
  destruct (Chemical nm) as [chem|e]; [|right; exists e; reflexivity].
  destruct ((_ ;; _) df) as [[[[]|e] df1] out1];
    [left; reflexivity|right; exists e; reflexivity].
Qed.

(** *** What one iteration may write *)

Lemma row_iteration_written (W : list string) (vp : list (string * string)) (i : Z)
      (df : DataFrame) :
  incl (map fst vp) W -> incl mixing_columns W ->
  written_within W (other_rows (index df) i) df
    (final (row_iteration Chemical getattr Mixture Hm write_error vp i) df).
Proof.
  intros Hvp Hmix.
  assert (Hbody :
    forall nm chem,
      loc_get df i "name" = Ok nm ->
      row_write W (index df) i df
        (final (for_each vp (read_property getattr write_error chem i) ;;
                mixing_loop Mixture Hm write_error i) df)).
  { intros nm chem Hnm.
    apply (stable_bind (row_write W (index df) i));
      row_write_order.
    - apply stable_for_each; row_write_order.
      intros item Hitem; apply stable_read_property, Hvp, in_map, Hitem.
    - intros _; apply stable_mixing_loop; auto. }
  unfold final; rewrite row_iteration_run.
  destruct (loc_get df i "name") as [nm|e] eqn:Hnm; [|apply written_within_refl].
  destruct (Chemical nm) as [chem|e]; [|apply written_within_refl].
  specialize (Hbody nm chem eq_refl eq_refl (loc_get_labelled _ _ _ _ Hnm)).
  unfold final in Hbody.
  destruct ((_ ;; _) df) as [[[[]|e] df1] out1]; simpl in *; auto.
Qed.

End RowFacts.

(** ** Labels *)

Lemma py_eq_int (l : pyval) (i : Z) :
  py_eq l (JInt i) = true ->
  exists x, numeric_value l = Some x /\ Qeq_bool x (inject_Z i) = true.
Proof.
  unfold py_eq; simpl.
  destruct (numeric_value l) as [x|] eqn:E; [eauto|].
  destruct l as [| | |[]| | |]; discriminate.
Qed.

(** A label equals at most one integer. *)
Lemma py_eq_int_unique (l : pyval) (i j : Z) :
  py_eq l (JInt i) = true -> py_eq l (JInt j) = true -> i = j.
Proof.
  intros Hi Hj.
  destruct (py_eq_int l i Hi) as (x & Hx & Exi).
  destruct (py_eq_int l j Hj) as (y & Hy & Eyj).
  rewrite Hx in Hy; injection Hy as <-.
  apply Qeq_bool_iff in Exi, Eyj.
  assert (H : (inject_Z i == inject_Z j)%Q) by (rewrite <- Exi, <- Eyj; reflexivity).
  unfold Qeq, inject_Z in H; simpl in H; lia.
Qed.

(** ** The validation of the requested names *)

Lemma lookup_In (key : string) (d : list (string * string)) :
  In key (map fst d) <-> lookup key d <> None.
Proof.
  induction d as [|[k v] d IH]; simpl.
  - split; [intros []|congruence].
  - destruct (String.eqb k key) eqn:E.
    + apply String.eqb_eq in E; split; [congruence|auto].
    + apply String.eqb_neq in E; rewrite <- IH; split; [intros [?|?]; [congruence|auto]|auto].
Qed.

Lemma lookup_member (key v : string) (d : list (string * string)) :
  NoDup (map fst d) -> In (key, v) d -> lookup key d = Some v.
Proof.
  induction d as [|[k0 v0] d IH]; simpl; [intros _ []|].
  intros Hnd [H|H]; inversion Hnd as [|? ? Hnotin Hnd']; subst.
  - injection H as -> ->; now rewrite String.eqb_refl.
  - destruct (String.eqb k0 key) eqn:E; auto.
    apply String.eqb_eq in E; subst k0.
    exfalso; apply Hnotin, in_map_iff; exists (key, v); auto.
Qed.

Lemma lookup_store (key key' v : string) (d : list (string * string)) :
  lookup key' (store key v d) = if String.eqb key key' then Some v else lookup key' d.
Proof.
  induction d as [|[k old] d IH]; simpl; auto.
  destruct (String.eqb k key) eqn:E; simpl.
  - apply String.eqb_eq in E; subst k; destruct (String.eqb key key'); auto.
  - rewrite IH; destruct (String.eqb k key') eqn:E'; auto.
    apply String.eqb_eq in E'; subst k; rewrite String.eqb_sym, E; reflexivity.
Qed.

Lemma names_store (key v : string) (d : list (string * string)) :
  map fst (store key v d) =
  match lookup key d with
  | Some _ => map fst d
  | None => map fst d ++ [key]
  end.
Proof.
  induction d as [|[k old] d IH]; simpl; auto.
  destruct (String.eqb k key) eqn:E; simpl; auto.
  rewrite IH; destruct (lookup key d); auto.
Qed.

Lemma NoDup_store (key v : string) (d : list (string * string)) :
  NoDup (map fst d) -> NoDup (map fst (store key v d)).
Proof.
  intros H; rewrite names_store.
  destruct (lookup key d) eqn:E; auto.
  apply NoDup_app; repeat split; auto.
  - constructor; [intros []|constructor].
  - intros x Hx [<-|[]]; apply lookup_In in Hx; congruence.
Qed.

(** The dict that the validation builds from [d], and what it warns. *)
Lemma validate_run (properties : list string) (d : list (string * string)) :
  validate properties d =
  (Ok tt,
   fold_left (fun acc prop =>
                match lookup prop supported_properties with
                | Some attr => store prop attr acc
                | None => acc
                end) properties d,
   map Warn (filter (fun prop => negb (is_supported prop)) properties)).
Proof.
  revert d; unfold validate; induction properties as [|prop properties IH]; intros d; auto.
  rewrite for_each_cons; cbn [filter fold_left]; unfold is_supported at 1.
  destruct (lookup prop supported_properties) as [attr|];
    unfold modify, emit; rewrite IH; reflexivity.
Qed.

Lemma in_store (key v key' v' : string) (d : list (string * string)) :
  In (key', v') (store key v d) -> In (key', v') d \/ (key' = key /\ v' = v).
Proof.
  induction d as [|[k old] d IH]; simpl.
  - intros [H|[]]; injection H as <- <-; auto.
  - destruct (String.eqb k key) eqn:E; simpl.
    + apply String.eqb_eq in E; subst k.
      intros [H|H]; auto; injection H as <- <-; auto.
    + intros [H|H]; auto; destruct (IH H); auto.
Qed.

Lemma in_names_store (key v key' : string) (d : list (string * string)) :
  In key' (map fst (store key v d)) <-> In key' (map fst d) \/ key' = key.
Proof.
  rewrite names_store; destruct (lookup key d) eqn:E.
  - split; auto; intros [H| ->]; auto; apply lookup_In; congruence.
  - rewrite in_app_iff; simpl; intuition congruence.
Qed.

Lemma consistent_fold (properties : list string) (d : list (string * string)) :
  consistent d -> consistent (fold_left validate_step properties d).
Proof.
  revert d; induction properties as [|p properties IH]; intros d Hd; auto.
  apply IH; unfold validate_step; destruct (lookup p supported_properties) as [attr|] eqn:E; auto.
  destruct Hd as [Hnd Hd]; split; [apply NoDup_store; auto|].
  intros prop a Hin; apply in_store in Hin; destruct Hin as [Hin|[-> ->]]; auto.
Qed.

Lemma members_fold (properties : list string) (d : list (string * string)) (prop attr : string) :
  In (prop, attr) (fold_left validate_step properties d) -> In (prop, attr) d \/ In prop properties.
Proof.
  revert d; induction properties as [|p properties IH]; intros d; simpl; auto.
  intros Hin; destruct (IH _ Hin) as [H|H]; auto.
  unfold validate_step in H; destruct (lookup p supported_properties); auto.
  apply in_store in H; destruct H as [H|[-> _]]; auto.
Qed.

Lemma names_fold_mono (properties : list string) (d : list (string * string)) (prop : string) :
  In prop (map fst d) -> In prop (map fst (fold_left validate_step properties d)).
Proof.
  revert d; induction properties as [|p properties IH]; intros d H; auto.
  apply IH; unfold validate_step; destruct (lookup p supported_properties); auto.
  apply in_names_store; auto.
Qed.

Lemma names_fold_new (properties : list string) (d : list (string * string)) (prop : string) :
  In prop properties -> is_supported prop = true ->
  In prop (map fst (fold_left validate_step properties d)).
Proof.
  unfold is_supported.
  revert d; induction properties as [|p properties IH]; intros d Hin Hs; [destruct Hin|].
  destruct Hin as [<-|H]; simpl; auto.
  apply names_fold_mono; unfold validate_step.
  destruct (lookup p supported_properties); [|discriminate].
  apply in_names_store; auto.
Qed.

Lemma valid_properties_spec (properties : list string) :
  let vp := valid_properties_of properties in
  NoDup (map fst vp) /\
  (forall prop attr, In (prop, attr) vp ->
                     In prop properties /\ lookup prop supported_properties = Some attr) /\
  (forall prop, In prop properties -> is_supported prop = true -> In prop (map fst vp)).
Proof.
  unfold valid_properties_of, final; rewrite validate_run; cbn [fst snd].
  change (fold_left _ properties []) with (fold_left validate_step properties []).
  destruct (consistent_fold properties []) as [Hnd Hl].
  { split; [constructor|intros ? ? []]. }
  split; [exact Hnd|]; split.
  - intros prop attr Hin; split; auto.
    destruct (members_fold _ _ _ _ Hin) as [[]|H]; exact H.
  - intros prop Hp Hs; apply names_fold_new; auto.
Qed.

(** An unsupported name changes nothing but the warnings. *)
Lemma valid_properties_filter (properties : list string) :
  valid_properties_of (filter is_supported properties) = valid_properties_of properties.
Proof.
  unfold valid_properties_of, final; rewrite !validate_run; cbn [fst snd].
  generalize (@nil (string * string)).
  induction properties as [|prop properties IH]; intros d; auto.
  cbn [filter fold_left]; unfold is_supported at 1.
  destruct (lookup prop supported_properties) as [attr|] eqn:E; auto.
  cbn [fold_left]; rewrite E; apply IH.
Qed.

(** ** The catalogs *)

Lemma mixing_columns_distinct : length mixing_columns = 12%nat /\ NoDup mixing_columns.
Proof.
  split; [reflexivity|].
  apply (NoDup_count_occ' string_dec); intros c Hc.
  repeat (destruct Hc as [<-|Hc]; [vm_compute; reflexivity|]); destruct Hc.
Qed.

Lemma name_not_mixing : ~ In "name" mixing_columns.
Proof. intros H; repeat (destruct H as [H|H]; [discriminate|]); destruct H. Qed.

(** No supported property is labelled as a mixing column or as the
    name column. *)
Lemma supported_not_mixing (prop : string) :
  is_supported prop = true -> ~ In prop mixing_columns /\ prop <> "name".
Proof.
  intros Hs; split.
  - intros H; repeat (destruct H as [<-|H]; [discriminate Hs|]); destruct H.
  - intros ->; discriminate Hs.
Qed.

(** ** Lines 102-105 *)

Lemma init_mixing_columns_run (df : DataFrame) :
  init_mixing_columns df =
  (Ok tt, fold_left (fun acc c => setitem c NaN acc) mixing_columns df, []).
Proof. reflexivity. Qed.

Lemma setitem_columns (cs : list string) (df : DataFrame) :
  wf df ->
  let df' := fold_left (fun acc c => setitem c NaN acc) cs df in
  wf df' /\ index df' = index df /\
  (forall c, In c cs -> find_column c (columns df') = Some (repeat NaN (length (index df)))) /\
  (forall c, ~ In c cs -> find_column c (columns df') = find_column c (columns df)) /\
  (forall c, In c (names df') <-> In c (names df) \/ In c cs).
Proof.
  revert df; induction cs as [|c0 cs IH]; intros df Hwf; simpl.
  - split; [exact Hwf|]; split; [reflexivity|]; split; [intros c []|].
    split; [reflexivity|]; intros c; tauto.
  - destruct (IH (setitem c0 NaN df) (wf_setitem c0 NaN df Hwf)) as (H1 & H2 & H3 & H4 & H5).
    simpl in *; split; [exact H1|]; split; [exact H2|]; split; [|split].
    + intros c [<-|Hc].
      * destruct (in_dec string_dec c0 cs) as [Hin|Hnot]; auto.
        rewrite H4 by auto; apply find_column_replace_same.
      * auto.
    + intros c Hc; rewrite H4 by tauto.
      apply find_column_replace_other; intros ->; tauto.
    + intros c; rewrite H5; unfold names; simpl; rewrite in_names_replace.
      intuition (subst; auto).
Qed.

Section ProcessFacts.

Context {chemical mixture : Type}.
Variable Chemical : located -> result chemical.
Variable getattr : chemical -> string -> result (option pyfloat).
Variable Mixture : list located -> list Q -> result mixture.
Variable Hm : mixture -> result (option pyfloat).
Variable write_error : DataFrame -> Z -> string -> pyval -> option exn.
Variable to_parquet : string -> list (string * list pyval) -> result unit.

Lemma row_loop_returns (vp : list (string * string)) (rows : list Z) (df : DataFrame) :
  fst (fst (for_each rows (row_iteration Chemical getattr Mixture Hm write_error vp) df)) = Ok tt.
Proof. apply for_each_returns; intros; apply row_iteration_returns. Qed.

(** The whole of [process_materials]: warnings, the columns, the rows,
    the file; the result is the result of the write of the file. *)
Lemma process_materials_run (properties : list string) (run_name : string)
      (material_bank : DataFrame) :
  let after := final (row_loop Chemical getattr Mixture Hm write_error
      properties material_bank) (before_rows material_bank) in
  process_materials Chemical getattr Mixture Hm write_error to_parquet
      properties run_name material_bank =
  (to_parquet (run_name ++ ".parquet") (columns after), after,
   map Warn (filter (fun prop => negb (is_supported prop)) properties) ++
   output (row_loop Chemical getattr Mixture Hm write_error
       properties material_bank) (before_rows material_bank) ++
   [ToParquet (run_name ++ ".parquet") (columns after)]).
Proof.
  unfold process_materials, row_loop, before_rows, valid_properties_of, final, output.
  unfold bind at 1, call, bind at 1; rewrite validate_run; unfold get at 1; cbn [fst snd].
  unfold bind at 1; rewrite init_mixing_columns_run; cbn [fst snd].
  unfold bind at 1, get at 1, bind at 1, lift at 1, range; cbn [Z.eqb fst snd].
  assert (Hn : shape0 (fold_left (fun acc c => setitem c NaN acc) mixing_columns material_bank)
               = shape0 material_bank).
  { reflexivity. }
  rewrite Hn.
  set (df0 := fold_left _ mixing_columns material_bank).
  set (vp := fold_left _ properties []).
  pose proof (row_loop_returns vp (range_items 0 (shape0 material_bank) 1) df0) as Hr.
  unfold bind at 1.
  destruct (for_each _ _ df0) as [[[[]|e] df1] out1]; simpl in Hr; [|discriminate].
  unfold bind, get, emit, lift; simpl.
  destruct (to_parquet _ _); rewrite !app_nil_r; reflexivity.
Qed.

End ProcessFacts.

(** ** The row loop *)

Section LoopFacts.

Context {chemical mixture : Type}.
Variable Chemical : located -> result chemical.
Variable getattr : chemical -> string -> result (option pyfloat).
Variable Mixture : list located -> list Q -> result mixture.
Variable Hm : mixture -> result (option pyfloat).
Variable write_error : DataFrame -> Z -> string -> pyval -> option exn.
Variable to_parquet : string -> list (string * list pyval) -> result unit.

Lemma row_fails_frame (df df' : DataFrame) (i : Z) :
  index df' = index df ->
  find_column "name" (columns df') = find_column "name" (columns df) ->
  row_fails Chemical df' i <-> row_fails Chemical df i.
Proof.
  intros Hi Hn; unfold row_fails; rewrite (loc_get_frame df df' i "name" Hi Hn); reflexivity.
Qed.

Lemma row_iteration_failed (vp : list (string * string)) (i : Z) (df : DataFrame) :
  row_fails Chemical df i ->
  exists e,
    row_iteration Chemical getattr Mixture Hm write_error vp i df =
    (Ok tt, df, Print (MsgErrorMaterial i e) :: row_trailer i).
Proof.
  unfold row_fails; rewrite row_iteration_run.
  destruct (loc_get df i "name") as [nm|e]; [|eauto].
  intros [e ->]; eauto.
Qed.

(** The rows [K] are kept by a run of iterations each of which either
    is for another label or fails. *)
Lemma rows_written (W : list string) (vp : list (string * string)) (K : nat -> Prop)
      (rows : list Z) (df : DataFrame) :
  incl (map fst vp) W -> incl mixing_columns W -> ~ In "name" W ->
  (forall i, In i rows ->
     (forall p, K p -> other_rows (index df) i p) \/ row_fails Chemical df i) ->
  written_within W K df
    (final (for_each rows (row_iteration Chemical getattr Mixture Hm write_error vp)) df).
Proof.
  intros Hvp Hmix Hname; revert df; induction rows as [|i rows IH]; intros df Hrows.
  - apply written_within_refl.
  - rewrite final_for_each_cons by apply row_iteration_returns.
    set (df1 := final (row_iteration Chemical getattr Mixture Hm write_error vp i) df).
    assert (H1 : written_within W K df df1).
    { destruct (Hrows i (or_introl eq_refl)) as [HK|Hfail].
      - apply (written_within_weaken W (other_rows (index df) i)); auto.
        apply row_iteration_written; auto.
      - destruct (row_iteration_failed vp i df Hfail) as [e He].
        unfold df1, final; rewrite He; apply written_within_refl. }
    intros Hwf; destruct (H1 Hwf) as (Hwf1 & Hidx1 & Hun1 & _).
    refine (written_within_trans _ _ _ _ _ H1 (IH df1 _) Hwf).
    intros j Hj; destruct (Hrows j (or_intror Hj)) as [HK|Hfail].
    + left; rewrite Hidx1; exact HK.
    + right; apply (row_fails_frame df df1 j Hidx1 (Hun1 _ Hname)); exact Hfail.
Qed.

(** The events of the row loop are the printed lines and the pauses. *)
Lemma row_loop_events (vp : list (string * string)) (rows : list Z) (df : DataFrame) :
  Forall (fun e => exists i,
            In i rows /\
            (e = Sleep (1 # 500) \/ e = Print (MsgMaterialProcessed i) \/
             exists x, e = Print (MsgErrorMaterial i x)))
         (output (for_each rows (row_iteration Chemical getattr Mixture Hm write_error vp)) df).
Proof.
  revert df; induction rows as [|i rows IH]; intros df; [constructor|].
  unfold output; rewrite for_each_cons.
  assert (Hi : Forall (fun e => exists i0,
            In i0 (i :: rows) /\
            (e = Sleep (1 # 500) \/ e = Print (MsgMaterialProcessed i0) \/
             exists x, e = Print (MsgErrorMaterial i0 x)))
            (output (row_iteration Chemical getattr Mixture Hm write_error vp i) df)).
  { assert (Ht : Forall (fun e => exists i0,
            In i0 (i :: rows) /\
            (e = Sleep (1 # 500) \/ e = Print (MsgMaterialProcessed i0) \/
             exists x, e = Print (MsgErrorMaterial i0 x))) (row_trailer i)).
    { repeat constructor; exists i; simpl; auto. }
    assert (He : forall e, Forall (fun e => exists i0,
            In i0 (i :: rows) /\
            (e = Sleep (1 # 500) \/ e = Print (MsgMaterialProcessed i0) \/
             exists x, e = Print (MsgErrorMaterial i0 x)))
            (Print (MsgErrorMaterial i e) :: row_trailer i)).
    { intros e; constructor; auto; exists i.
      split; [left; reflexivity|right; right; exists e; reflexivity]. }
    destruct (row_iteration_output Chemical getattr Mixture Hm write_error vp i df)
      as [->|[e ->]]; [apply Ht|apply He]. }
  unfold output in Hi.
  destruct (row_iteration Chemical getattr Mixture Hm write_error vp i df) as [[[[]|e] df1] out1];
    simpl in *; auto.
  specialize (IH df1); unfold output in IH.
  destruct (for_each rows _ df1) as [[r df2] out2]; simpl in *.
  apply Forall_app; split; auto.
  eapply Forall_impl; [|exact IH].
  intros e (j & Hj & He); exists j; auto.
Qed.

Lemma written_loop_events (vp : list (string * string)) (rows : list Z) (df : DataFrame) :
  written (output (for_each rows (row_iteration Chemical getattr Mixture Hm write_error
      vp)) df) = [] /\
  warned (output (for_each rows (row_iteration Chemical getattr Mixture Hm write_error
      vp)) df) = [].
Proof.
  pose proof (row_loop_events vp rows df) as H.
  induction H as [|e out (i & _ & [->|[->|[x ->]]]) _ [IH1 IH2]]; simpl; auto.
Qed.

(** *** The table after all the rows *)

Lemma before_rows_spec (material_bank : DataFrame) :
  wf material_bank ->
  let df0 := before_rows material_bank in
  wf df0 /\ index df0 = index material_bank /\
  (forall c, In c mixing_columns ->
     find_column c (columns df0) = Some (repeat NaN (length (index material_bank)))) /\
  (forall c, ~ In c mixing_columns ->
     find_column c (columns df0) = find_column c (columns material_bank)) /\
  (forall c, In c (names df0) <-> In c (names material_bank) \/ In c mixing_columns).
Proof.
  intros Hwf; unfold before_rows, final; rewrite init_mixing_columns_run.
  apply setitem_columns; exact Hwf.
Qed.

Lemma final_process_materials (properties : list string) (run_name : string)
      (material_bank : DataFrame) :
  final (process_materials Chemical getattr Mixture Hm write_error to_parquet
      properties run_name) material_bank =
  final (row_loop Chemical getattr Mixture Hm write_error properties material_bank)
        (before_rows material_bank).
Proof. unfold final at 1; rewrite process_materials_run; reflexivity. Qed.

(** The columns that a run may write: the valid properties and the
    mixing columns, where the name column is not. *)
Lemma written_columns (properties : list string) :
  let W := map fst (valid_properties_of properties) ++ mixing_columns in
  incl (map fst (valid_properties_of properties)) W /\
  incl mixing_columns W /\ ~ In "name" W.
Proof.
  intros W; split; [apply incl_appl, incl_refl|]; split; [apply incl_appr, incl_refl|].
  unfold W; rewrite in_app_iff; intros [H|H]; [|exact (name_not_mixing H)].
  apply in_map_iff in H; destruct H as ([prop attr] & Hp & Hin); simpl in Hp; subst prop.
  destruct (valid_properties_spec properties) as (_ & Hl & _).
  destruct (Hl _ _ Hin) as [_ Hlook]; discriminate Hlook.
Qed.

Lemma valid_property_supported (properties : list string) (prop : string) :
  In prop (map fst (valid_properties_of properties)) ->
  In prop properties /\ is_supported prop = true.
Proof.
  intros H; apply in_map_iff in H; destruct H as ([p attr] & Hp & Hin); simpl in Hp; subst p.
  destruct (valid_properties_spec properties) as (_ & Hl & _).
  destruct (Hl _ _ Hin) as [Hp Hlook]; split; auto.
  unfold is_supported; rewrite Hlook; reflexivity.
Qed.

(** A run relates the table before the rows and the table after them. *)
Lemma row_loop_written (properties : list string) (material_bank : DataFrame) (K : nat -> Prop) :
  (forall i, 0 <= i < shape0 material_bank ->
     (forall p, K p -> other_rows (index material_bank) i p) \/
     row_fails Chemical material_bank i) ->
  wf material_bank ->
  written_within (map fst (valid_properties_of properties) ++ mixing_columns) K
    (before_rows material_bank)
    (final (row_loop Chemical getattr Mixture Hm write_error properties material_bank)
           (before_rows material_bank)).
Proof.
  intros Hrows Hwf.
  destruct (before_rows_spec material_bank Hwf) as (Hwf0 & Hidx0 & _ & Hother0 & _).
  destruct (written_columns properties) as (HW1 & HW2 & HW3).
  apply rows_written; auto.
  intros i Hi; apply in_range_items in Hi.
  destruct (Hrows i ltac:(lia)) as [HK|Hfail].
  - left; rewrite Hidx0; exact HK.
  - right.
    apply (row_fails_frame material_bank (before_rows material_bank) i Hidx0
             (Hother0 _ name_not_mixing)); exact Hfail.
Qed.

(** A row that no iteration completes: its mixing cells are NaN, its
    other cells are the cells of the input. *)
Lemma unprocessed_row (properties : list string) (material_bank : DataFrame)
      (p : nat) (l : pyval) :
  wf material_bank -> nth_error (index material_bank) p = Some l ->
  (forall i, 0 <= i < shape0 material_bank -> py_eq l (JInt i) = true ->
             row_fails Chemical material_bank i) ->
  let after := final (row_loop Chemical getattr Mixture Hm write_error properties material_bank)
                     (before_rows material_bank) in
  index after = index material_bank /\
  (forall c, In c mixing_columns -> cell after p c = Some NaN) /\
  (forall c, ~ In c mixing_columns ->
     cell after p c = cell material_bank p c \/
     (cell material_bank p c = None /\ cell after p c = Some NaN)).
Proof.
  intros Hwf Hp Hrows after.
  destruct (before_rows_spec material_bank Hwf) as (Hwf0 & Hidx0 & Hmix0 & Hother0 & _).
  destruct (row_loop_written properties material_bank (eq p)) as (_ & Hidx & _ & _ & _ & _ & Hk);
    auto.
  { intros i Hi; destruct (py_eq l (JInt i)) eqn:E; [right; auto|].
    left; intros p' <-; exists l; auto. }
  specialize (Hk p eq_refl); fold after in Hk, Hidx.
  assert (Hlt : (p < length (index material_bank))%nat) by (apply nth_error_Some; congruence).
  split; [congruence|]; split.
  - intros c Hc.
    assert (H0 : cell (before_rows material_bank) p c = Some NaN).
    { unfold cell; rewrite (Hmix0 c Hc); apply nth_error_repeat_lt; exact Hlt. }
    destruct (Hk c) as [E|[E _]]; congruence.
  - intros c Hc.
    assert (H0 : cell (before_rows material_bank) p c = cell material_bank p c)
      by (unfold cell; rewrite (Hother0 c Hc); reflexivity).
    rewrite <- H0; apply Hk.
Qed.

End LoopFacts.

(** ** The enricher: names and columns *)

Lemma written_app (out1 out2 : list event) :
  written (out1 ++ out2) = written out1 ++ written out2.
Proof. apply flat_map_app. Qed.

Lemma written_warnings (props : list string) : written (map Warn props) = [].
Proof. induction props; simpl; auto. Qed.

Lemma filter_unsupported_supported (properties : list string) :
  filter (fun prop => negb (is_supported prop)) (filter is_supported properties) = [].
Proof.
  induction properties as [|prop properties IH]; simpl; auto.
  destruct (is_supported prop) eqn:E; simpl; auto.
  rewrite E; simpl; exact IH.
Qed.

(** Claim C5 has an unsupported name never be a header of the written
    table.  The name column of the table is requested as a property: it
    is not supported, and it is a header of what is written. *)
Lemma unsupported_name_is_written :
  is_supported "name" = false /\
  exists table,
    written (output (process_materials Examples.thermo_Chemical Examples.thermo_getattr
                       Examples.thermo_Mixture Examples.thermo_Hm Examples.pandas_write_error
      Examples.pyarrow_to_parquet ["name"] "run")
                    Examples.two_rows) = [table] /\
    In "name" (map fst table).
Proof.
  split; [reflexivity|].
  eexists; split; [vm_compute; reflexivity|].
  left; reflexivity.
Qed.

Section EnricherClaims.

Context {chemical mixture : Type}.
Variable Chemical : located -> result chemical.
Variable getattr : chemical -> string -> result (option pyfloat).
Variable Mixture : list located -> list Q -> result mixture.
Variable Hm : mixture -> result (option pyfloat).
Variable write_error : DataFrame -> Z -> string -> pyval -> option exn.
Variable to_parquet : string -> list (string * list pyval) -> result unit.

(** Claim C5, as the code has it.  For a requested name that is not in
    the catalog, on a well-formed table: the run gets to the write of
    the file, having warned about the name, and ends as the write ends;
    the name is not among the valid properties that the row loop runs
    over; one table is written, and the name is a header of it only if
    it is a column of the input or the label of a mixing column; and
    the run without the unsupported names ends in the same way and
    leaves the same table and the same events, the warnings apart. *)
Theorem unsupported_property_ignored (properties : list string) (run_name : string)
        (material_bank : DataFrame) (prop : string) :
  In prop properties -> is_supported prop = false -> wf material_bank ->
  exists after out,
    process_materials Chemical getattr Mixture Hm write_error to_parquet properties run_name
      material_bank =
      (to_parquet (run_name ++ ".parquet") (columns after), after,
       map Warn (filter (fun p => negb (is_supported p)) properties) ++ out) /\
    In (Warn prop) (map Warn (filter (fun p => negb (is_supported p)) properties)) /\
    ~ In prop (map fst (valid_properties_of properties)) /\
    written (map Warn (filter (fun p => negb (is_supported p)) properties) ++ out) =
      [columns after] /\
    (In prop (names after) -> In prop (names material_bank) \/ In prop mixing_columns) /\
    process_materials Chemical getattr Mixture Hm write_error to_parquet
      (filter is_supported properties) run_name material_bank =
      (to_parquet (run_name ++ ".parquet") (columns after), after, out).
Proof.
  intros Hin Hs Hwf.
  pose proof (process_materials_run Chemical getattr Mixture Hm write_error to_parquet
      properties run_name
                material_bank) as Hrun; cbv zeta in Hrun.
  pose proof (process_materials_run Chemical getattr Mixture Hm write_error to_parquet
                (filter is_supported properties) run_name material_bank) as Hrun'.
  cbv zeta in Hrun'.
  unfold row_loop in Hrun'; rewrite valid_properties_filter in Hrun'.
  fold (row_loop Chemical getattr Mixture Hm write_error properties material_bank) in Hrun'.
  rewrite filter_unsupported_supported in Hrun'; simpl in Hrun'.
  set (after := final (row_loop Chemical getattr Mixture Hm write_error properties material_bank)
                      (before_rows material_bank)) in *.
  assert (Hvp : ~ In prop (map fst (valid_properties_of properties))).
  { intros H; apply valid_property_supported in H; destruct H as [_ H]; congruence. }
  exists after; eexists; split; [exact Hrun|].
  split; [|split; [exact Hvp|split; [|split; [|exact Hrun']]]].
  - apply in_map, filter_In; split; auto; rewrite Hs; reflexivity.
  - rewrite !written_app, written_warnings.
    unfold row_loop.
    rewrite (proj1 (written_loop_events Chemical getattr Mixture Hm write_error
        _ _ _)); reflexivity.
  - intros Hafter.
    destruct (before_rows_spec material_bank Hwf) as (Hwf0 & _ & _ & _ & Hnames0).
    destruct (row_loop_written Chemical getattr Mixture Hm write_error properties material_bank
                (fun _ => False)) as (_ & _ & _ & _ & Hbound & _); auto.
    { intros i _; left; intros p []. }
    destruct (Hbound prop Hafter) as [H|H].
    + apply Hnames0 in H; exact H.
    + apply in_app_iff in H; destruct H as [H|H]; [contradiction|auto].
Qed.

(** Claim C6.  On a well-formed table, the catalogs give 12 distinct
    mixing columns; the row loop starts on the table [before_rows],
    where each of them is there once and holds NaN in every row; and in
    the table after the run each of them is there once, with one cell
    per row, each cell a number or the missing marker. *)
Theorem mixing_columns_initialised (properties : list string) (run_name : string)
        (material_bank : DataFrame) :
  wf material_bank ->
  let before := before_rows material_bank in
  let after :=
    final (process_materials Chemical getattr Mixture Hm write_error to_parquet
        properties run_name) material_bank in
  length mixing_columns = 12%nat /\ NoDup mixing_columns /\
  after = final (row_loop Chemical getattr Mixture Hm write_error
      properties material_bank) before /\
  index before = index material_bank /\ index after = index material_bank /\
  forall solvent fraction,
    In solvent solvents -> In fraction fractions ->
    let c := column_name solvent fraction in
    count_occ string_dec (names before) c = 1%nat /\
    find_column c (columns before) = Some (repeat NaN (length (index material_bank))) /\
    count_occ string_dec (names after) c = 1%nat /\
    exists cells,
      find_column c (columns after) = Some cells /\
      length cells = length (index material_bank) /\
      Forall (fun v => numeric_or_missing v = true) cells.
Proof.
  intros Hwf before after.
  destruct mixing_columns_distinct as [Hlen Hnd].
  destruct (before_rows_spec material_bank Hwf) as (Hwf0 & Hidx0 & Hmix0 & _ & Hnames0).
  assert (Hafter : after = final (row_loop Chemical getattr Mixture Hm write_error
      properties material_bank)
                                 before) by apply final_process_materials.
  destruct (row_loop_written Chemical getattr Mixture Hm write_error properties material_bank
              (fun _ => False))
    as (Hwf1 & Hidx1 & _ & Hmono & _ & Hok & _); auto.
  { intros i _; left; intros p []. }
  fold before in Hwf0, Hidx0, Hmix0, Hnames0, Hwf1, Hidx1, Hmono, Hok.
  rewrite <- Hafter in Hwf1, Hidx1, Hmono, Hok.
  split; [exact Hlen|]; split; [exact Hnd|]; split; [exact Hafter|].
  split; [exact Hidx0|]; split; [congruence|].
  intros solvent fraction Hs Hf c.
  assert (Hc : In c mixing_columns) by (apply in_mixing_columns; auto).
  assert (Hin0 : In c (names before)) by (apply Hnames0; auto).
  assert (Hin1 : In c (names after)) by (apply Hmono; auto).
  split; [apply NoDup_count_occ'; [apply Hwf0|exact Hin0]|].
  split; [apply Hmix0; exact Hc|].
  split; [apply NoDup_count_occ'; [apply Hwf1|exact Hin1]|].
  apply find_column_In in Hin1.
  destruct (find_column c (columns after)) as [cells|] eqn:E; [|congruence].
  exists cells; split; [reflexivity|]; split.
  - rewrite (wf_column after c cells Hwf1 E); congruence.
  - apply (Hok c cells E); intros cells0 E0.
    rewrite (Hmix0 c Hc) in E0; injection E0 as <-.
    apply Forall_repeat; reflexivity.
Qed.

End EnricherClaims.

Lemma wf_two_rows : wf Examples.two_rows.
Proof.
  split; simpl.
  - repeat constructor; intros [].
  - repeat constructor.
Qed.

Lemma unsupported_property_ignored_witness :
  ~ In "colour" (map fst (valid_properties_of ["density"; "colour"])).
Proof.
  destruct (unsupported_property_ignored Examples.thermo_Chemical Examples.thermo_getattr
              Examples.thermo_Mixture Examples.thermo_Hm Examples.pandas_write_error
      Examples.pyarrow_to_parquet ["density"; "colour"] "run"
              Examples.two_rows "colour")
    as (after & out & _ & _ & H & _).
  - right; left; reflexivity.
  - reflexivity.
  - exact wf_two_rows.
  - exact H.
Defined.

Lemma mixing_columns_initialised_witness :
  find_column (column_name "hexane" (1 # 2)) (columns (before_rows Examples.two_rows)) =
  Some [NaN; NaN].
Proof.
  destruct (mixing_columns_initialised Examples.thermo_Chemical Examples.thermo_getattr
              Examples.thermo_Mixture Examples.thermo_Hm Examples.pandas_write_error
      Examples.pyarrow_to_parquet ["density"] "run"
              Examples.two_rows wf_two_rows)
    as (_ & _ & _ & _ & _ & H).
  destruct (H "hexane" (1 # 2)) as (_ & Hcol & _).
  - right; left; reflexivity.
  - right; left; reflexivity.
  - exact Hcol.
Defined.

(** ** One iteration inside a loop that cannot raise *)

Lemma for_each_split {S X} (before : list X) (x : X) (after : list X)
      (body : X -> prog S unit) (s : S) :
  (forall y s', fst (fst (body y s')) = Ok tt) ->
  let s1 := final (for_each before body) s in
  let s2 := final (body x) s1 in
  for_each (before ++ x :: after) body s =
  (Ok tt, final (for_each after body) s2,
   output (for_each before body) s ++ output (body x) s1 ++ output (for_each after body) s2).
Proof.
  intros Hret s1 s2; subst s1 s2; unfold final, output.
  rewrite for_each_app.
  pose proof (for_each_returns before body s (fun y s' _ => Hret y s')) as H1.
  destruct (for_each before body s) as [[[[]|e1] s1] out1]; simpl in H1; [|discriminate].
  rewrite for_each_cons.
  pose proof (Hret x s1) as H2; simpl.
  destruct (body x s1) as [[[[]|e2] s2] out2]; simpl in H2; [|discriminate].
  pose proof (for_each_returns after body s2 (fun y s' _ => Hret y s')) as H3; simpl.
  destruct (for_each after body s2) as [[[[]|e3] s3] out3]; simpl in H3; [|discriminate].
  reflexivity.
Qed.

Lemma range_split (n i : Z) :
  0 <= i < n ->
  exists before after,
    range_items 0 n 1 = before ++ i :: after /\ ~ In i before /\ ~ In i after.
Proof.
  intros Hi.
  assert (Hin : In i (range_items 0 n 1)) by (apply in_range_items; lia).
  destruct (in_split _ _ Hin) as (before & after & E).
  exists before, after; split; auto.
  pose proof (NoDup_range_items 0 n) as Hnd; rewrite E in Hnd.
  apply NoDup_remove_2 in Hnd; rewrite in_app_iff in Hnd; tauto.
Qed.

Lemma py_eq_ints (a b : Z) : py_eq (JInt a) (JInt b) = (a =? b).
Proof.
  unfold py_eq, Qeq_bool; simpl; rewrite !Z.mul_1_r; reflexivity.
Qed.

(** On the index 0, 1, 2, ... the label of a row is its position. *)
Lemma select_none (i : pyval) (labels cells : list pyval) :
  Forall (fun l => py_eq l i = false) labels -> select i labels cells = [].
Proof.
  intros H; revert cells; induction H as [|l labels Hl _ IH]; intros [|c cells]; simpl; auto.
  rewrite Hl; apply IH.
Qed.

Lemma select_positions (p start : nat) (cells : list pyval) :
  select (JInt (Z.of_nat p)) (map (fun k => JInt (Z.of_nat k)) (seq start (length cells))) cells =
  match nth_error cells (p - start) with
  | Some v => if (start <=? p)%nat then [v] else []
  | None => []
  end.
Proof.
  revert start; induction cells as [|c cells IH]; intros start.
  - simpl; destruct (p - start)%nat; reflexivity.
  - cbn [length seq map select]; rewrite py_eq_ints, IH.
    destruct (Nat.lt_trichotomy start p) as [Hlt|[->|Hgt]].
    + replace (Z.of_nat start =? Z.of_nat p) with false by (symmetry; apply Z.eqb_neq; lia).
      replace (p - start)%nat with (S (p - S start)) by lia.
      replace (start <=? p)%nat with true by (symmetry; apply Nat.leb_le; lia).
      replace (S start <=? p)%nat with true by (symmetry; apply Nat.leb_le; lia).
      reflexivity.
    + rewrite Z.eqb_refl, Nat.sub_diag, Nat.leb_refl.
      replace (S p <=? p)%nat with false by (symmetry; apply Nat.leb_gt; lia).
      cbn [nth_error]; destruct (nth_error cells (p - S p)); reflexivity.
    + replace (Z.of_nat start =? Z.of_nat p) with false by (symmetry; apply Z.eqb_neq; lia).
      replace (start <=? p)%nat with false by (symmetry; apply Nat.leb_gt; lia).
      replace (S start <=? p)%nat with false by (symmetry; apply Nat.leb_gt; lia).
      destruct (nth_error cells (p - S start)), (nth_error (c :: cells) (p - start));
        reflexivity.
Qed.

Lemma loc_get_range_index (df : DataFrame) (p : nat) (c : string) :
  wf df -> index df = map JInt (range_items 0 (shape0 df) 1) ->
  loc_get df (Z.of_nat p) c =
  match cell df p c with
  | Some v => Ok (Scalar v)
  | None => Raise KeyError
  end.
Proof.
  intros Hwf Hidx; unfold loc_get, cell.
  destruct (find_column c (columns df)) as [cells|] eqn:E; auto.
  rewrite Hidx, range_items_forward, map_map.
  rewrite (map_ext _ (fun k => JInt (Z.of_nat k))) by (intros; f_equal; lia).
  replace (Z.to_nat (shape0 df - 0)) with (length cells)
    by (rewrite (wf_column df c cells Hwf E); unfold shape0; lia).
  rewrite select_positions, Nat.sub_0_r; simpl.
  destruct (nth_error cells p); reflexivity.
Qed.

Section RowOfARun.

Context {chemical mixture : Type}.
Variable Chemical : located -> result chemical.
Variable getattr : chemical -> string -> result (option pyfloat).
Variable Mixture : list located -> list Q -> result mixture.
Variable Hm : mixture -> result (option pyfloat).
Variable write_error : DataFrame -> Z -> string -> pyval -> option exn.
Variable to_parquet : string -> list (string * list pyval) -> result unit.

(** The iteration [i] of a run: the table [at_row] that it starts on
    has the index and the name column of the input and keeps the rows
    labelled [i] as they were before the rows; the iterations after it
    keep these rows as it leaves them. *)
Lemma row_loop_at (properties : list string) (material_bank : DataFrame) (i : Z) :
  wf material_bank -> 0 <= i < shape0 material_bank ->
  let W := map fst (valid_properties_of properties) ++ mixing_columns in
  let body := row_iteration Chemical getattr Mixture Hm write_error
      (valid_properties_of properties) in
  let labelled p := exists l, nth_error (index material_bank) p = Some l /\
                              py_eq l (JInt i) = true in
  exists before after at_row,
    range_items 0 (shape0 material_bank) 1 = before ++ i :: after /\
    at_row = final (for_each before body) (before_rows material_bank) /\
    wf at_row /\ index at_row = index material_bank /\
    loc_get at_row i "name" = loc_get material_bank i "name" /\
    written_within W labelled (before_rows material_bank) at_row /\
    written_within W labelled (final (body i) at_row)
      (final (row_loop Chemical getattr Mixture Hm write_error properties material_bank)
             (before_rows material_bank)) /\
    output (row_loop Chemical getattr Mixture Hm write_error properties material_bank)
           (before_rows material_bank) =
    output (for_each before body) (before_rows material_bank) ++
    output (body i) at_row ++
    output (for_each after body) (final (body i) at_row).
Proof.
  intros Hwf Hi W body labelled.
  destruct (range_split (shape0 material_bank) i Hi) as (before & after & Hrows & Hb & Ha).
  destruct (before_rows_spec material_bank Hwf) as (Hwf0 & Hidx0 & _ & Hother0 & _).
  destruct (written_columns properties) as (HW1 & HW2 & HW3).
  assert (Hother : forall rows df,
             index df = index material_bank -> ~ In i rows ->
             forall j, In j rows ->
               (forall p, labelled p -> other_rows (index df) j p) \/ row_fails Chemical df j).
  { intros rows df Hidx Hnot j Hj; left; intros p (l & Hp & Hl).
    exists l; split; [congruence|].
    destruct (py_eq l (JInt j)) eqn:E; auto.
    exfalso; apply Hnot; rewrite (py_eq_int_unique l i j Hl E); exact Hj. }
  set (at_row := final (for_each before body) (before_rows material_bank)).
  assert (H1 : written_within W labelled (before_rows material_bank) at_row)
    by (apply rows_written; auto; apply Hother; auto).
  destruct (H1 Hwf0) as (Hwf1 & Hidx1 & Hun1 & _).
  assert (H2 : written_within W (other_rows (index at_row) i) at_row (final (body i) at_row))
    by (apply row_iteration_written; auto).
  destruct (H2 Hwf1) as (Hwf2 & Hidx2 & _).
  pose proof (for_each_split before i after body (before_rows material_bank)
                (row_iteration_returns Chemical getattr Mixture Hm write_error _)) as Hsplit.
  cbv zeta in Hsplit; fold at_row in Hsplit.
  exists before, after, at_row.
  split; [exact Hrows|]; split; [reflexivity|]; split; [exact Hwf1|].
  split; [congruence|]; split; [|split; [exact H1|split]].
  - apply loc_get_frame; [congruence|].
    rewrite (Hun1 _ HW3); apply Hother0, name_not_mixing.
  - unfold row_loop, final at 2; fold body; rewrite Hrows, Hsplit; simpl.
    apply rows_written; auto.
    apply Hother; [congruence|exact Ha].
  - unfold row_loop, output at 1; fold body; rewrite Hrows, Hsplit; reflexivity.
Qed.

End RowOfARun.

(** ** The enricher: rows that are not processed *)

(** Claim C7 has a failed row hold missing values for every requested
    property.  On a table that already has a density column, the row
    whose name the constructor rejects keeps its density 1. *)
Lemma failed_row_keeps_old_value :
  loc_get Examples.enriched_before 0 "name" = Ok (Scalar (JStr "unobtainium")) /\
  Examples.thermo_Chemical (Scalar (JStr "unobtainium")) = Raise ValueError /\
  cell (final (process_materials Examples.thermo_Chemical Examples.thermo_getattr
                 Examples.thermo_Mixture Examples.thermo_Hm Examples.pandas_write_error
      Examples.pyarrow_to_parquet ["density"] "run")
              Examples.enriched_before) 0 "density" = Some (JFloat (FFinite 1)) /\
  is_missing (JFloat (FFinite 1)) = false.
Proof. repeat split. Qed.

Section RowClaims.

Context {chemical mixture : Type}.
Variable Chemical : located -> result chemical.
Variable getattr : chemical -> string -> result (option pyfloat).
Variable Mixture : list located -> list Q -> result mixture.
Variable Hm : mixture -> result (option pyfloat).
Variable write_error : DataFrame -> Z -> string -> pyval -> option exn.
Variable to_parquet : string -> list (string * list pyval) -> result unit.

Lemma printed_by_row_loop (properties : list string) (run_name : string)
      (material_bank : DataFrame) (msg : message) :
  In (Print msg)
     (output (process_materials Chemical getattr Mixture Hm write_error to_parquet
         properties run_name)
             material_bank) <->
  In (Print msg)
     (output (row_loop Chemical getattr Mixture Hm write_error properties material_bank)
             (before_rows material_bank)).
Proof.
  unfold output at 1; rewrite process_materials_run; cbv zeta; cbn [snd].
  rewrite !in_app_iff, in_map_iff; split; [|tauto].
  intros [(x & Hx & _)|[H|[H|[]]]]; auto; discriminate.
Qed.

(** Claim C7, as the code has it.  For a row labelled [i] whose name
    the constructor rejects: the iteration prints the error and leaves
    the table as it is, and the iterations after it run; the error is
    among the lines of the run; and in the table after the run every
    mixing cell of the row is NaN and every other cell is what the
    input held there, NaN where the run created the column. *)
Theorem failed_row_is_left_alone (properties : list string) (run_name : string)
        (material_bank : DataFrame) (i : Z) (nm : located) (e : exn) (p : nat) (l : pyval) :
  wf material_bank -> 0 <= i < shape0 material_bank ->
  loc_get material_bank i "name" = Ok nm -> Chemical nm = Raise e ->
  nth_error (index material_bank) p = Some l -> py_eq l (JInt i) = true ->
  let body := row_iteration Chemical getattr Mixture Hm write_error
      (valid_properties_of properties) in
  let after :=
    final (process_materials Chemical getattr Mixture Hm write_error to_parquet
        properties run_name) material_bank in
  (forall df rest,
     loc_get df i "name" = Ok nm ->
     body i df = (Ok tt, df, Print (MsgErrorMaterial i e) :: row_trailer i) /\
     for_each (i :: rest) body df =
     let '(r, final, out) := for_each rest body df in
     (r, final, (Print (MsgErrorMaterial i e) :: row_trailer i) ++ out)) /\
  In (Print (MsgErrorMaterial i e))
     (output (process_materials Chemical getattr Mixture Hm write_error to_parquet
         properties run_name)
             material_bank) /\
  (forall c, In c mixing_columns -> cell after p c = Some NaN) /\
  (forall c, ~ In c mixing_columns ->
     cell after p c = cell material_bank p c \/
     (cell material_bank p c = None /\ cell after p c = Some NaN)).
Proof.
  intros Hwf Hi Hnm Hchem Hp Hl body after.
  assert (Hiter : forall df, loc_get df i "name" = Ok nm ->
                    body i df = (Ok tt, df, Print (MsgErrorMaterial i e) :: row_trailer i)).
  { intros df Hdf; unfold body; rewrite row_iteration_run, Hdf, Hchem; reflexivity. }
  split; [|split].
  - intros df rest Hdf; split; [auto|].
    rewrite for_each_cons, (Hiter df Hdf).
    destruct (for_each rest body df) as [[r fin] out]; reflexivity.
  - apply printed_by_row_loop.
    destruct (row_loop_at Chemical getattr Mixture Hm write_error properties material_bank i Hwf Hi)
      as (before & rest & at_row & _ & _ & _ & _ & Hname & _ & _ & Hout).
    rewrite Hout, !in_app_iff; right; left.
    fold body; unfold output; rewrite (Hiter at_row) by congruence.
    left; reflexivity.
  - unfold after; rewrite final_process_materials.
    apply (unprocessed_row Chemical getattr Mixture Hm write_error
        properties material_bank p l Hwf Hp).
    intros j Hj Hlj.
    rewrite <- (py_eq_int_unique l i j Hl Hlj).
    unfold row_fails; rewrite Hnm; eauto.
Qed.

End RowClaims.

Lemma failed_row_is_left_alone_witness :
  cell (final (process_materials Examples.thermo_Chemical Examples.thermo_getattr
                 Examples.thermo_Mixture Examples.thermo_Hm Examples.pandas_write_error
      Examples.pyarrow_to_parquet ["density"] "run")
              Examples.two_rows) 1 (column_name "water" (1 # 4)) = Some NaN.
Proof.
  destruct (failed_row_is_left_alone Examples.thermo_Chemical Examples.thermo_getattr
              Examples.thermo_Mixture Examples.thermo_Hm Examples.pandas_write_error
      Examples.pyarrow_to_parquet ["density"] "run"
              Examples.two_rows 1 (Scalar (JStr "unobtainium")) ValueError 1 (JInt 1))
    as (_ & _ & Hmix & _).
  - exact wf_two_rows.
  - unfold shape0; simpl; lia.
  - reflexivity.
  - reflexivity.
  - reflexivity.
  - reflexivity.
  - apply Hmix; left; reflexivity.
Defined.

(** The table that the fetcher builds carries the identifiers as labels:
    the enricher finds none of its rows. *)
Lemma cid_indexed_bank_is_skipped :
  exists material_bank out,
    run (generate_material_bank Examples.server_complete 5 6 100) = (Ok material_bank, out) /\
    index material_bank = [JInt 5; JInt 6] /\
    filter (fun e => match e with Print _ => true | _ => false end)
      (output (process_materials Examples.thermo_Chemical Examples.thermo_getattr
                 Examples.thermo_Mixture Examples.thermo_Hm Examples.pandas_write_error
      Examples.pyarrow_to_parquet ["density"] "run")
              material_bank) =
    [Print (MsgErrorMaterial 0 KeyError); Print (MsgMaterialProcessed 0);
     Print (MsgErrorMaterial 1 KeyError); Print (MsgMaterialProcessed 1)].
Proof. do 2 eexists; split; [vm_compute; reflexivity|]; split; reflexivity. Qed.

(** The same rows under the labels 1, 0: the iteration 1 enriches the
    row at position 0. *)
Lemma swapped_labels_swap_rows :
  cell (final (process_materials Examples.thermo_Chemical Examples.thermo_getattr
                 Examples.thermo_Mixture Examples.thermo_Hm Examples.pandas_write_error
      Examples.pyarrow_to_parquet ["density"] "run")
              Examples.two_rows_swapped) 0 "density" = Some (JFloat (FFinite 997)) /\
  filter (fun e => match e with Print _ => true | _ => false end)
    (output (process_materials Examples.thermo_Chemical Examples.thermo_getattr
               Examples.thermo_Mixture Examples.thermo_Hm Examples.pandas_write_error
      Examples.pyarrow_to_parquet ["density"] "run")
            Examples.two_rows_swapped) =
  [Print (MsgErrorMaterial 0 ValueError); Print (MsgMaterialProcessed 0);
   Print (MsgMaterialProcessed 1)].
Proof. split; reflexivity. Qed.

(** ** The enricher: rows that are processed *)

Lemma NoDup_app_disjoint {A} (a b : list A) (c : A) :
  NoDup (a ++ b) -> In c a -> ~ In c b.
Proof.
  induction a as [|x a IH]; simpl; intros Hnd [].
  - subst x; inversion Hnd as [|? ? Hx _]; subst.
    intros Hb; apply Hx, in_app_iff; right; exact Hb.
  - inversion Hnd; subst; apply IH; auto.
Qed.

Section EnrichedRow.

Context {chemical mixture : Type}.
Variable Chemical : located -> result chemical.
Variable getattr : chemical -> string -> result (option pyfloat).
Variable Mixture : list located -> list Q -> result mixture.
Variable Hm : mixture -> result (option pyfloat).
Variable write_error : DataFrame -> Z -> string -> pyval -> option exn.
Variable to_parquet : string -> list (string * list pyval) -> result unit.

Lemma named_loc_set (i : Z) (nm : located) (col : string) (v : pyval) (df : DataFrame) :
  col <> "name" -> named i nm df -> named i nm (loc_set i col v df).
Proof.
  intros Hcol [Hwf Hnm].
  pose proof (loc_get_labelled df i "name" nm Hnm) as Hi.
  split; [apply wf_loc_set; auto|].
  rewrite <- Hnm; apply loc_get_frame.
  - apply index_loc_set; auto.
  - apply find_column_loc_set_other; auto.
Qed.

Lemma find_column_grown (c : string) (cols : list (string * list pyval)) :
  find_column c (map (fun col => (fst col, snd col ++ [NaN])) cols) =
  option_map (fun cells => cells ++ [NaN]) (find_column c cols).
Proof.
  induction cols as [|[c0 cells] cols IH]; simpl; auto.
  destruct (String.eqb c0 c); auto.
Qed.

Lemma floats_kept_refl (df : DataFrame) : floats_kept df df.
Proof. intros col H; exact H. Qed.

Lemma floats_kept_trans (df1 df2 df3 : DataFrame) :
  floats_kept df1 df2 -> floats_kept df2 df3 -> floats_kept df1 df3.
Proof. intros H12 H23 col H; apply H23, H12, H. Qed.

(** A float written into the table makes no column of floats a column
    of anything else. *)
Lemma floats_kept_loc_set (i : Z) (col : string) (v : pyval) (df : DataFrame) :
  is_float v = true -> floats_kept df (loc_set i col v df).
Proof.
  intros Hv c Hc cells' Hcells'; unfold loc_set in Hcells'; cbv zeta in Hcells'.
  set (grown := if has_label i df then df
                else {| index_name := index_name df;
                        index := index df ++ [JInt i];
                        columns := map (fun c => (fst c, snd c ++ [NaN])) (columns df) |})
    in *.
  assert (Hgrown : forall c', float_column df c' -> float_column grown c').
  { intros c' Hc' cells Hcells; unfold grown in Hcells.
    destruct (has_label i df); [apply (Hc' cells Hcells)|].
    simpl in Hcells; rewrite find_column_grown in Hcells.
    destruct (find_column c' (columns df)) as [old|] eqn:E; [|discriminate].
    injection Hcells as <-.
    apply Forall_app; split; [apply (Hc' old E)|repeat constructor]. }
  simpl in Hcells'.
  destruct (string_dec c col) as [->|Hne].
  - rewrite find_column_replace_same in Hcells'; injection Hcells' as <-.
    apply Forall_assign; [exact Hv|].
    destruct (find_column col (columns grown)) as [old|] eqn:E.
    + apply (Hgrown col Hc old E).
    + apply Forall_repeat; reflexivity.
  - rewrite find_column_replace_other in Hcells' by exact Hne.
    apply (Hgrown c Hc cells' Hcells').
Qed.

Lemma float_of_scalar (x : option pyfloat) : is_float (of_scalar x) = true.
Proof. destruct x; reflexivity. Qed.

Lemma float_property_value (chem : chemical) (attr : string) :
  is_float (property_value getattr chem attr) = true.
Proof.
  unfold property_value; destruct (getattr chem attr);
    [apply float_of_scalar|reflexivity].
Qed.

Lemma float_mixing_value (nm : located) (solvent : string) (fraction : Q) :
  is_float (mixing_value Mixture Hm nm solvent fraction) = true.
Proof.
  unfold mixing_value; destruct (Mixture _ _) as [mix|]; [|reflexivity].
  destruct (Hm mix); [apply float_of_scalar|reflexivity].
Qed.

(** The loops write floats only. *)
Lemma floats_set_loc (i : Z) (col : string) (v : pyval) :
  is_float v = true -> stable floats_kept (set_loc write_error i col v).
Proof.
  intros Hv df; unfold final; rewrite (set_loc_run write_error i col v df).
  destruct (write_error df i col v); simpl;
    [apply floats_kept_refl|apply floats_kept_loc_set, Hv].
Qed.

Lemma floats_read_property (chem : chemical) (i : Z) (item : string * string) :
  stable floats_kept (read_property getattr write_error chem i item).
Proof.
  intros df; unfold final.
  destruct (read_property_cases getattr write_error chem i item df) as [[v Hv]|[e ->]];
    [|apply floats_kept_refl].
  destruct item as [prop attr]; rewrite (read_property_run getattr write_error) in *.
  pose proof (floats_set_loc i prop NaN eq_refl df) as HNaN; unfold final in HNaN.
  destruct (getattr chem attr) as [x|e].
  - destruct (write_error df i prop (of_scalar x)) as [[]|]; simpl;
      try apply floats_kept_refl; try exact HNaN.
    apply floats_kept_loc_set, float_of_scalar.
  - destruct e; simpl; try apply floats_kept_refl; exact HNaN.
Qed.

Lemma floats_mixing_cell (i : Z) (solvent : string) (fraction : Q) :
  stable floats_kept (mixing_cell Mixture Hm write_error i solvent fraction).
Proof.
  intros df; unfold final; rewrite (mixing_cell_run Mixture Hm write_error).
  pose proof (floats_set_loc i (column_name solvent fraction) NaN eq_refl df) as HNaN.
  unfold final in HNaN.
  destruct (loc_get df i "name") as [nm|e]; [|exact HNaN].
  destruct (Mixture _ _) as [mix|e]; [|exact HNaN].
  destruct (Hm mix) as [x|e]; [|exact HNaN].
  destruct (write_error df i _ (of_scalar x)); [exact HNaN|].
  apply floats_kept_loc_set, float_of_scalar.
Qed.

Lemma floats_row_iteration (vp : list (string * string)) (i : Z) :
  stable floats_kept (row_iteration Chemical getattr Mixture Hm write_error vp i).
Proof.
  assert (Hbody : forall chem,
             stable floats_kept
               (for_each vp (read_property getattr write_error chem i) ;;
                mixing_loop Mixture Hm write_error i)).
  { intros chem; apply (stable_bind floats_kept floats_kept_trans).
    - apply (stable_for_each floats_kept floats_kept_refl floats_kept_trans).
      intros item _; apply floats_read_property.
    - intros _; apply (stable_for_each floats_kept floats_kept_refl floats_kept_trans).
      intros solvent _.
      apply (stable_for_each floats_kept floats_kept_refl floats_kept_trans).
      intros fraction _; apply floats_mixing_cell. }
  intros df; unfold final; rewrite (row_iteration_run Chemical getattr Mixture Hm write_error).
  destruct (loc_get df i "name") as [nm|e]; [|apply floats_kept_refl].
  destruct (Chemical nm) as [chem|e]; [|apply floats_kept_refl].
  specialize (Hbody chem df); unfold final in Hbody.
  destruct ((_ ;; _) df) as [[[[]|e] df1] out1]; exact Hbody.
Qed.

Lemma floats_rows (vp : list (string * string)) (rows : list Z) :
  stable floats_kept
    (for_each rows (row_iteration Chemical getattr Mixture Hm write_error vp)).
Proof.
  apply (stable_for_each floats_kept floats_kept_refl floats_kept_trans).
  intros i _; apply floats_row_iteration.
Qed.

Lemma row_ready_loc_set (N : list string) (i : Z) (nm : located) (col : string) (v : pyval)
      (df : DataFrame) :
  col <> "name" -> is_float v = true ->
  row_ready N i nm df -> row_ready N i nm (loc_set i col v df).
Proof.
  intros Hcol Hv [Hdf Hnum]; split; [apply named_loc_set; auto|].
  intros c Hc; apply (floats_kept_loc_set i col v df Hv), Hnum, Hc.
Qed.

(** The loop over the valid properties, when every read is guarded and
    the table takes floats. *)
Lemma property_loop_enriches (N : list string) (chem : chemical) (i : Z) (nm : located)
      (vp : list (string * string)) (df : DataFrame) :
  reads_guarded getattr chem vp -> NoDup (map fst vp) -> ~ In "name" (map fst vp) ->
  accepts_floats write_error i -> incl (map fst vp) N ->
  row_ready N i nm df ->
  exists df',
    for_each vp (read_property getattr write_error chem i) df = (Ok tt, df', []) /\
    row_ready N i nm df' /\ index df' = index df /\
    (forall c, ~ In c (map fst vp) ->
               find_column c (columns df') = find_column c (columns df)) /\
    (forall prop attr p l,
        In (prop, attr) vp -> nth_error (index df) p = Some l ->
        py_eq l (JInt i) = true ->
        cell df' p prop = Some (property_value getattr chem attr)).
Proof.
  intros Hguard Hnd Hname Hacc HN Hdf.
  destruct (column_writes i (row_ready N i nm) (fun d H => proj1 (proj1 H))
              (fun d H => loc_get_labelled d i "name" nm (proj2 (proj1 H)))
              (read_property getattr write_error chem i) fst
              (fun item => property_value getattr chem (snd item)) vp df)
    as (df' & Hrun & Hdf' & Hidx & Hother & Hcells); auto.
  { intros [prop attr] d Hin Hd; cbn [fst snd]; split.
    - apply read_property_accepted.
      + intros e; apply (Hguard prop attr e Hin).
      + apply Hacc; [apply float_property_value|].
        apply Hd, HN, in_map_iff; exists (prop, attr); auto.
    - apply row_ready_loc_set; auto using float_property_value.
      intros ->; apply Hname, in_map_iff; exists ("name", attr); auto. }
  exists df'; repeat split; auto; try apply Hdf'.
  intros prop attr p l Hin Hp Hl; apply (Hcells (prop, attr) p l Hin Hp Hl).
Qed.

(** The loop over the solvents and the fractions, when the table takes
    numbers. *)
Lemma mixing_loop_enriches (N : list string) (i : Z) (nm : located) (df : DataFrame) :
  accepts_floats write_error i -> incl mixing_columns N ->
  row_ready N i nm df ->
  exists df',
    mixing_loop Mixture Hm write_error i df = (Ok tt, df', []) /\
    row_ready N i nm df' /\ index df' = index df /\
    (forall c, ~ In c mixing_columns ->
               find_column c (columns df') = find_column c (columns df)) /\
    (forall solvent fraction p l,
        In solvent solvents -> In fraction fractions ->
        nth_error (index df) p = Some l -> py_eq l (JInt i) = true ->
        cell df' p (column_name solvent fraction) =
        Some (mixing_value Mixture Hm nm solvent fraction)).
Proof.
  intros Hacc HN Hdf; unfold mixing_loop.
  rewrite for_each_mixing_columns.
  assert (Hcol : forall sf, In sf (flat_map (fun solvent => map (pair solvent) fractions)
                                            solvents) ->
                            In (column_name (fst sf) (snd sf)) mixing_columns).
  { intros [s f] Hin.
    apply in_flat_map in Hin; destruct Hin as (s' & Hs' & Hin).
    apply in_map_iff in Hin; destruct Hin as (f' & Hsf & Hf'); injection Hsf as <- <-.
    apply in_mixing_columns; auto. }
  destruct (column_writes i (row_ready N i nm) (fun d H => proj1 (proj1 H))
              (fun d H => loc_get_labelled d i "name" nm (proj2 (proj1 H)))
              (fun sf => mixing_cell Mixture Hm write_error i (fst sf) (snd sf))
              (fun sf => column_name (fst sf) (snd sf))
              (fun sf => mixing_value Mixture Hm nm (fst sf) (snd sf))
              (flat_map (fun solvent => map (pair solvent) fractions) solvents) df)
    as (df' & Hrun & Hdf' & Hidx & Hother & Hcells); auto.
  { intros [s f] d Hin Hd; cbn [fst snd]; split.
    - pose proof (mixing_cell_accepted Mixture Hm write_error i s f d) as Hcell; cbv zeta in Hcell.
      rewrite (proj2 (proj1 Hd)) in Hcell; apply Hcell.
      apply Hacc; [apply float_mixing_value|].
      apply Hd, HN, (Hcol (s, f) Hin).
    - apply row_ready_loc_set; auto using float_mixing_value.
      intros E; apply name_not_mixing; rewrite <- E; apply (Hcol (s, f) Hin). }
  { apply mixing_columns_distinct. }
  exists df'; repeat split; auto; try apply Hdf'.
  intros s f p l Hs Hf Hp Hl.
  apply (Hcells (s, f) p l); auto.
  apply in_flat_map; exists s; split; auto; apply in_map; auto.
Qed.

(** One iteration on a row that reaches both loops. *)
Lemma row_enriched (vp : list (string * string)) (i : Z) (nm : located) (chem : chemical)
      (df : DataFrame) :
  wf df -> loc_get df i "name" = Ok nm -> Chemical nm = Ok chem ->
  reads_guarded getattr chem vp -> NoDup (map fst vp) ->
  (forall prop, In prop (map fst vp) -> ~ In prop mixing_columns /\ prop <> "name") ->
  accepts_floats write_error i ->
  (forall c, In c (map fst vp ++ mixing_columns) -> float_column df c) ->
  exists df',
    row_iteration Chemical getattr Mixture Hm write_error vp i df =
      (Ok tt, df', row_trailer i) /\
    index df' = index df /\
    (forall prop attr p l,
        In (prop, attr) vp -> nth_error (index df) p = Some l ->
        py_eq l (JInt i) = true ->
        cell df' p prop = Some (property_value getattr chem attr)) /\
    (forall solvent fraction p l,
        In solvent solvents -> In fraction fractions ->
        nth_error (index df) p = Some l -> py_eq l (JInt i) = true ->
        cell df' p (column_name solvent fraction) =
        Some (mixing_value Mixture Hm nm solvent fraction)).
Proof.
  intros Hwf Hnm Hchem Hguard Hnd Hvp Hacc Hnum.
  set (N := map fst vp ++ mixing_columns) in *.
  destruct (property_loop_enriches N chem i nm vp df Hguard Hnd)
    as (df1 & Hrun1 & Hdf1 & Hidx1 & _ & Hcells1); auto.
  { intros H; destruct (Hvp _ H) as [_ Hne]; congruence. }
  { apply incl_appl, incl_refl. }
  { split; [split|]; auto. }
  destruct (mixing_loop_enriches N i nm df1 Hacc (incl_appr _ (incl_refl _)) Hdf1)
    as (df2 & Hrun2 & Hdf2 & Hidx2 & Hother2 & Hcells2).
  exists df2.
  split; [rewrite row_iteration_run, Hnm, Hchem; unfold bind; rewrite Hrun1, Hrun2;
          reflexivity|].
  split; [congruence|]; split.
  - intros prop attr p l Hin Hp Hl.
    assert (Hprop : ~ In prop mixing_columns)
      by (apply Hvp, in_map_iff; exists (prop, attr); auto).
    unfold cell; rewrite (Hother2 prop Hprop).
    apply (Hcells1 prop attr p l Hin Hp Hl).
  - intros s f p l Hs Hf Hp Hl; apply (Hcells2 s f p l); auto; congruence.
Qed.

(** One iteration on a row one of whose reads raises something else
    than [AttributeError]: the properties before it are written, and
    the iteration ends there with its error line. *)
Lemma row_abandoned (done : list (string * string)) (prop attr : string)
      (rest : list (string * string)) (i : Z) (nm : located) (chem : chemical)
      (e : exn) (df : DataFrame) :
  wf df -> loc_get df i "name" = Ok nm -> Chemical nm = Ok chem ->
  reads_guarded getattr chem done -> NoDup (map fst done) ->
  ~ In "name" (map fst done) ->
  accepts_floats write_error i ->
  (forall c, In c (map fst done) -> float_column df c) ->
  getattr chem attr = Raise e -> e <> AttributeError ->
  exists df',
    row_iteration Chemical getattr Mixture Hm write_error (done ++ (prop, attr) :: rest) i df =
      (Ok tt, df', Print (MsgErrorMaterial i e) :: row_trailer i) /\
    index df' = index df /\
    (forall c, ~ In c (map fst done) ->
               find_column c (columns df') = find_column c (columns df)) /\
    (forall prop' attr' p l,
        In (prop', attr') done -> nth_error (index df) p = Some l ->
        py_eq l (JInt i) = true ->
        cell df' p prop' = Some (property_value getattr chem attr')).
Proof.
  intros Hwf Hnm Hchem Hguard Hnd Hname Hacc Hnum Hget He.
  destruct (property_loop_enriches (map fst done) chem i nm done df Hguard Hnd Hname Hacc
              (incl_refl _))
    as (df1 & Hrun1 & Hdf1 & Hidx1 & Hother1 & Hcells1).
  { split; [split|]; auto. }
  exists df1; split; [|auto].
  rewrite row_iteration_run, Hnm, Hchem; unfold bind.
  rewrite for_each_app, Hrun1, for_each_cons.
  rewrite (read_property_raises getattr write_error chem i prop attr df1 e Hget He); reflexivity.
Qed.

(** The table before the rows has floats in the mixing columns, and in
    the columns of the valid properties when the input has; so has the
    table that an iteration of the run starts on. *)
Lemma float_before_rows (properties : list string) (material_bank : DataFrame) :
  wf material_bank ->
  (forall c, In c (map fst (valid_properties_of properties)) ->
             float_column material_bank c) ->
  forall c, In c (map fst (valid_properties_of properties) ++ mixing_columns) ->
            float_column (before_rows material_bank) c.
Proof.
  intros Hwf Hnum c Hc cells Hcells.
  destruct (before_rows_spec material_bank Hwf) as (_ & _ & Hmix0 & Hother0 & _).
  destruct (in_dec string_dec c mixing_columns) as [Hm'|Hm'].
  - rewrite (Hmix0 c Hm') in Hcells; injection Hcells as <-.
    apply Forall_repeat; reflexivity.
  - rewrite (Hother0 c Hm') in Hcells.
    apply in_app_iff in Hc; destruct Hc as [Hc|Hc]; [|contradiction].
    apply (Hnum c Hc cells Hcells).
Qed.

Lemma float_at_row (properties : list string) (material_bank : DataFrame) (rows : list Z) :
  wf material_bank ->
  (forall c, In c (map fst (valid_properties_of properties)) ->
             float_column material_bank c) ->
  forall c, In c (map fst (valid_properties_of properties) ++ mixing_columns) ->
            float_column
              (final (for_each rows
                        (row_iteration Chemical getattr Mixture Hm write_error
                           (valid_properties_of properties)))
                     (before_rows material_bank)) c.
Proof.
  intros Hwf Hnum c Hc.
  apply (floats_rows (valid_properties_of properties) rows (before_rows material_bank)).
  apply (float_before_rows properties material_bank Hwf Hnum c Hc).
Qed.

(** The row of a run that reaches both loops. *)
Lemma processed_row (properties : list string) (run_name : string)
      (material_bank : DataFrame) (i : Z) (nm : located) (chem : chemical)
      (p : nat) (l : pyval) :
  wf material_bank -> 0 <= i < shape0 material_bank ->
  loc_get material_bank i "name" = Ok nm -> Chemical nm = Ok chem ->
  nth_error (index material_bank) p = Some l -> py_eq l (JInt i) = true ->
  reads_guarded getattr chem (valid_properties_of properties) ->
  accepts_floats write_error i ->
  (forall c, In c (map fst (valid_properties_of properties)) ->
             float_column material_bank c) ->
  let after :=
    final (process_materials Chemical getattr Mixture Hm write_error to_parquet properties
             run_name) material_bank in
  (forall prop attr,
      In (prop, attr) (valid_properties_of properties) ->
      cell after p prop = Some (property_value getattr chem attr)) /\
  (forall solvent fraction,
      In solvent solvents -> In fraction fractions ->
      cell after p (column_name solvent fraction) =
      Some (mixing_value Mixture Hm nm solvent fraction)) /\
  (forall e,
      ~ In (Print (MsgErrorMaterial i e))
           (output (process_materials Chemical getattr Mixture Hm write_error to_parquet
                      properties run_name) material_bank)).
Proof.
  intros Hwf Hi Hnm Hchem Hp Hl Hguard Hacc Hnum after.
  destruct (row_loop_at Chemical getattr Mixture Hm write_error properties material_bank i
              Hwf Hi)
    as (before & rest & at_row & Hrows & Hat & Hwf1 & Hidx1 & Hname1 & Hbefore & Hafter & Hout).
  destruct (valid_properties_spec properties) as (Hnd & Hl' & _).
  destruct (row_enriched (valid_properties_of properties) i nm chem at_row)
    as (df' & Hrun & Hidx' & Hprops & Hmix); auto; try congruence.
  { intros prop Hprop; apply supported_not_mixing.
    apply (valid_property_supported properties prop Hprop). }
  { intros c Hc; rewrite Hat; apply (float_at_row properties material_bank before Hwf Hnum c Hc). }
  unfold final at 1 in Hafter; rewrite Hrun in Hafter; simpl in Hafter.
  assert (Hwf' : wf df').
  { pose proof (row_iteration_written Chemical getattr Mixture Hm write_error
                  (map fst (valid_properties_of properties) ++ mixing_columns)
                  (valid_properties_of properties) i at_row
                  (incl_appl _ (incl_refl _)) (incl_appr _ (incl_refl _)) Hwf1) as H.
    unfold final in H; rewrite Hrun in H; apply H. }
  destruct (Hafter Hwf') as (_ & _ & _ & _ & _ & _ & Hk).
  assert (Hkeep : forall c v, cell df' p c = Some v -> cell after p c = Some v).
  { intros c v Hc; unfold after; rewrite final_process_materials.
    destruct (Hk p (ex_intro _ l (conj Hp Hl)) c) as [E|[E _]]; congruence. }
  split; [|split].
  - intros prop attr Hin; apply Hkeep, (Hprops prop attr p l); auto; congruence.
  - intros s f Hs Hf; apply Hkeep, (Hmix s f p l); auto; congruence.
  - intros e Hin; apply printed_by_row_loop in Hin.
    rewrite Hout, !in_app_iff in Hin.
    assert (Hno : forall rows df, ~ In i rows ->
              ~ In (Print (MsgErrorMaterial i e))
                   (output (for_each rows
                              (row_iteration Chemical getattr Mixture Hm write_error
                                 (valid_properties_of properties))) df)).
    { intros rows df Hnot H.
      pose proof (row_loop_events Chemical getattr Mixture Hm write_error
                    (valid_properties_of properties) rows df) as Hev.
      rewrite Forall_forall in Hev; destruct (Hev _ H) as (j & Hj & [E|[E|[x E]]]);
        try discriminate.
      injection E as -> _; contradiction. }
    pose proof (NoDup_range_items 0 (shape0 material_bank)) as Hnd'.
    rewrite Hrows in Hnd'.
    destruct Hin as [H|[H|H]].
    + apply (Hno before _) in H; auto.
      intros Hb; apply NoDup_remove_2 in Hnd'; apply Hnd', in_app_iff; auto.
    + unfold output in H; rewrite Hrun in H; simpl in H.
      destruct H as [H|[H|[]]]; discriminate.
    + apply (Hno rest _) in H; auto.
      intros Hb; apply NoDup_remove_2 in Hnd'; apply Hnd', in_app_iff; auto.
Qed.

(** The row of a run one of whose reads raises something else than
    [AttributeError]. *)
Lemma abandoned_row (properties : list string) (run_name : string)
      (material_bank : DataFrame) (i : Z) (nm : located) (chem : chemical)
      (p : nat) (l : pyval) (done : list (string * string)) (prop attr : string)
      (rest : list (string * string)) (e : exn) :
  wf material_bank -> 0 <= i < shape0 material_bank ->
  loc_get material_bank i "name" = Ok nm -> Chemical nm = Ok chem ->
  nth_error (index material_bank) p = Some l -> py_eq l (JInt i) = true ->
  accepts_floats write_error i ->
  (forall c, In c (map fst (valid_properties_of properties)) ->
             float_column material_bank c) ->
  valid_properties_of properties = done ++ (prop, attr) :: rest ->
  reads_guarded getattr chem done ->
  getattr chem attr = Raise e -> e <> AttributeError ->
  let after :=
    final (process_materials Chemical getattr Mixture Hm write_error to_parquet properties
             run_name) material_bank in
  In (Print (MsgErrorMaterial i e))
     (output (process_materials Chemical getattr Mixture Hm write_error to_parquet
                properties run_name) material_bank) /\
  (forall prop' attr',
      In (prop', attr') done ->
      cell after p prop' = Some (property_value getattr chem attr')) /\
  (forall c, In c (map fst ((prop, attr) :: rest)) ->
      cell after p c = cell material_bank p c \/
      (cell material_bank p c = None /\ cell after p c = Some NaN)) /\
  (forall c, In c mixing_columns -> cell after p c = Some NaN).
Proof.
  intros Hwf Hi Hnm Hchem Hp Hl Hacc Hnum Hvp Hguard Hget He after.
  destruct (row_loop_at Chemical getattr Mixture Hm write_error properties material_bank i
              Hwf Hi)
    as (before & later & at_row & Hrows & Hat & Hwf1 & Hidx1 & Hname1 & Hbefore & Hafter & Hout).
  destruct (valid_properties_spec properties) as (Hnd & Hl' & _).
  cbv zeta in Hnd, Hl'.
  destruct (before_rows_spec material_bank Hwf) as (Hwf0 & Hidx0 & Hmix0 & Hother0 & _).
  destruct (Hbefore Hwf0) as (_ & _ & _ & _ & _ & _ & Hk1).
  assert (Hsup : forall c, In c (map fst (valid_properties_of properties)) ->
                           ~ In c mixing_columns /\ c <> "name").
  { intros c Hc; apply supported_not_mixing.
    apply (valid_property_supported properties c Hc). }
  assert (Hdone : incl (map fst done) (map fst (valid_properties_of properties))).
  { rewrite Hvp, map_app; apply incl_appl, incl_refl. }
  assert (Hnd_done : NoDup (map fst done)).
  { rewrite Hvp, map_app in Hnd; apply NoDup_app_remove_r in Hnd; exact Hnd. }
  destruct (row_abandoned done prop attr rest i nm chem e at_row)
    as (df' & Hrun & Hidx' & Hother' & Hprops); auto; try congruence.
  { intros H; destruct (Hsup _ (Hdone _ H)) as [_ Hne]; congruence. }
  { intros c Hc; rewrite Hat; apply (float_at_row properties material_bank before Hwf Hnum c).
    apply in_app_iff; left; apply Hdone; exact Hc. }
  rewrite <- Hvp in Hrun.
  unfold final at 1 in Hafter; rewrite Hrun in Hafter; simpl in Hafter.
  assert (Hwf' : wf df').
  { pose proof (row_iteration_written Chemical getattr Mixture Hm write_error
                  (map fst (valid_properties_of properties) ++ mixing_columns)
                  (valid_properties_of properties) i at_row
                  (incl_appl _ (incl_refl _)) (incl_appr _ (incl_refl _)) Hwf1) as H.
    unfold final in H; rewrite Hrun in H; apply H. }
  destruct (Hafter Hwf') as (_ & _ & _ & _ & _ & _ & Hk).
  assert (Hlab : exists l0, nth_error (index material_bank) p = Some l0 /\
                            py_eq l0 (JInt i) = true) by eauto.
  specialize (Hk p Hlab); specialize (Hk1 p Hlab).
  assert (Hlt : (p < length (index material_bank))%nat) by (apply nth_error_Some; congruence).
  assert (Hrest : forall c, ~ In c (map fst done) ->
                    cell df' p c = cell at_row p c)
    by (intros c Hc; unfold cell; rewrite (Hother' c Hc); reflexivity).
  split; [|split; [|split]].
  - apply printed_by_row_loop; rewrite Hout, !in_app_iff; right; left.
    unfold output; rewrite Hrun; left; reflexivity.
  - intros prop' attr' Hin.
    pose proof (Hprops prop' attr' p l Hin ltac:(congruence) Hl) as E.
    unfold after; rewrite final_process_materials.
    destruct (Hk prop') as [E'|[E' _]]; congruence.
  - intros c Hc.
    assert (Hc' : In c (map fst (valid_properties_of properties)))
      by (rewrite Hvp, map_app, in_app_iff; right; exact Hc).
    assert (Hnot : ~ In c (map fst done)).
    { rewrite Hvp, map_app in Hnd; intros H.
      apply (NoDup_app_disjoint _ _ c Hnd H); exact Hc. }
    assert (H0 : cell (before_rows material_bank) p c = cell material_bank p c)
      by (unfold cell; rewrite (Hother0 c (proj1 (Hsup c Hc'))); reflexivity).
    unfold after; rewrite final_process_materials.
    specialize (Hrest c Hnot).
    destruct (Hk c) as [E|[E1 E2]], (Hk1 c) as [F|[F1 F2]];
      [left; congruence|right; split; congruence| |right; split; congruence].
    right; split; congruence.
  - intros c Hc.
    assert (Hnot : ~ In c (map fst done))
      by (intros H; apply (proj1 (Hsup c (Hdone c H))); exact Hc).
    assert (H0 : cell (before_rows material_bank) p c = Some NaN).
    { unfold cell; rewrite (Hmix0 c Hc); apply nth_error_repeat_lt; exact Hlt. }
    unfold after; rewrite final_process_materials.
    specialize (Hrest c Hnot).
    destruct (Hk c) as [E|[E1 E2]], (Hk1 c) as [F|[F1 F2]]; congruence.
Qed.

(** Every row number is printed as processed. *)
Lemma every_row_is_processed (properties : list string) (run_name : string)
      (material_bank : DataFrame) (j : Z) :
  wf material_bank -> 0 <= j < shape0 material_bank ->
  In (Print (MsgMaterialProcessed j))
     (output (process_materials Chemical getattr Mixture Hm write_error to_parquet
                properties run_name) material_bank).
Proof.
  intros Hwf Hj.
  destruct (row_loop_at Chemical getattr Mixture Hm write_error properties material_bank j
              Hwf Hj)
    as (before & later & at_row & _ & _ & _ & _ & _ & _ & _ & Hout).
  apply printed_by_row_loop; rewrite Hout, !in_app_iff; right; left.
  destruct (row_iteration_output Chemical getattr Mixture Hm write_error
              (valid_properties_of properties) j at_row) as [->|[e ->]]; simpl; auto.
Qed.

End EnrichedRow.

(** ** The enricher: failures inside a row *)

(** Claim C8 has a failed read isolated whatever the reason.  A read
    that raises something else than [AttributeError] is not: the
    density, which can be read, is not read, and the mixing cell, whose
    mixture can be built, stays NaN. *)
Lemma other_exception_abandons_row :
  let after :=
    final (process_materials Examples.thermo_Chemical Examples.thermo_getattr
             Examples.thermo_Mixture Examples.thermo_Hm Examples.pandas_write_error
             Examples.pyarrow_to_parquet
             ["triple point pressure"; "density"] "run") Examples.two_rows in
  valid_properties_of ["triple point pressure"; "density"] =
    [("triple point pressure", "Pt"); ("density", "rho")] /\
  Examples.thermo_Chemical (Scalar (JStr "water")) = Ok "water" /\
  Examples.thermo_getattr "water" "Pt" = Raise (OtherError "ZeroDivisionError") /\
  cell after 0 "triple point pressure" = None /\
  Examples.thermo_getattr "water" "rho" = Ok (Some (FFinite 997)) /\
  cell after 0 "density" = None /\
  mixing_value Examples.thermo_Mixture Examples.thermo_Hm (Scalar (JStr "water"))
    "water" (1 # 4) = JFloat (FFinite ((1 # 4) * 100)) /\
  cell after 0 (column_name "water" (1 # 4)) = Some NaN.
Proof. repeat split. Qed.

(** Claim C9 has a mixture built for every row.  The row whose
    property read raises something else than [AttributeError] is left
    before the mixing loop: the mixture of water with water can be
    built and read, and the cell stays NaN. *)
Lemma abandoned_row_has_no_mixture :
  let out_after :=
    process_materials Examples.thermo_Chemical Examples.thermo_getattr
      Examples.thermo_Mixture Examples.thermo_Hm Examples.pandas_write_error
      Examples.pyarrow_to_parquet ["triple point pressure"] "run"
      Examples.two_rows in
  loc_get Examples.two_rows 0 "name" = Ok (Scalar (JStr "water")) /\
  Examples.thermo_Mixture [Scalar (JStr "water"); Scalar (JStr "water")]
    [1 # 2; 1 - (1 # 2)]%Q = Ok ("water", [1 # 2; 1 - (1 # 2)]%Q) /\
  Examples.thermo_Hm ("water", [1 # 2; 1 - (1 # 2)]%Q) = Ok (Some (FFinite ((1 # 2) * 100))) /\
  cell (snd (fst out_after)) 0 (column_name "water" (1 # 2)) = Some NaN /\
  In (Print (MsgErrorMaterial 0 (OtherError "ZeroDivisionError"))) (snd out_after).
Proof. repeat split; simpl; auto. Qed.

(** A write that the table does not take leaves the row as a failed
    read does.  The density column of the input holds text; the density
    of water is read, its write raises [TypeError], and the row is
    left before the mixing loop: the cell keeps its text, and the
    mixing cell, whose mixture can be built, stays NaN. *)
Lemma rejected_write_abandons_row :
  let out_after :=
    process_materials Examples.thermo_Chemical Examples.thermo_getattr
      Examples.thermo_Mixture Examples.thermo_Hm Examples.pandas_write_error
      Examples.pyarrow_to_parquet ["density"] "run" MoreExamples.text_density in
  Examples.thermo_getattr "water" "rho" = Ok (Some (FFinite 997)) /\
  Examples.pandas_write_error (before_rows MoreExamples.text_density) 0 "density"
    (JFloat (FFinite 997)) = Some TypeError /\
  cell (snd (fst out_after)) 0 "density" = Some (JStr "high") /\
  mixing_value Examples.thermo_Mixture Examples.thermo_Hm (Scalar (JStr "water"))
    "water" (1 # 4) = JFloat (FFinite ((1 # 4) * 100)) /\
  cell (snd (fst out_after)) 0 (column_name "water" (1 # 4)) = Some NaN /\
  In (Print (MsgErrorMaterial 0 TypeError)) (snd out_after).
Proof. repeat split; simpl; auto. Qed.

(** Claim C10 has every cell of a skipped row left missing.  The row
    labelled 5 of a table of one row is skipped: the iteration 0 finds
    no label 0; the row keeps its name and its density, which are not
    missing. *)
Lemma skipped_row_keeps_its_cells :
  let out_after :=
    process_materials Examples.thermo_Chemical Examples.thermo_getattr
      Examples.thermo_Mixture Examples.thermo_Hm Examples.pandas_write_error
      Examples.pyarrow_to_parquet ["density"] "run" MoreExamples.labelled_5 in
  index MoreExamples.labelled_5 = [JInt 5] /\
  range_items 0 (shape0 MoreExamples.labelled_5) 1 = [0] /\
  cell (snd (fst out_after)) 0 "density" = Some (JFloat (FFinite 1)) /\
  is_missing (JFloat (FFinite 1)) = false /\
  cell (snd (fst out_after)) 0 "name" = Some (JStr "water") /\
  is_missing (JStr "water") = false /\
  filter (fun e => match e with Print _ => true | _ => false end) (snd out_after) =
  [Print (MsgErrorMaterial 0 KeyError); Print (MsgMaterialProcessed 0)].
Proof. repeat split. Qed.

(** The cells that [loc] reads under a label that one row carries. *)
Lemma select_unique (i : pyval) (labels cells : list pyval) (p : nat) (l : pyval) :
  length cells = length labels ->
  nth_error labels p = Some l -> py_eq l i = true ->
  (forall q l', nth_error labels q = Some l' -> py_eq l' i = true -> q = p) ->
  select i labels cells =
  match nth_error cells p with
  | Some v => [v]
  | None => []
  end.
Proof.
  revert cells p; induction labels as [|l0 labels IH]; intros [|c0 cells] p Hlen Hp Hl Huniq;
    try discriminate; try (destruct p; discriminate).
  simpl in Hlen; injection Hlen as Hlen.
  destruct p as [|p]; simpl in *.
  - injection Hp as ->; rewrite Hl.
    rewrite select_none; [reflexivity|].
    apply Forall_forall; intros l' Hl'.
    apply In_nth_error in Hl'; destruct Hl' as [q Hq].
    destruct (py_eq l' i) eqn:E; auto.
    specialize (Huniq (S q) l' Hq E); discriminate.
  - destruct (py_eq l0 i) eqn:E.
    + specialize (Huniq 0%nat l0 eq_refl E); discriminate.
    + apply (IH cells p Hlen Hp Hl).
      intros q l' Hq Hl'; specialize (Huniq (S q) l' Hq Hl'); congruence.
Qed.

Lemma loc_get_at_label (df : DataFrame) (i : Z) (p : nat) (l : pyval) (col : string) :
  wf df -> nth_error (index df) p = Some l -> py_eq l (JInt i) = true ->
  (forall q l', nth_error (index df) q = Some l' -> py_eq l' (JInt i) = true -> q = p) ->
  loc_get df i col =
  match cell df p col with
  | Some v => Ok (Scalar v)
  | None => Raise KeyError
  end.
Proof.
  intros Hwf Hp Hl Huniq; unfold loc_get, cell.
  destruct (find_column col (columns df)) as [cells|] eqn:E; [|reflexivity].
  rewrite (select_unique (JInt i) (index df) cells p l (wf_column df col cells Hwf E)
             Hp Hl Huniq).
  destruct (nth_error cells p); reflexivity.
Qed.

Section StageClaims.

Context {chemical mixture : Type}.
Variable Chemical : located -> result chemical.
Variable getattr : chemical -> string -> result (option pyfloat).
Variable Mixture : list located -> list Q -> result mixture.
Variable Hm : mixture -> result (option pyfloat).
Variable write_error : DataFrame -> Z -> string -> pyval -> option exn.
Variable to_parquet : string -> list (string * list pyval) -> result unit.

(** Claim C8, as the code has it.  For a row labelled by the integer
    [i] whose chemistry object is built, on a table that takes floats:
    where the input has the column of a valid property it holds floats
    only, and pandas takes a float into a column that is new or holds
    floats only.  When every read returns or raises [AttributeError],
    the table after the run holds, in that row, the value read in every
    valid property - NaN where the read raised [AttributeError] - and
    the value of the mixture or NaN in every mixing column, and no
    error line is printed for the row.  When a read raises anything
    else, the handler of the row catches it: the error line of the row
    is printed with that exception; the properties read before it hold
    their values; the property that raised, the properties after it
    and the mixing columns of the row are not written - the mixing
    cells are NaN, the others hold what the input held there, NaN
    where the run created the column; and every row number is still
    printed as processed. *)
Theorem attribute_error_is_isolated (properties : list string) (run_name : string)
        (material_bank : DataFrame) (i : Z) (nm : located) (chem : chemical)
        (p : nat) :
  wf material_bank -> 0 <= i < shape0 material_bank ->
  loc_get material_bank i "name" = Ok nm -> Chemical nm = Ok chem ->
  nth_error (index material_bank) p = Some (JInt i) ->
  accepts_floats write_error i ->
  (forall c, In c (map fst (valid_properties_of properties)) ->
             float_column material_bank c) ->
  let after :=
    final (process_materials Chemical getattr Mixture Hm write_error to_parquet properties
             run_name) material_bank in
  let out :=
    output (process_materials Chemical getattr Mixture Hm write_error to_parquet properties
              run_name) material_bank in
  (reads_guarded getattr chem (valid_properties_of properties) ->
   (forall prop attr,
      In (prop, attr) (valid_properties_of properties) ->
      cell after p prop = Some (property_value getattr chem attr) /\
      (getattr chem attr = Raise AttributeError -> cell after p prop = Some NaN)) /\
   (forall solvent fraction,
      In solvent solvents -> In fraction fractions ->
      cell after p (column_name solvent fraction) =
      Some (mixing_value Mixture Hm nm solvent fraction)) /\
   (forall e, ~ In (Print (MsgErrorMaterial i e)) out)) /\
  (forall done prop attr rest e,
     valid_properties_of properties = done ++ (prop, attr) :: rest ->
     reads_guarded getattr chem done ->
     getattr chem attr = Raise e -> e <> AttributeError ->
     In (Print (MsgErrorMaterial i e)) out /\
     (forall prop' attr',
        In (prop', attr') done ->
        cell after p prop' = Some (property_value getattr chem attr')) /\
     (forall c, In c (map fst ((prop, attr) :: rest)) ->
        cell after p c = cell material_bank p c \/
        (cell material_bank p c = None /\ cell after p c = Some NaN)) /\
     (forall c, In c mixing_columns -> cell after p c = Some NaN) /\
     (forall j, 0 <= j < shape0 material_bank -> In (Print (MsgMaterialProcessed j)) out)).
Proof.
  intros Hwf Hi Hnm Hchem Hp Hacc Hnum after out.
  assert (Hl : py_eq (JInt i) (JInt i) = true) by (rewrite py_eq_ints; apply Z.eqb_refl).
  split.
  - intros Hguard.
    destruct (processed_row Chemical getattr Mixture Hm write_error to_parquet properties
                run_name material_bank i nm chem p (JInt i) Hwf Hi Hnm Hchem Hp Hl Hguard Hacc Hnum)
      as (Hprops & Hmix & Hquiet).
    split; [|split; [exact Hmix|exact Hquiet]].
    intros prop attr Hin; split; [apply Hprops; exact Hin|].
    intros Hget; pose proof (Hprops prop attr Hin) as E.
    unfold property_value in E; rewrite Hget in E; exact E.
  - intros done prop attr rest e Hvp Hguard Hget He.
    destruct (abandoned_row Chemical getattr Mixture Hm write_error to_parquet properties
                run_name material_bank i nm chem p (JInt i) done prop attr rest e
                Hwf Hi Hnm Hchem Hp Hl Hacc Hnum Hvp Hguard Hget He)
      as (Hline & Hdone & Hrest & Hmix).
    split; [exact Hline|]; split; [exact Hdone|]; split; [exact Hrest|].
    split; [exact Hmix|].
    intros j Hj; apply every_row_is_processed; auto.
Qed.

(** Claim C9, as the code has it.  The body of the mixing loops, on a
    table that takes its value, writes in the column of its solvent
    and fraction the enthalpy of the mixture of the name of the row
    with the solvent, weighted (fraction, 1 - fraction), or NaN when
    the mixture cannot be built or its enthalpy cannot be read.  For a
    row labelled by the integer [i] that reaches the mixing loops on a
    table that takes floats (its chemistry object is built, every
    property read returns or raises [AttributeError], the columns of
    the valid properties hold floats only where the input has them,
    and pandas takes a float into a column that is new or holds floats
    only), the table after the run holds this value in each of the 12
    columns, each depending on its own mixture alone. *)
Theorem mixing_cells_computed (properties : list string) (run_name : string)
        (material_bank : DataFrame) (i : Z) (nm : located) (chem : chemical)
        (p : nat) :
  wf material_bank -> 0 <= i < shape0 material_bank ->
  loc_get material_bank i "name" = Ok nm -> Chemical nm = Ok chem ->
  reads_guarded getattr chem (valid_properties_of properties) ->
  accepts_floats write_error i ->
  (forall c, In c (map fst (valid_properties_of properties)) ->
             float_column material_bank c) ->
  nth_error (index material_bank) p = Some (JInt i) ->
  let after :=
    final (process_materials Chemical getattr Mixture Hm write_error to_parquet properties
             run_name) material_bank in
  (forall df solvent fraction,
     loc_get df i "name" = Ok nm ->
     write_error df i (column_name solvent fraction)
       (mixing_value Mixture Hm nm solvent fraction) = None ->
     mixing_cell Mixture Hm write_error i solvent fraction df =
     (Ok tt,
      loc_set i (column_name solvent fraction)
        (mixing_value Mixture Hm nm solvent fraction) df,
      [])) /\
  (forall solvent fraction,
     In solvent solvents -> In fraction fractions ->
     cell after p (column_name solvent fraction) =
     Some (mixing_value Mixture Hm nm solvent fraction)) /\
  (forall solvent fraction,
     (forall mix x,
        Mixture [nm; Scalar (JStr solvent)] [fraction; 1 - fraction]%Q = Ok mix ->
        Hm mix = Ok x ->
        mixing_value Mixture Hm nm solvent fraction = of_scalar x) /\
     (forall e,
        Mixture [nm; Scalar (JStr solvent)] [fraction; 1 - fraction]%Q = Raise e ->
        mixing_value Mixture Hm nm solvent fraction = NaN) /\
     (forall mix e,
        Mixture [nm; Scalar (JStr solvent)] [fraction; 1 - fraction]%Q = Ok mix ->
        Hm mix = Raise e ->
        mixing_value Mixture Hm nm solvent fraction = NaN)).
Proof.
  intros Hwf Hi Hnm Hchem Hguard Hacc Hnum Hp after.
  assert (Hl : py_eq (JInt i) (JInt i) = true) by (rewrite py_eq_ints; apply Z.eqb_refl).
  split; [|split].
  - intros df solvent fraction Hdf Hw.
    pose proof (mixing_cell_accepted Mixture Hm write_error i solvent fraction df) as H.
    cbv zeta in H; rewrite Hdf in H; apply H; exact Hw.
  - apply (processed_row Chemical getattr Mixture Hm write_error to_parquet properties
             run_name material_bank i nm chem p (JInt i) Hwf Hi Hnm Hchem Hp Hl Hguard Hacc Hnum).
  - intros solvent fraction; unfold mixing_value; split; [|split].
    + intros mix x -> ->; reflexivity.
    + intros e ->; reflexivity.
    + intros mix e -> ->; reflexivity.
Qed.

(** Claim C10, as the code has it.  [process_materials] addresses the
    rows by label.  On the index 0, 1, ..., n-1 the label [p] is the
    row at position [p].  Whatever the index: [loc] under an integer
    label that one row carries reads the cell of that row, at whatever
    position it is; the iteration [i] of a run writes what it computes
    into the row labelled [i], at whatever position it is (when the
    chemistry object is built, the reads are guarded and the table
    takes floats); it keeps every row whose label is not [i]; and a
    row whose label is none of 0, ..., n-1 is skipped: no printed line
    is about its label, its mixing cells are NaN, its cells in the
    columns of the input are what the input held, and every cell that
    the run adds to it is missing. *)
Theorem rows_addressed_by_label (properties : list string) (run_name : string)
        (material_bank : DataFrame) :
  wf material_bank ->
  let after :=
    final (process_materials Chemical getattr Mixture Hm write_error to_parquet properties
             run_name) material_bank in
  let out :=
    output (process_materials Chemical getattr Mixture Hm write_error to_parquet properties
              run_name) material_bank in
  (index material_bank = map JInt (range_items 0 (shape0 material_bank) 1) ->
   forall p c,
     loc_get material_bank (Z.of_nat p) c =
     match cell material_bank p c with
     | Some v => Ok (Scalar v)
     | None => Raise KeyError
     end) /\
  (forall i p c,
     nth_error (index material_bank) p = Some (JInt i) ->
     (forall q l', nth_error (index material_bank) q = Some l' ->
                   py_eq l' (JInt i) = true -> q = p) ->
     loc_get material_bank i c =
     match cell material_bank p c with
     | Some v => Ok (Scalar v)
     | None => Raise KeyError
     end) /\
  (forall i nm chem p,
     0 <= i < shape0 material_bank ->
     loc_get material_bank i "name" = Ok nm -> Chemical nm = Ok chem ->
     nth_error (index material_bank) p = Some (JInt i) ->
     reads_guarded getattr chem (valid_properties_of properties) ->
     accepts_floats write_error i ->
     (forall c, In c (map fst (valid_properties_of properties)) ->
                float_column material_bank c) ->
     (forall prop attr,
        In (prop, attr) (valid_properties_of properties) ->
        cell after p prop = Some (property_value getattr chem attr)) /\
     (forall solvent fraction,
        In solvent solvents -> In fraction fractions ->
        cell after p (column_name solvent fraction) =
        Some (mixing_value Mixture Hm nm solvent fraction))) /\
  (forall vp i df p l,
     wf df -> nth_error (index df) p = Some l -> py_eq l (JInt i) = false ->
     keeps p df (final (row_iteration Chemical getattr Mixture Hm write_error vp i) df)) /\
  (forall p l,
     nth_error (index material_bank) p = Some l ->
     (forall i, 0 <= i < shape0 material_bank -> py_eq l (JInt i) = false) ->
     (forall c, In c mixing_columns -> cell after p c = Some NaN) /\
     (forall c, ~ In c mixing_columns ->
        cell after p c = cell material_bank p c \/
        (cell material_bank p c = None /\ cell after p c = Some NaN)) /\
     (forall c, ~ In c (names material_bank) ->
        cell after p c = None \/ cell after p c = Some NaN) /\
     (forall i x, In (Print (MsgErrorMaterial i x)) out -> py_eq l (JInt i) = false) /\
     (forall i, In (Print (MsgMaterialProcessed i)) out -> py_eq l (JInt i) = false)).
Proof.
  intros Hwf after out; split; [|split; [|split; [|split]]].
  - intros Hidx p c; apply loc_get_range_index; auto.
  - intros i p c Hp Huniq; apply (loc_get_at_label material_bank i p (JInt i) c); auto.
    rewrite py_eq_ints; apply Z.eqb_refl.
  - intros i nm chem p Hi Hnm Hchem Hp Hguard Hacc Hnum.
    assert (Hl : py_eq (JInt i) (JInt i) = true) by (rewrite py_eq_ints; apply Z.eqb_refl).
    destruct (processed_row Chemical getattr Mixture Hm write_error to_parquet properties
                run_name material_bank i nm chem p (JInt i) Hwf Hi Hnm Hchem Hp Hl Hguard Hacc Hnum)
      as (Hprops & Hmix & _).
    split; [exact Hprops|exact Hmix].
  - intros vp i df p l Hdf Hp Hl.
    destruct (row_iteration_written Chemical getattr Mixture Hm write_error
                (map fst vp ++ mixing_columns) vp i df
                (incl_appl _ (incl_refl _)) (incl_appr _ (incl_refl _)) Hdf)
      as (_ & _ & _ & _ & _ & _ & Hk).
    apply Hk; exists l; auto.
  - intros p l Hp Hl.
    assert (Hprinted : forall i msg,
               (msg = MsgMaterialProcessed i \/ exists x, msg = MsgErrorMaterial i x) ->
               In (Print msg) out -> py_eq l (JInt i) = false).
    { intros i msg Hmsg Hin; apply printed_by_row_loop in Hin.
      pose proof (row_loop_events Chemical getattr Mixture Hm write_error
                    (valid_properties_of properties)
                    (range_items 0 (shape0 material_bank) 1)
                    (before_rows material_bank)) as Hev.
      rewrite Forall_forall in Hev.
      destruct (Hev _ Hin) as (j & Hj & He).
      apply in_range_items in Hj.
      assert (j = i).
      { destruct Hmsg as [->|[x ->]], He as [He|[He|[y He]]]; congruence. }
      subst j; apply Hl; lia. }
    destruct (unprocessed_row Chemical getattr Mixture Hm write_error properties
                material_bank p l Hwf Hp)
      as (_ & Hmix & Hother).
    { intros i Hi Hli; rewrite (Hl i Hi) in Hli; discriminate. }
    unfold after; rewrite final_process_materials.
    split; [exact Hmix|]; split; [exact Hother|]; split; [|split].
    + intros c Hc.
      destruct (in_dec string_dec c mixing_columns) as [Hm'|Hm']; [right; auto|].
      assert (Hnone : cell material_bank p c = None).
      { unfold cell; destruct (find_column c (columns material_bank)) eqn:E; auto.
        exfalso; apply Hc, find_column_In; congruence. }
      destruct (Hother c Hm') as [E|[_ E]]; [left; congruence|right; exact E].
    + intros i x; apply Hprinted; eauto.
    + intros i; apply Hprinted; auto.
Qed.

End StageClaims.

(** The pandas of the examples takes floats. *)
Lemma pandas_accepts_floats (i : Z) : accepts_floats Examples.pandas_write_error i.
Proof.
  intros df col v _ Hcol; unfold Examples.pandas_write_error.
  destruct (find_column col (columns df)) as [cells|] eqn:E; [|reflexivity].
  replace (forallb numeric_or_missing cells) with true; [reflexivity|].
  symmetry; apply forallb_forall; intros c Hc.
  pose proof (Hcol cells E) as Hf; rewrite Forall_forall in Hf.
  specialize (Hf c Hc); destruct c as [| | |[]| | |]; try discriminate; reflexivity.
Qed.

(** Columns that a table has not, or has with floats only. *)
Lemma float_columns (df : DataFrame) (cs : list string) :
  forallb (fun c => match find_column c (columns df) with
                    | Some cells => forallb is_float cells
                    | None => true
                    end) cs = true ->
  forall c, In c cs -> float_column df c.
Proof.
  intros H c Hc cells Hcells.
  rewrite forallb_forall in H; specialize (H c Hc); rewrite Hcells in H.
  apply Forall_forall, forallb_forall, H.
Qed.

Lemma water_reads_guarded :
  reads_guarded Examples.thermo_getattr "water"
    (valid_properties_of ["melting point"; "density"]).
Proof.
  intros prop attr e Hin Hget.
  destruct Hin as [H|[H|[]]]; injection H as <- <-; vm_compute in Hget; congruence.
Qed.

Lemma attribute_error_is_isolated_witness :
  cell (final (process_materials Examples.thermo_Chemical Examples.thermo_getattr
                 Examples.thermo_Mixture Examples.thermo_Hm Examples.pandas_write_error
                 Examples.pyarrow_to_parquet
                 ["melting point"; "density"] "run") Examples.two_rows)
       0 "density" = Some (JFloat (FFinite 997)) /\
  In (Print (MsgErrorMaterial 0 (OtherError "ZeroDivisionError")))
     (output (process_materials Examples.thermo_Chemical Examples.thermo_getattr
                Examples.thermo_Mixture Examples.thermo_Hm Examples.pandas_write_error
                Examples.pyarrow_to_parquet
                ["density"; "triple point pressure"] "run") Examples.two_rows) /\
  cell (final (process_materials Examples.thermo_Chemical Examples.thermo_getattr
                 Examples.thermo_Mixture Examples.thermo_Hm Examples.pandas_write_error
                 Examples.pyarrow_to_parquet
                 ["density"; "triple point pressure"] "run") Examples.two_rows)
       0 (column_name "water" (1 # 4)) = Some NaN.
Proof.
  split.
  - destruct (attribute_error_is_isolated Examples.thermo_Chemical Examples.thermo_getattr
                Examples.thermo_Mixture Examples.thermo_Hm Examples.pandas_write_error
                Examples.pyarrow_to_parquet ["melting point"; "density"] "run"
                Examples.two_rows 0 (Scalar (JStr "water")) "water" 0)
      as (H & _).
    + exact wf_two_rows.
    + unfold shape0; simpl; lia.
    + reflexivity.
    + reflexivity.
    + reflexivity.
    + apply pandas_accepts_floats.
    + apply float_columns; reflexivity.
    + destruct (H water_reads_guarded) as [Hprops _].
      apply (Hprops "density" "rho"); right; left; reflexivity.
  - destruct (attribute_error_is_isolated Examples.thermo_Chemical Examples.thermo_getattr
                Examples.thermo_Mixture Examples.thermo_Hm Examples.pandas_write_error
                Examples.pyarrow_to_parquet ["density"; "triple point pressure"] "run"
                Examples.two_rows 0 (Scalar (JStr "water")) "water" 0)
      as (_ & H).
    + exact wf_two_rows.
    + unfold shape0; simpl; lia.
    + reflexivity.
    + reflexivity.
    + reflexivity.
    + apply pandas_accepts_floats.
    + apply float_columns; reflexivity.
    + destruct (H [("density", "rho")] "triple point pressure" "Pt" []
                  (OtherError "ZeroDivisionError") eq_refl)
        as (Hline & _ & _ & Hmix & _).
      * intros prop attr e [E|[]] Hget; injection E as <- <-; discriminate Hget.
      * reflexivity.
      * discriminate.
      * split; [exact Hline|apply Hmix; left; reflexivity].
Defined.

Lemma mixing_cells_computed_witness :
  cell (final (process_materials Examples.thermo_Chemical Examples.thermo_getattr
                 Examples.thermo_Mixture Examples.thermo_Hm Examples.pandas_write_error
                 Examples.pyarrow_to_parquet
                 ["melting point"; "density"] "run") Examples.two_rows)
       0 (column_name "water" (3 # 4)) =
  Some (mixing_value Examples.thermo_Mixture Examples.thermo_Hm (Scalar (JStr "water"))
          "water" (3 # 4)).
Proof.
  destruct (mixing_cells_computed Examples.thermo_Chemical Examples.thermo_getattr
              Examples.thermo_Mixture Examples.thermo_Hm Examples.pandas_write_error
              Examples.pyarrow_to_parquet ["melting point"; "density"] "run"
              Examples.two_rows 0 (Scalar (JStr "water")) "water" 0)
    as (_ & H & _).
  - exact wf_two_rows.
  - unfold shape0; simpl; lia.
  - reflexivity.
  - reflexivity.
  - exact water_reads_guarded.
  - apply pandas_accepts_floats.
  - apply float_columns; reflexivity.
  - reflexivity.
  - apply H; [left; reflexivity|right; right; left; reflexivity].
Defined.

Lemma wf_two_rows_swapped : wf Examples.two_rows_swapped.
Proof.
  split; simpl.
  - repeat constructor; intros [].
  - repeat constructor.
Qed.

Lemma water_density_guarded :
  reads_guarded Examples.thermo_getattr "water" (valid_properties_of ["density"]).
Proof.
  intros prop attr e Hin Hget.
  destruct Hin as [H|[]]; injection H as <- <-; vm_compute in Hget; congruence.
Qed.

Lemma rows_addressed_by_label_witness :
  loc_get Examples.two_rows_swapped 1 "name" = Ok (Scalar (JStr "water")) /\
  cell (final (process_materials Examples.thermo_Chemical Examples.thermo_getattr
                 Examples.thermo_Mixture Examples.thermo_Hm Examples.pandas_write_error
                 Examples.pyarrow_to_parquet ["density"] "run")
              Examples.two_rows_swapped) 0 "density" = Some (JFloat (FFinite 997)).
Proof.
  destruct (rows_addressed_by_label Examples.thermo_Chemical Examples.thermo_getattr
              Examples.thermo_Mixture Examples.thermo_Hm Examples.pandas_write_error
              Examples.pyarrow_to_parquet ["density"] "run"
              Examples.two_rows_swapped wf_two_rows_swapped) as (_ & Hread & Hwrite & _).
  split.
  - apply (Hread 1 0%nat "name" eq_refl).
    intros [|[|q]] l' Hq Hl'; [reflexivity| |destruct q; discriminate].
    injection Hq as <-; discriminate.
  - destruct (Hwrite 1 (Scalar (JStr "water")) "water" 0%nat) as [Hprops _].
    + unfold shape0; simpl; lia.
    + reflexivity.
    + reflexivity.
    + reflexivity.
    + exact water_density_guarded.
    + apply pandas_accepts_floats.
    + apply float_columns; reflexivity.
    + apply (Hprops "density" "rho"); left; reflexivity.
Defined.

(** * Further properties *)

(** ** The fetcher: runs without a chunk *)

Lemma range_items_empty (n step : Z) :
  0 <= n -> n = 0 \/ step < 0 -> range_items 0 n step = [].
Proof.
  intros Hn H; unfold range_items, compute_range_length.
  destruct (0 <? step) eqn:E; [apply Z.ltb_lt in E | apply Z.ltb_ge in E].
  - destruct H as [-> | H]; [reflexivity|lia].
  - replace (0 <=? n) with true by (symmetry; apply Z.leb_le; lia); reflexivity.
Qed.

(** X1.  The runs of [generate_material_bank] that have no chunk.  A
    batch size of zero raises [ValueError] at the loop header, whatever
    the range, before any request is made and before anything is
    printed.  An empty range ([end_cid] below [start_cid]) with a batch
    size that is not zero, and any range with a negative batch size,
    make no request and print nothing: the table that is returned has
    no row and no column, and its index is named CID. *)
Theorem no_chunk_no_request (requests_get : list Z -> result response)
        (start_cid end_cid batch_size : Z) :
  (batch_size = 0 ->
   run (generate_material_bank requests_get start_cid end_cid batch_size) =
   (Raise ValueError, [])) /\
  ((end_cid < start_cid /\ batch_size <> 0) \/ batch_size < 0 ->
   run (generate_material_bank requests_get start_cid end_cid batch_size) =
   (Ok {| index_name := Some "CID"; index := []; columns := [] |}, [])).
Proof.
  split; [intros ->; reflexivity|].
  intros H.
  unfold run, generate_material_bank, call, generate_body, bind at 1, lift at 1, range.
  replace (batch_size =? 0) with false by (symmetry; apply Z.eqb_neq; lia).
  rewrite range_items_empty.
  - reflexivity.
  - lia.
  - rewrite length_cid_list; lia.
Qed.

Lemma no_chunk_no_request_witness :
  run (generate_material_bank Examples.server_complete 10 9 100) =
  (Ok {| index_name := Some "CID"; index := []; columns := [] |}, []).
Proof.
  apply (proj2 (no_chunk_no_request Examples.server_complete 10 9 100)).
  left; split; [lia|discriminate].
Defined.

(** ** The fetcher: a call on no identifier, a body without a table *)

(** X2.  On an empty list of identifiers [fetch_details_for_batch]
    raises [IndexError] whenever it has a line to print: the f-strings
    of lines 31 and 33 read [cids[0]].  So a status other than 200, or
    a status 200 whose body cannot be parsed, makes the call raise
    after its request; [generate_material_bank] never makes such a
    call, its chunks are not empty. *)
Theorem empty_batch_raises_IndexError (requests_get : list Z -> result response)
        (r : response) :
  requests_get [] = Ok r ->
  (status_code r <> 200 ->
   forall S (s : S),
     fetch_details_for_batch requests_get [] s = (Raise IndexError, s, [HttpGet []])) /\
  (forall e, status_code r = 200 -> response_items r = Raise e ->
   forall S (s : S),
     fetch_details_for_batch requests_get [] s = (Raise IndexError, s, [HttpGet []])) /\
  (forall start_cid end_cid batch_size,
     0 < batch_size -> ~ In [] (batches start_cid end_cid batch_size)).
Proof.
  intros Hget; split; [|split].
  - intros Hs S s; rewrite fetch_details_unfold, Hget.
    destruct (status_code r =? 200) eqn:E; [apply Z.eqb_eq in E; contradiction|].
    reflexivity.
  - intros e Hs Hitems S s; rewrite fetch_details_unfold, Hget, Hs; simpl.
    unfold parse_batch, bind, lift; rewrite Hitems; reflexivity.
  - intros start_cid end_cid batch_size Hb Hin.
    apply (batches_nonempty start_cid end_cid batch_size [] Hb Hin); reflexivity.
Qed.

Lemma empty_batch_raises_IndexError_witness :
  fetch_details_for_batch Examples.server_unavailable [] tt =
  (Raise IndexError, tt, [HttpGet []]).
Proof.
  destruct (empty_batch_raises_IndexError Examples.server_unavailable
              {| status_code := 503; json := Raise ValueError |} eq_refl) as [H _].
  apply (H ltac:(discriminate) unit tt).
Defined.

(** X3.  The defaults of line 18: a body with status 200 that is a JSON
    object without the key PropertyTable, or whose table is an object
    without the key Properties, gives the empty mapping with no line
    printed, also on an empty list of identifiers.  A table that is
    there and is null has no [get]: the error is printed and the
    mapping is empty. *)
Theorem missing_table_is_silent (requests_get : list Z -> result response)
        (cids : list Z) (r : response) (members : list (string * pyval)) :
  requests_get cids = Ok r -> status_code r = 200 -> json r = Ok (JObj members) ->
  (obj_lookup "PropertyTable" members = None \/
   (exists table, obj_lookup "PropertyTable" members = Some (JObj table) /\
                  obj_lookup "Properties" table = None) ->
   forall S (s : S),
     fetch_details_for_batch requests_get cids s = (Ok [], s, [HttpGet cids])) /\
  (obj_lookup "PropertyTable" members = Some JNull ->
   forall first last, first_item cids = Ok first -> last_item cids = Ok last ->
   forall S (s : S),
     fetch_details_for_batch requests_get cids s =
     (Ok [], s, [HttpGet cids; Print (MsgErrorBatch first last AttributeError)])).
Proof.
  intros Hget Hs Hjson; split.
  - intros H S s; rewrite fetch_details_unfold, Hget, Hs; simpl.
    unfold parse_batch, bind, lift, response_items; rewrite Hjson, py_get_obj.
    destruct H as [-> | (table & -> & Hp)]; simpl.
    + reflexivity.
    + rewrite Hp; reflexivity.
  - intros Hnull first last Hf Hl S s; rewrite fetch_details_unfold, Hget, Hs; simpl.
    unfold parse_batch, bind, lift, response_items; rewrite Hjson, py_get_obj, Hnull; simpl.
    rewrite Hf, Hl; reflexivity.
Qed.

Lemma missing_table_is_silent_witness :
  fetch_details_for_batch MoreExamples.server_no_table [1; 2] tt = (Ok [], tt, [HttpGet [1; 2]]).
Proof.
  destruct (missing_table_is_silent MoreExamples.server_no_table [1; 2]
              {| status_code := 200; json := Ok (JObj [("Fault", JStr "not found")]) |}
              [("Fault", JStr "not found")] eq_refl eq_refl eq_refl) as [H _].
  apply (H (or_introl eq_refl) unit tt).
Defined.

(** ** The fetcher: a request that raises *)

Lemma completed_app (out1 out2 : list event) :
  completed (out1 ++ out2) = completed out1 ++ completed out2.
Proof. apply flat_map_app. Qed.

(** A call on a chunk that is not empty ends as its request does. *)
Lemma fetch_details_outcome (requests_get : list Z -> result response) (cids : list Z) :
  cids <> [] ->
  (exists e,
      requests_get cids = Raise e /\
      forall S (s : S),
        fetch_details_for_batch requests_get cids s = (Raise e, s, [HttpGet cids])) \/
  (exists r batch_data out,
      requests_get cids = Ok r /\ requested out = [] /\ completed out = [] /\
      forall S (s : S),
        fetch_details_for_batch requests_get cids s = (Ok batch_data, s, HttpGet cids :: out)).
Proof.
  intros Hne.
  destruct (batch_bounds_nonempty cids tt Hne) as (first & last & Hf & Hl & _).
  destruct (requests_get cids) as [r|e] eqn:Hget.
  - right; exists r.
    destruct (status_code r =? 200) eqn:E.
    + destruct (parse_batch r []) as [[[[]|e] kept] o] eqn:Hp.
      * exists kept, []; repeat split; auto; intros S s.
        now rewrite fetch_details_unfold, Hget, E, Hp.
      * exists kept, [Print (MsgErrorBatch first last e)]; repeat split; auto; intros S s.
        now rewrite fetch_details_unfold, Hget, E, Hp, Hf, Hl.
    + exists [], [Print (MsgFailedBatch first last (status_code r))]; repeat split; auto.
      intros S s; now rewrite fetch_details_unfold, Hget, E, Hf, Hl.
  - left; exists e; split; auto; intros S s.
    now rewrite fetch_details_unfold, Hget.
Qed.

(** The loop over the offsets ends at the first request that raises. *)
Lemma batch_loop_outcome (requests_get : list Z -> result response)
      (cid_list : list Z) (batch_size : Z) (offsets : list Z) (smiles_data : dict compound) :
  let chunk i := slice cid_list i (i + batch_size) in
  let number i := i / batch_size + 1 in
  (forall i, In i offsets -> chunk i <> []) ->
  exists res final out,
    for_each offsets (batch_iteration requests_get cid_list batch_size) smiles_data =
    (res, final, out) /\
    ((res = Ok tt /\ requested out = map chunk offsets /\
      completed out = map number offsets /\
      forall i, In i offsets -> exists r, requests_get (chunk i) = Ok r) \/
     (exists e before i after,
         offsets = before ++ i :: after /\ res = Raise e /\
         requested out = map chunk (before ++ [i]) /\
         completed out = map number before /\
         requests_get (chunk i) = Raise e /\
         forall j, In j before -> exists r, requests_get (chunk j) = Ok r)).
Proof.
  intros chunk number; revert smiles_data.
  induction offsets as [|i offsets IH]; intros sd H.
  - exists (Ok tt), sd, []; split; [reflexivity|left].
    repeat split; auto; intros i [].
  - destruct (fetch_details_outcome requests_get (chunk i) (H i (or_introl eq_refl)))
      as [(e & Hget & Hfetch)|(r & bd & o & Hget & Hreq & Hdone & Hfetch)].
    + exists (Raise e), sd, [HttpGet (chunk i)]; split.
      * rewrite for_each_cons, batch_iteration_unfold; fold (chunk i); rewrite Hfetch.
        reflexivity.
      * right; exists e, [], i, offsets; repeat split; auto; intros j [].
    + destruct (IH (dict_update sd bd) (fun j Hj => H j (or_intror Hj)))
        as (res & final & out & Hrest & Hcases).
      exists res, final.
      exists ((HttpGet (chunk i) :: o) ++
              [Sleep (1 # 5); Print (MsgBatchCompleted (number i))] ++ out).
      split.
      * rewrite for_each_cons, batch_iteration_unfold; fold (chunk i); rewrite Hfetch, Hrest.
        rewrite <- app_assoc; reflexivity.
      * assert (Hr : forall rest, requested ((HttpGet (chunk i) :: o) ++
                       [Sleep (1 # 5); Print (MsgBatchCompleted (number i))] ++ rest) =
                     chunk i :: requested rest).
        { intros rest; rewrite !requested_app; simpl; rewrite Hreq; reflexivity. }
        assert (Hc : forall rest, completed ((HttpGet (chunk i) :: o) ++
                       [Sleep (1 # 5); Print (MsgBatchCompleted (number i))] ++ rest) =
                     number i :: completed rest).
        { intros rest; rewrite !completed_app; simpl; rewrite Hdone; reflexivity. }
        destruct Hcases as [(-> & Hq & Hn & Hall)|(e & before & j & after & -> & -> & Hq & Hn & Hj & Hall)].
        -- left; rewrite Hr, Hc, Hq, Hn; repeat split; auto.
           intros j [<-|Hj]; eauto.
        -- right; exists e, (i :: before), j, after.
           rewrite Hr, Hc, Hq, Hn; repeat split; auto.
           intros k [<-|Hk]; eauto.
Qed.

(** X4.  With a positive batch size a run of [generate_material_bank]
    ends in one of two ways.  Either every request returns: then the
    run returns a table, having requested every chunk once, in order,
    and printed the batch numbers 1, 2, ... up to the number of chunks.
    Or some request raises: then the run raises the exception of the
    first such request, having requested the chunks up to that one and
    no other, and no table is returned - what the earlier chunks gave
    is lost.  No status and no body makes the run raise. *)
Theorem run_ends_at_first_lost_request (requests_get : list Z -> result response)
        (start_cid end_cid batch_size : Z) :
  0 < batch_size ->
  let chunks := batches start_cid end_cid batch_size in
  exists res out,
    run (generate_material_bank requests_get start_cid end_cid batch_size) = (res, out) /\
    (((exists material_bank, res = Ok material_bank) /\
      requested out = chunks /\
      completed out = map (fun k => Z.of_nat k + 1) (seq 0 (length chunks)) /\
      forall c, In c chunks -> exists r, requests_get c = Ok r) \/
     (exists e before c after,
         res = Raise e /\ chunks = before ++ c :: after /\
         requested out = before ++ [c] /\ requests_get c = Raise e /\
         forall c', In c' before -> exists r, requests_get c' = Ok r)).
Proof.
  intros Hb chunks.
  set (cid_list := cid_list_of start_cid end_cid).
  set (offsets := range_items 0 (Z.of_nat (length cid_list)) batch_size).
  destruct (batch_loop_outcome requests_get cid_list batch_size offsets [])
    as (res & final & out & Hloop & Hcases).
  { intros i Hi; apply (batches_nonempty start_cid end_cid batch_size); auto.
    unfold batches; fold cid_list offsets.
    apply (in_map (fun i => slice cid_list i (i + batch_size))); exact Hi. }
  assert (Hrun : run (generate_material_bank requests_get start_cid end_cid batch_size) =
                 match res with
                 | Ok _ => (Ok {| index_name := Some "CID";
                                  index := index (from_dict final);
                                  columns := columns (from_dict final) |}, out)
                 | Raise e => (Raise e, out)
                 end).
  { unfold run, generate_material_bank, call, generate_body, bind at 1, lift at 1, range.
    replace (batch_size =? 0) with false by (symmetry; apply Z.eqb_neq; lia).
    fold cid_list offsets; unfold bind at 1; rewrite Hloop.
    destruct res as [[]|e]; [|reflexivity].
    unfold bind, get, ret; simpl; rewrite !app_nil_r; reflexivity. }
  destruct Hcases as [(-> & Hq & Hn & Hall)|(e & before & i & after & Hoff & -> & Hq & Hn & Hi & Hall)].
  - eexists; exists out; split; [exact Hrun|left].
    split; [eexists; reflexivity|]; split; [exact Hq|]; split.
    + assert (Hlen : length chunks = length offsets)
        by (unfold chunks, batches; cbv zeta; apply length_map).
      rewrite Hn, Hlen; unfold offsets, range_items.
      rewrite map_map, length_map, length_seq.
      apply map_ext; intros k.
      rewrite Z.add_0_l, Z.div_mul by lia; reflexivity.
    + intros c Hc; unfold chunks, batches in Hc; fold cid_list offsets in Hc.
      apply in_map_iff in Hc; destruct Hc as (i & <- & Hi); auto.
  - exists (Raise e), out; split; [exact Hrun|right].
    exists e, (map (fun i => slice cid_list i (i + batch_size)) before),
      (slice cid_list i (i + batch_size)),
      (map (fun i => slice cid_list i (i + batch_size)) after).
    split; [reflexivity|]; split.
    + unfold chunks, batches; fold cid_list offsets; rewrite Hoff, map_app; reflexivity.
    + split; [rewrite Hq, map_app; reflexivity|]; split; [exact Hi|].
      intros c' Hc'; apply in_map_iff in Hc'; destruct Hc' as (j & <- & Hj); auto.
Qed.

Lemma run_ends_at_first_lost_request_witness :
  exists out,
    run (generate_material_bank MoreExamples.server_lost 1 9 2) =
    (Raise (OtherError "ConnectionError"), out) /\
    requested out = [[1; 2]; [3; 4]; [5; 6]].
Proof.
  destruct (run_ends_at_first_lost_request MoreExamples.server_lost 1 9 2 ltac:(lia))
    as (res & out & Hrun & _).
  exists out; vm_compute in Hrun; injection Hrun as <- <-.
  split; reflexivity.
Defined.

(** ** The fetcher: the keys of the mapping, the labels of the table *)

Lemma keys_dict_store {V} (P : pyval -> Prop) (k : pyval) (v : V) (d : dict V) :
  P k -> Forall P (map fst d) -> Forall P (map fst (dict_store k v d)).
Proof.
  intros Hk; induction d as [|[k0 v0] d IH]; simpl; intros H.
  - constructor; auto.
  - inversion H as [|? ? H0 Hd]; subst.
    destruct (py_eq k0 k); simpl; constructor; auto.
Qed.

Lemma distinct_dict_store {V} (k : pyval) (v : V) (d : dict V) :
  distinct_labels (map fst d) -> distinct_labels (map fst (dict_store k v d)).
Proof.
  unfold distinct_labels; induction d as [|[k0 v0] d IH]; simpl; intros H.
  - constructor; [constructor|constructor].
  - inversion H as [|? ? H0 Hd]; subst.
    destruct (py_eq k0 k) eqn:E; simpl.
    + constructor; auto.
    + constructor; auto.
      apply (keys_dict_store (fun b => py_eq k0 b = false)); auto.
Qed.

Lemma storable_dict_store (k : pyval) (rec : compound) (d : dict compound) :
  storable k rec ->
  (forall k' r, In (k', r) d -> storable k' r) ->
  forall k' r, In (k', r) (dict_store k rec d) -> storable k' r.
Proof.
  intros Hk; induction d as [|[k0 v0] d IH]; simpl; intros Hall k' r Hin.
  - destruct Hin as [H|[]]; injection H as <- <-; exact Hk.
  - destruct (py_eq k0 k); simpl in Hin; destruct Hin as [H|H].
    + injection H as <- <-.
      destruct (Hall k0 v0 (or_introl eq_refl)) as (H1 & H2 & _).
      destruct Hk as (_ & _ & H3); repeat split; auto.
    + apply Hall; auto.
    + injection H as <- <-; apply Hall; auto.
    + apply IH; auto.
Qed.

(** What lines 19-29 keep of a dict: its keys are distinct, and each of
    its entries has a key and a record that line 24 lets through. *)
Lemma store_items_sound (items : list pyval) (batch_data : dict compound) :
  distinct_labels (map fst batch_data) /\
  (forall k r, In (k, r) batch_data -> storable k r) ->
  distinct_labels (map fst (final (for_each items store_item) batch_data)) /\
  (forall k r, In (k, r) (final (for_each items store_item) batch_data) -> storable k r).
Proof.
  revert batch_data; induction items as [|prop items IH]; intros bd H; [exact H|].
  unfold final; rewrite for_each_cons.
  destruct (store_item_cases prop bd)
    as [[e ->]|[->|(cid&s&n&f&_&_&_&_&Hc&Hs&Hh&->)]]; [exact H| |].
  - specialize (IH bd H); unfold final in IH.
    destruct (for_each items store_item bd) as [[? ?] ?]; exact IH.
  - match goal with |- context [for_each items store_item ?d] =>
      specialize (IH d); unfold final in IH;
      destruct (for_each items store_item d) as [[? ?] ?] end.
    apply IH; destruct H as [Hd Hall]; split.
    + apply distinct_dict_store; exact Hd.
    + apply storable_dict_store; [repeat split; auto|exact Hall].
Qed.

Lemma fetch_details_sound (requests_get : list Z -> result response) (cids : list Z)
      {S} (s s' : S) (batch_data : dict compound) (out : list event) :
  fetch_details_for_batch requests_get cids s = (Ok batch_data, s', out) ->
  distinct_labels (map fst batch_data) /\
  (forall k r, In (k, r) batch_data -> storable k r).
Proof.
  assert (Hempty : distinct_labels (map fst (@nil (pyval * compound))) /\
                   (forall k r, In (k, r) (@nil (pyval * compound)) -> storable k r))
    by (split; [constructor|intros ? ? []]).
  assert (Hparse : forall r,
             distinct_labels (map fst (snd (fst (parse_batch r [])))) /\
             (forall k rec, In (k, rec) (snd (fst (parse_batch r []))) -> storable k rec)).
  { intros r; unfold parse_batch, bind, lift.
    destruct (response_items r) as [items|e]; [|exact Hempty].
    pose proof (store_items_sound items [] Hempty) as H; unfold final in H.
    destruct (for_each items store_item []) as [[? ?] ?]; exact H. }
  rewrite fetch_details_unfold.
  destruct (requests_get cids) as [r|e]; [|discriminate].
  destruct (status_code r =? 200).
  - specialize (Hparse r).
    destruct (parse_batch r []) as [[[[]|e] kept] o]; simpl in Hparse.
    + intros H; injection H as <- _ _; exact Hparse.
    + destruct (first_item cids), (last_item cids); try discriminate.
      intros H; injection H as <- _ _; exact Hparse.
  - destruct (first_item cids), (last_item cids); try discriminate.
    intros H; injection H as <- _ _; exact Hempty.
Qed.

(** X5.  Whatever the server answers, the mapping that
    [fetch_details_for_batch] returns has pairwise unequal keys, and
    each of its entries has a key that is true and hashable - never
    [None], 0, the empty string, a list or a dict - and a structure
    string that is true. *)
Theorem fetched_keys_are_distinct (requests_get : list Z -> result response)
        (cids : list Z) (batch_data : dict compound) (out : list event) :
  run (fetch_details_for_batch requests_get cids) = (Ok batch_data, out) ->
  distinct_labels (map fst batch_data) /\
  (forall key rec,
     In (key, rec) batch_data ->
     truthy key = true /\ hashable key = true /\ truthy (smiles rec) = true /\
     key <> JNull /\ key <> JInt 0 /\ key <> JStr "").
Proof.
  unfold run; intros Hrun.
  destruct (fetch_details_for_batch requests_get cids tt) as [[res s'] o] eqn:E.
  injection Hrun as -> ->.
  destruct (fetch_details_sound requests_get cids tt s' batch_data out E) as [Hd Hall].
  split; [exact Hd|].
  intros key rec Hin; destruct (Hall key rec Hin) as (H1 & H2 & H3).
  repeat split; auto; intros ->; discriminate.
Qed.

Lemma fetched_keys_are_distinct_witness :
  distinct_labels [JInt 1].
Proof.
  apply (proj1 (fetched_keys_are_distinct Examples.server_missing_smiles [1; 2]
                  [(JInt 1, {| smiles := JStr "C"; name := JStr "methane";
                               formula := JStr "CH4" |})]
                  [HttpGet [1; 2]] eq_refl)).
Defined.

(** *** The table *)

Lemma dict_update_sound (d other : dict compound) :
  distinct_labels (map fst d) /\ (forall k r, In (k, r) d -> storable k r) ->
  (forall k r, In (k, r) other -> storable k r) ->
  distinct_labels (map fst (dict_update d other)) /\
  (forall k r, In (k, r) (dict_update d other) -> storable k r).
Proof.
  unfold dict_update; revert d; induction other as [|[k v] other IH]; intros d H Ho; [exact H|].
  simpl; apply IH.
  - destruct H as [Hd Hall]; split.
    + apply distinct_dict_store; exact Hd.
    + apply storable_dict_store; [apply Ho; left; reflexivity|exact Hall].
  - intros k' r Hin; apply Ho; right; exact Hin.
Qed.

Lemma batch_loop_sound (requests_get : list Z -> result response)
      (cid_list : list Z) (batch_size : Z) (offsets : list Z) (smiles_data : dict compound) :
  distinct_labels (map fst smiles_data) /\ (forall k r, In (k, r) smiles_data -> storable k r) ->
  let after :=
    final (for_each offsets (batch_iteration requests_get cid_list batch_size)) smiles_data in
  distinct_labels (map fst after) /\ (forall k r, In (k, r) after -> storable k r).
Proof.
  revert smiles_data; induction offsets as [|i offsets IH]; intros sd H; [exact H|].
  cbv zeta; unfold final; rewrite for_each_cons, batch_iteration_unfold.
  destruct (fetch_details_for_batch requests_get _ sd) as [[[bd|e] s'] o] eqn:E; [|exact H].
  specialize (IH (dict_update sd bd)); cbv zeta in IH; unfold final in IH.
  destruct (for_each offsets _ (dict_update sd bd)) as [[? ?] ?]; apply IH.
  apply dict_update_sound; [exact H|].
  apply (fetch_details_sound requests_get _ sd s' bd o E).
Qed.

(** Two labels that equal one integer equal each other. *)
Lemma py_eq_through_int (a b : pyval) (i : Z) :
  py_eq a (JInt i) = true -> py_eq b (JInt i) = true -> py_eq a b = true.
Proof.
  intros Ha Hb.
  destruct (py_eq_int a i Ha) as (x & Hx & Ex).
  destruct (py_eq_int b i Hb) as (y & Hy & Ey).
  unfold py_eq; rewrite Hx, Hy.
  apply Qeq_bool_iff in Ex, Ey; apply Qeq_bool_iff.
  rewrite Ex, Ey; reflexivity.
Qed.

(** Under distinct labels a label selects one row at most. *)
Lemma select_distinct (i : Z) (labels cells : list pyval) :
  distinct_labels labels -> (length (select (JInt i) labels cells) <= 1)%nat.
Proof.
  intros H; revert cells; induction H as [|l labels Hl _ IH]; intros [|c cells]; simpl; auto.
  destruct (py_eq l (JInt i)) eqn:E; [|apply IH].
  rewrite select_none; [simpl; lia|].
  apply Forall_forall; intros l' Hl'.
  destruct (py_eq l' (JInt i)) eqn:E'; auto.
  rewrite Forall_forall in Hl; specialize (Hl l' Hl').
  rewrite (py_eq_through_int l l' i E E') in Hl; discriminate.
Qed.

(** X6.  Whatever the server answers, a table that
    [generate_material_bank] returns is well formed: its index is named
    CID; its labels are pairwise unequal, true and hashable; it has no
    column at all (with no row) or the columns smiles, name, formula in
    this order, one cell per row; every smiles cell is true; and
    [loc] on it gives a scalar, never a Series. *)
Theorem material_bank_is_well_formed (requests_get : list Z -> result response)
        (start_cid end_cid batch_size : Z) (material_bank : DataFrame) (out : list event) :
  run (generate_material_bank requests_get start_cid end_cid batch_size) =
    (Ok material_bank, out) ->
  wf material_bank /\
  index_name material_bank = Some "CID" /\
  distinct_labels (index material_bank) /\
  (forall l, In l (index material_bank) -> truthy l = true /\ hashable l = true) /\
  ((index material_bank = [] /\ names material_bank = []) \/
   names material_bank = ["smiles"; "name"; "formula"]) /\
  (forall p v, cell material_bank p "smiles" = Some v -> truthy v = true) /\
  (forall i col nm, loc_get material_bank i col = Ok nm -> exists v, nm = Scalar v).
Proof.
  unfold run, generate_material_bank, call, generate_body, bind at 1, lift at 1.
  destruct (range 0 _ batch_size) as [offsets|e]; [|discriminate].
  unfold bind at 1.
  pose proof (batch_loop_sound requests_get (cid_list_of start_cid end_cid) batch_size
                offsets [] (conj (FOP_nil _) (fun k r (H : In (k, r) []) => match H with end)))
    as Hsound.
  cbv zeta in Hsound; unfold final in Hsound.
  destruct (for_each offsets (batch_iteration requests_get (cid_list_of start_cid end_cid)
                                batch_size) []) as [[[[]|e] d] o]; [|discriminate].
  unfold bind, get, ret; simpl in *; intros H; injection H as <- _.
  destruct Hsound as [Hd Hall].
  assert (Hdist : distinct_labels (index (from_dict d)))
    by (destruct d; [constructor|exact Hd]).
  assert (Hwf : wf {| index_name := Some "CID"; index := index (from_dict d);
                      columns := columns (from_dict d) |}).
  { destruct d as [|kv d]; split; simpl.
    - constructor.
    - constructor.
    - repeat constructor; simpl; intuition discriminate.
    - repeat constructor; simpl; rewrite !length_map; reflexivity. }
  split; [exact Hwf|]; split; [reflexivity|]; split; [exact Hdist|].
  split; [|split; [|split]].
  - intros l Hl; simpl in Hl.
    assert (Hk : In l (map fst d)) by (destruct d; [destruct Hl|exact Hl]).
    apply in_map_iff in Hk; destruct Hk as ([k r] & <- & Hin).
    destruct (Hall k r Hin) as (H1 & H2 & _); auto.
  - destruct d; [left; split; reflexivity|right; reflexivity].
  - intros p v; unfold cell; simpl; destruct d as [|kv d]; [discriminate|].
    cbn [from_dict columns find_column String.eqb Ascii.eqb Bool.eqb].
    simpl; intros Hv.
    apply nth_error_In in Hv.
    change (smiles (snd kv) :: map (fun kv0 => smiles (snd kv0)) d)
      with (map (fun kv0 : pyval * compound => smiles (snd kv0)) (kv :: d)) in Hv.
    apply in_map_iff in Hv; destruct Hv as ([k r] & <- & Hin).
    destruct (Hall k r Hin) as (_ & _ & H3); exact H3.
  - intros i col nm; unfold loc_get; simpl.
    destruct (find_column col (columns (from_dict d))) as [cells|]; [|discriminate].
    pose proof (select_distinct i (index (from_dict d)) cells Hdist) as Hlen.
    destruct (select (JInt i) (index (from_dict d)) cells) as [|v [|v' rest]];
      [discriminate| |simpl in Hlen; lia].
    intros H; injection H as <-; eauto.
Qed.

Lemma material_bank_is_well_formed_witness :
  wf {| index_name := Some "CID";
        index := [JInt 5; JInt 6];
        columns := [("smiles", [JStr "C"; JStr "C"]);
                    ("name", [JStr "methane"; JStr "methane"]);
                    ("formula", [JStr "CH4"; JStr "CH4"])] |}.
Proof.
  apply (proj1 (material_bank_is_well_formed Examples.server_complete 5 6 100 _
                  [HttpGet [5; 6]; Sleep (1 # 5); Print (MsgBatchCompleted 1)] eq_refl)).
Defined.

(** ** The fetcher: a server that answers every identifier *)

Lemma dict_store_fresh {V} (k : pyval) (v : V) (d : dict V) :
  Forall (fun k' => py_eq k' k = false) (map fst d) -> dict_store k v d = d ++ [(k, v)].
Proof.
  induction d as [|[k0 v0] d IH]; simpl; intros H; auto.
  inversion H as [|? ? H0 Hd]; subst.
  rewrite H0, IH; auto.
Qed.

Lemma store_item_for (cid : Z) (prop : pyval) (batch_data : dict compound) :
  item_for cid prop -> cid <> 0 ->
  store_item prop batch_data =
  (Ok tt, dict_store (JInt cid) (record_of prop) batch_data, []).
Proof.
  intros (Hcid & s & Hs & Ht) Hne.
  destruct prop as [| | | | | |members]; try discriminate.
  unfold store_item, bind, lift, get, modify, dict_setitem.
  rewrite !py_get_obj in *; injection Hcid as ->; injection Hs as Hs.
  rewrite Hs, Ht; simpl.
  replace (cid =? 0) with false by (symmetry; apply Z.eqb_neq; exact Hne); simpl.
  rewrite Hs; reflexivity.
Qed.

Lemma index_from_dict (d : dict compound) : index (from_dict d) = map fst d.
Proof. destruct d; reflexivity. Qed.

Lemma cell_from_dict (d : dict compound) (p : nat) (kv : pyval * compound) :
  nth_error d p = Some kv ->
  find_column "smiles" (columns (from_dict d)) = Some (map (fun e => smiles (snd e)) d) /\
  find_column "name" (columns (from_dict d)) = Some (map (fun e => name (snd e)) d) /\
  find_column "formula" (columns (from_dict d)) = Some (map (fun e => formula (snd e)) d).
Proof.
  destruct d as [|kv0 d]; [destruct p; discriminate|].
  intros _; repeat split.
Qed.

Section CompleteServer.

Variable item_of : Z -> pyval.

Lemma entries_fresh (done : list Z) (cid : Z) :
  ~ In cid done -> Forall (fun k' => py_eq k' (JInt cid) = false) (map fst (map (entry_of item_of) done)).
Proof.
  intros H; rewrite map_map; apply Forall_forall; intros k Hk.
  apply in_map_iff in Hk; destruct Hk as (c & <- & Hc); simpl.
  rewrite py_eq_ints; apply Z.eqb_neq; intros ->; contradiction.
Qed.

Lemma store_items_complete (ids done : list Z) :
  (forall cid, In cid ids -> item_for cid (item_of cid) /\ cid <> 0) ->
  NoDup (done ++ ids) ->
  for_each (map item_of ids) store_item (map (entry_of item_of) done) =
  (Ok tt, map (entry_of item_of) (done ++ ids), []).
Proof.
  revert done; induction ids as [|cid ids IH]; intros done Hids Hnd.
  - rewrite app_nil_r; reflexivity.
  - destruct (Hids cid (or_introl eq_refl)) as [Hitem Hne].
    simpl map; rewrite for_each_cons, (store_item_for cid _ _ Hitem Hne).
    rewrite dict_store_fresh
      by (apply entries_fresh; apply NoDup_remove_2 in Hnd; rewrite in_app_iff in Hnd; tauto).
    change (map (entry_of item_of) done ++ [(JInt cid, record_of (item_of cid))])
      with (map (entry_of item_of) done ++ map (entry_of item_of) [cid]).
    rewrite <- map_app, IH.
    + rewrite <- app_assoc; reflexivity.
    + intros c Hc; apply Hids; right; exact Hc.
    + rewrite <- app_assoc; exact Hnd.
Qed.

Lemma dict_update_complete (ids done : list Z) :
  NoDup (done ++ ids) ->
  dict_update (map (entry_of item_of) done) (map (entry_of item_of) ids) = map (entry_of item_of) (done ++ ids).
Proof.
  unfold dict_update; revert done; induction ids as [|cid ids IH]; intros done Hnd.
  - rewrite app_nil_r; reflexivity.
  - simpl; rewrite dict_store_fresh
      by (apply entries_fresh; apply NoDup_remove_2 in Hnd; rewrite in_app_iff in Hnd; tauto).
    change (map (entry_of item_of) done ++ [(JInt cid, record_of (item_of cid))])
      with (map (entry_of item_of) done ++ map (entry_of item_of) [cid]).
    rewrite <- map_app, IH; rewrite <- app_assoc; auto.
Qed.

Variable requests_get : list Z -> result response.

Lemma batch_loop_complete (cid_list : list Z) (batch_size : Z) (offsets done : list Z) :
  let chunk i := slice cid_list i (i + batch_size) in
  (forall i, In i offsets ->
     chunk i <> [] /\
     (forall cid, In cid (chunk i) -> item_for cid (item_of cid) /\ cid <> 0) /\
     exists r, requests_get (chunk i) = Ok r /\ status_code r = 200 /\
               response_items r = Ok (map item_of (chunk i))) ->
  NoDup (done ++ concat (map chunk offsets)) ->
  exists out,
    for_each offsets (batch_iteration requests_get cid_list batch_size) (map (entry_of item_of) done) =
    (Ok tt, map (entry_of item_of) (done ++ concat (map chunk offsets)), out).
Proof.
  intros chunk; revert done; induction offsets as [|i offsets IH]; intros done H Hnd.
  - exists []; simpl; rewrite app_nil_r; reflexivity.
  - destruct (H i (or_introl eq_refl)) as (Hne & Hitems & r & Hget & Hs & Hr).
    simpl in Hnd; rewrite app_assoc in Hnd.
    assert (Hc : NoDup (chunk i)).
    { apply NoDup_app_remove_r in Hnd; apply NoDup_app_remove_l in Hnd; exact Hnd. }
    assert (Hfetch : fetch_details_for_batch (S:=dict compound) requests_get (chunk i)
                       (map (entry_of item_of) done) =
                     (Ok (map (entry_of item_of) (chunk i)), map (entry_of item_of) done, [HttpGet (chunk i)])).
    { rewrite fetch_details_unfold, Hget, Hs; simpl.
      unfold parse_batch, bind, lift; rewrite Hr.
      pose proof (store_items_complete (chunk i) [] Hitems Hc) as Hst.
      change (map (entry_of item_of) []) with (@nil (pyval * compound)) in Hst.
      change ([] ++ chunk i) with (chunk i) in Hst.
      rewrite Hst; reflexivity. }
    destruct (IH (done ++ chunk i) (fun j Hj => H j (or_intror Hj)) Hnd) as [out Hrest].
    eexists.
    rewrite for_each_cons, batch_iteration_unfold.
    change (slice cid_list i (i + batch_size)) with (chunk i); rewrite Hfetch.
    rewrite dict_update_complete by (apply NoDup_app_remove_r in Hnd; exact Hnd).
    rewrite Hrest; simpl; rewrite <- app_assoc; reflexivity.
Qed.

Lemma complete_fetch_run (start_cid end_cid batch_size : Z) :
  0 < batch_size -> end_cid < 0 \/ 0 < start_cid ->
  (forall cid, start_cid <= cid <= end_cid -> item_for cid (item_of cid)) ->
  complete_server item_of requests_get start_cid end_cid batch_size ->
  exists out,
    run (generate_material_bank requests_get start_cid end_cid batch_size) =
      (Ok (fetched_table item_of start_cid end_cid), out).
Proof.
  intros Hb Hzero Hitems Hserver.
  set (cid_list := cid_list_of start_cid end_cid).
  set (offsets := range_items 0 (Z.of_nat (length cid_list)) batch_size).
  assert (Hchunks : map (fun i => slice cid_list i (i + batch_size)) offsets =
                    batches start_cid end_cid batch_size) by reflexivity.
  assert (Hconcat : concat (map (fun i => slice cid_list i (i + batch_size)) offsets) =
                    cid_list) by (rewrite Hchunks; apply concat_batches; exact Hb).
  destruct (batch_loop_complete cid_list batch_size offsets []) as [out Hloop].
  { intros i Hi.
    assert (Hin : In (slice cid_list i (i + batch_size)) (batches start_cid end_cid batch_size))
      by (rewrite <- Hchunks;
          apply (in_map (fun i => slice cid_list i (i + batch_size))); exact Hi).
    split; [apply (batches_nonempty start_cid end_cid batch_size); auto|].
    split; [|apply Hserver; exact Hin].
    intros cid Hcid.
    assert (Hrange : In cid cid_list).
    { rewrite <- Hconcat; apply in_concat; eexists; split; [|exact Hcid].
      rewrite Hchunks; exact Hin. }
    apply in_range_items in Hrange; split; [apply Hitems; lia|lia]. }
  { simpl; rewrite Hconcat; apply NoDup_range_items. }
  cbv zeta in Hloop; simpl app in Hloop; rewrite Hconcat in Hloop.
  exists out.
  unfold run, generate_material_bank, call, generate_body, bind at 1, lift at 1, range.
  replace (batch_size =? 0) with false by (symmetry; apply Z.eqb_neq; lia).
  fold cid_list offsets; unfold bind at 1.
  change (@nil (pyval * compound)) with (map (entry_of item_of) []); rewrite Hloop.
  unfold bind, get, ret; simpl; rewrite !app_nil_r; reflexivity.
Qed.

Lemma index_fetched_table (start_cid end_cid : Z) :
  index (fetched_table item_of start_cid end_cid) = map JInt (cid_list_of start_cid end_cid).
Proof. simpl; rewrite index_from_dict, map_map; reflexivity. Qed.

Lemma cell_fetched_table (start_cid end_cid : Z) (p : nat) (cid : Z) :
  nth_error (cid_list_of start_cid end_cid) p = Some cid ->
  cell (fetched_table item_of start_cid end_cid) p "smiles" = Some (smiles (record_of (item_of cid))) /\
  cell (fetched_table item_of start_cid end_cid) p "name" = Some (name (record_of (item_of cid))) /\
  cell (fetched_table item_of start_cid end_cid) p "formula" = Some (formula (record_of (item_of cid))).
Proof.
  intros Hp; unfold cell; simpl.
  pose proof (map_nth_error (entry_of item_of) p (cid_list_of start_cid end_cid) Hp) as He.
  destruct (cell_from_dict _ p _ He) as (-> & -> & ->).
  repeat split.
  - apply (map_nth_error (fun e => smiles (snd e)) p _ He).
  - apply (map_nth_error (fun e => name (snd e)) p _ He).
  - apply (map_nth_error (fun e => formula (snd e)) p _ He).
Qed.

(** X7.  Fetch and assembly compose.  When the range does not hold 0
    and the server answers every chunk with status 200 and one item per
    identifier of the chunk, in order, each with its identifier and a
    true structure string, the table that [generate_material_bank]
    returns has one row per identifier of the range, in the order of
    the range, labelled by the identifier, and the cells of the row are
    the three fields of the item. *)
Theorem complete_fetch_gives_one_row_per_identifier (start_cid end_cid batch_size : Z) :
  0 < batch_size -> end_cid < 0 \/ 0 < start_cid ->
  (forall cid, start_cid <= cid <= end_cid -> item_for cid (item_of cid)) ->
  (forall c, In c (batches start_cid end_cid batch_size) ->
     exists r, requests_get c = Ok r /\ status_code r = 200 /\
               response_items r = Ok (map item_of c)) ->
  exists material_bank out,
    run (generate_material_bank requests_get start_cid end_cid batch_size) =
      (Ok material_bank, out) /\
    index material_bank = map JInt (cid_list_of start_cid end_cid) /\
    forall p cid,
      nth_error (cid_list_of start_cid end_cid) p = Some cid ->
      cell material_bank p "smiles" = Some (smiles (record_of (item_of cid))) /\
      cell material_bank p "name" = Some (name (record_of (item_of cid))) /\
      cell material_bank p "formula" = Some (formula (record_of (item_of cid))).
Proof.
  intros Hb Hzero Hitems Hserver.
  destruct (complete_fetch_run start_cid end_cid batch_size Hb Hzero Hitems Hserver)
    as [out Hrun].
  exists (fetched_table item_of start_cid end_cid), out.
  split; [exact Hrun|]; split; [apply index_fetched_table|apply cell_fetched_table].
Qed.

End CompleteServer.

Lemma complete_fetch_gives_one_row_per_identifier_witness :
  exists material_bank out,
    run (generate_material_bank Examples.server_complete 1 5 2) = (Ok material_bank, out) /\
    index material_bank = [JInt 1; JInt 2; JInt 3; JInt 4; JInt 5].
Proof.
  destruct (complete_fetch_gives_one_row_per_identifier
              (fun cid => Examples.item cid "C") Examples.server_complete 1 5 2)
    as (material_bank & out & Hrun & Hidx & _).
  - lia.
  - right; lia.
  - intros cid _; split; [reflexivity|exists (JStr "C"); split; reflexivity].
  - intros c _; eexists; repeat split.
  - exists material_bank, out; split; [exact Hrun|exact Hidx].
Defined.

(** ** The enricher: what a run does, in order *)

(** X8.  The valid properties of lines 90-95 are the requested names
    that are in the catalog, each once however often it is requested,
    each with the attribute that the catalog gives it: no other name is
    processed, and no supported name that is requested is left out. *)
Theorem valid_properties_are_the_supported_requests (properties : list string)
        (prop attr : string) :
  NoDup (map fst (valid_properties_of properties)) /\
  (In (prop, attr) (valid_properties_of properties) <->
   In prop properties /\ lookup prop supported_properties = Some attr).
Proof.
  destruct (valid_properties_spec properties) as (Hnd & Hsound & Hcomplete).
  split; [exact Hnd|]; split; [apply Hsound|].
  intros [Hin Hl].
  assert (Hsup : is_supported prop = true) by (unfold is_supported; rewrite Hl; reflexivity).
  pose proof (Hcomplete prop Hin Hsup) as Hp.
  apply in_map_iff in Hp; destruct Hp as ([p a] & Hfst & Hpa); simpl in Hfst; subst p.
  destruct (Hsound prop a Hpa) as [_ Ha].
  rewrite Hl in Ha; injection Ha as <-; exact Hpa.
Qed.

Lemma failed_app (a b : list event) : failed (a ++ b) = failed a ++ failed b.
Proof. apply flat_map_app. Qed.

Lemma failed_warnings (props : list string) : failed (map Warn props) = [].
Proof. induction props; simpl; auto. Qed.

Lemma processed_app (a b : list event) : processed (a ++ b) = processed a ++ processed b.
Proof. apply flat_map_app. Qed.

Lemma processed_warnings (props : list string) : processed (map Warn props) = [].
Proof. induction props; simpl; auto. Qed.

Lemma processed_row_lines (rows : list Z) (lines : list (list event)) :
  Forall2 row_lines rows lines -> processed (concat lines) = rows.
Proof.
  induction 1 as [|i l rows lines Hl _ IH]; [reflexivity|].
  simpl; rewrite processed_app, IH.
  destruct Hl as [->|[e ->]]; reflexivity.
Qed.

Section RunFacts.

Context {chemical mixture : Type}.
Variable Chemical : located -> result chemical.
Variable getattr : chemical -> string -> result (option pyfloat).
Variable Mixture : list located -> list Q -> result mixture.
Variable Hm : mixture -> result (option pyfloat).
Variable write_error : DataFrame -> Z -> string -> pyval -> option exn.
Variable to_parquet : string -> list (string * list pyval) -> result unit.

Lemma row_iteration_lines (vp : list (string * string)) (i : Z) (df : DataFrame) :
  row_lines i (output (row_iteration Chemical getattr Mixture Hm write_error vp i) df).
Proof. apply row_iteration_output. Qed.

Lemma row_loop_lines (vp : list (string * string)) (rows : list Z) (df : DataFrame) :
  exists lines,
    Forall2 row_lines rows lines /\
    output (for_each rows (row_iteration Chemical getattr Mixture Hm write_error
        vp)) df = concat lines.
Proof.
  revert df; induction rows as [|i rows IH]; intros df.
  - exists []; split; [constructor|reflexivity].
  - pose proof (row_iteration_lines vp i df) as Hi.
    pose proof (row_iteration_returns Chemical getattr Mixture Hm write_error vp i df) as Hr.
    unfold output in *; rewrite for_each_cons.
    destruct (row_iteration Chemical getattr Mixture Hm write_error vp i df) as [[[[]|e] df1] out1];
      simpl in Hr; [|discriminate].
    destruct (IH df1) as (lines & Hlines & Hout).
    destruct (for_each rows _ df1) as [[r df2] out2]; simpl in *.
    exists (out1 :: lines); split; [constructor; auto|].
    rewrite Hout; reflexivity.
Qed.

(** X9.  No exception leaves [process_materials] before the write of
    the file, on every table, every list of names and every behaviour
    of [thermo] and of the writes to the table: the run ends as the
    call of [to_parquet] ends, which is outside every [try].  Its
    effects are, in this order: one warning for each occurrence of an
    unsupported name, in the order of the request; then for each row
    number 0, 1, ..., n-1 in turn the error line of the row when it
    failed, the pause of 0.002 s and the line that the row is
    processed; then one call of [to_parquet], on the file named by the
    run name with the suffix .parquet and the columns of the table as
    the rows left it.  So every row number is printed as processed
    once, in order, the failed ones too. *)
Theorem process_materials_trace (properties : list string) (run_name : string)
        (material_bank : DataFrame) :
  exists after lines,
    process_materials Chemical getattr Mixture Hm write_error to_parquet properties run_name
      material_bank =
    (to_parquet (run_name ++ ".parquet") (columns after), after,
     map Warn (filter (fun prop => negb (is_supported prop)) properties) ++
     concat lines ++
     [ToParquet (run_name ++ ".parquet") (columns after)]) /\
    Forall2 row_lines (range_items 0 (shape0 material_bank) 1) lines /\
    processed
      (output (process_materials Chemical getattr Mixture Hm write_error to_parquet
                 properties run_name) material_bank) =
    range_items 0 (shape0 material_bank) 1.
Proof.
  destruct (row_loop_lines (valid_properties_of properties)
              (range_items 0 (shape0 material_bank) 1) (before_rows material_bank))
    as (lines & Hlines & Hout).
  set (after := final (row_loop Chemical getattr Mixture Hm write_error properties
                         material_bank) (before_rows material_bank)).
  assert (Hrun : process_materials Chemical getattr Mixture Hm write_error to_parquet
                   properties run_name material_bank =
                 (to_parquet (run_name ++ ".parquet") (columns after), after,
                  map Warn (filter (fun prop => negb (is_supported prop)) properties) ++
                  concat lines ++
                  [ToParquet (run_name ++ ".parquet") (columns after)])).
  { rewrite process_materials_run; cbv zeta.
    unfold row_loop at 3; rewrite Hout; reflexivity. }
  exists after, lines; split; [exact Hrun|]; split; [exact Hlines|].
  unfold output; rewrite Hrun; cbn [snd].
  rewrite !processed_app, processed_warnings, (processed_row_lines _ _ Hlines).
  simpl; apply app_nil_r.
Qed.

(** X10.  On a well-formed table [process_materials] adds no row and
    loses no column, and it writes to no column but the valid
    properties and the mixing columns: the index is the index of the
    input, and every other column - the smiles, name and formula
    columns among them - holds after the run the cells it held before,
    in a table that is well formed again. *)
Theorem process_materials_keeps_the_input (properties : list string) (run_name : string)
        (material_bank : DataFrame) :
  wf material_bank ->
  let after :=
    final (process_materials Chemical getattr Mixture Hm write_error to_parquet
        properties run_name) material_bank in
  wf after /\
  index after = index material_bank /\
  (forall c, In c (names material_bank) -> In c (names after)) /\
  (forall c, In c (names after) ->
     In c (names material_bank) \/ In c mixing_columns \/
     In c (map fst (valid_properties_of properties))) /\
  (forall c, ~ In c mixing_columns -> ~ In c (map fst (valid_properties_of properties)) ->
     find_column c (columns after) = find_column c (columns material_bank)) /\
  (forall c, In c ["smiles"; "name"; "formula"] ->
     find_column c (columns after) = find_column c (columns material_bank)).
Proof.
  intros Hwf after.
  destruct (before_rows_spec material_bank Hwf) as (Hwf0 & Hidx0 & _ & Hother0 & Hnames0).
  destruct (row_loop_written Chemical getattr Mixture Hm write_error properties material_bank
              (fun _ => False))
    as (Hwf1 & Hidx1 & Hun1 & Hmono1 & Hbound1 & _); auto.
  { intros i _; left; intros p []. }
  unfold after; rewrite final_process_materials.
  assert (Hkeep : forall c, ~ In c mixing_columns ->
                    ~ In c (map fst (valid_properties_of properties)) ->
                    find_column c (columns
                      (final (row_loop Chemical getattr Mixture Hm write_error
                          properties material_bank)
                             (before_rows material_bank))) =
                    find_column c (columns material_bank)).
  { intros c Hm' Hp; rewrite Hun1 by (rewrite in_app_iff; tauto); apply Hother0; exact Hm'. }
  split; [exact Hwf1|]; split; [congruence|]; split; [|split; [|split; [exact Hkeep|]]].
  - intros c Hc; apply Hmono1, Hnames0; auto.
  - intros c Hc; destruct (Hbound1 c Hc) as [H|H].
    + apply Hnames0 in H; tauto.
    + apply in_app_iff in H; tauto.
  - intros c Hc; apply Hkeep.
    + intros H; repeat (destruct Hc as [<-|Hc]; [repeat (destruct H as [H|H]; [discriminate|]);
        destruct H|]); destruct Hc.
    + intros H; apply valid_property_supported in H; destruct H as [_ H].
      repeat (destruct Hc as [<-|Hc]; [discriminate H|]); destruct Hc.
Qed.

(** A loop of iterations that all fail leaves the table as it is. *)
Lemma rows_all_fail (vp : list (string * string)) (rows : list Z) (df : DataFrame) :
  (forall i, In i rows -> row_fails Chemical df i) ->
  final (for_each rows (row_iteration Chemical getattr Mixture Hm write_error vp)) df = df /\
  map fst (failed (output (for_each rows (row_iteration Chemical getattr Mixture Hm write_error
      vp)) df)) =
  rows.
Proof.
  induction rows as [|i rows IH]; intros H; [split; reflexivity|].
  destruct (row_iteration_failed Chemical getattr Mixture Hm write_error
      vp i df (H i (or_introl eq_refl)))
    as [e He].
  destruct (IH (fun j Hj => H j (or_intror Hj))) as [Hfin Hout].
  unfold final, output in *; rewrite for_each_cons, He.
  destruct (for_each rows _ df) as [[r df'] out]; simpl in *.
  split; [exact Hfin|rewrite Hout; reflexivity].
Qed.

(** X11.  When no row of a well-formed table has a chemistry object -
    every name is rejected or cannot be read - the run creates no
    property column at all: the table that is written is the input
    with the 12 mixing columns, all NaN, and an error line is printed
    for each row number in turn. *)
Theorem no_row_no_property_column (properties : list string) (run_name : string)
        (material_bank : DataFrame) :
  wf material_bank ->
  (forall i, 0 <= i < shape0 material_bank -> row_fails Chemical material_bank i) ->
  let after :=
    final (process_materials Chemical getattr Mixture Hm write_error to_parquet
        properties run_name) material_bank in
  let out :=
    output (process_materials Chemical getattr Mixture Hm write_error to_parquet
        properties run_name) material_bank in
  after = before_rows material_bank /\
  written out = [columns (before_rows material_bank)] /\
  map fst (failed out) = range_items 0 (shape0 material_bank) 1 /\
  (forall c, In c (names after) <-> In c (names material_bank) \/ In c mixing_columns) /\
  (forall c cells, In c mixing_columns -> find_column c (columns after) = Some cells ->
                   cells = repeat NaN (length (index material_bank))).
Proof.
  intros Hwf Hfail after out.
  destruct (before_rows_spec material_bank Hwf) as (Hwf0 & Hidx0 & Hmix0 & Hother0 & Hnames0).
  destruct (rows_all_fail (valid_properties_of properties)
              (range_items 0 (shape0 material_bank) 1) (before_rows material_bank))
    as [Hfin Hout].
  { intros i Hi; apply in_range_items in Hi.
    apply (row_fails_frame Chemical material_bank (before_rows material_bank) i Hidx0
             (Hother0 _ name_not_mixing)).
    apply Hfail; lia. }
  assert (Hafter : after = before_rows material_bank)
    by (unfold after; rewrite final_process_materials; exact Hfin).
  split; [exact Hafter|]; split; [|split; [|split]].
  - unfold out, output; rewrite process_materials_run; cbv zeta; cbn [snd].
    rewrite !written_app, written_warnings.
    unfold row_loop at 1.
    rewrite (proj1 (written_loop_events Chemical getattr Mixture Hm write_error _ _ _)).
    fold (row_loop Chemical getattr Mixture Hm write_error properties material_bank).
    unfold row_loop, final in *; rewrite Hfin; reflexivity.
  - unfold out, output; rewrite process_materials_run; cbv zeta; cbn [snd].
    rewrite !failed_app, failed_warnings, !map_app.
    unfold row_loop; rewrite Hout.
    simpl; rewrite app_nil_r; reflexivity.
  - intros c; rewrite Hafter; apply Hnames0.
  - intros c cells Hc; rewrite Hafter, (Hmix0 c Hc); intros H; injection H as <-; reflexivity.
Qed.

(** X12.  On a table that has no name column every row fails with
    [KeyError]: the requested properties and the mixtures are never
    read, for no row. *)
Theorem missing_name_column_fails_every_row (properties : list string) (run_name : string)
        (material_bank : DataFrame) :
  find_column "name" (columns material_bank) = None ->
  let out :=
    output (process_materials Chemical getattr Mixture Hm write_error to_parquet
        properties run_name) material_bank in
  failed out = map (fun i => (i, KeyError)) (range_items 0 (shape0 material_bank) 1) /\
  final (process_materials Chemical getattr Mixture Hm write_error to_parquet
      properties run_name) material_bank =
  before_rows material_bank.
Proof.
  intros Hname out.
  assert (Hname0 : find_column "name" (columns (before_rows material_bank)) = None).
  { unfold before_rows, final; rewrite init_mixing_columns_run; cbn [fst snd].
    clear out; generalize name_not_mixing; generalize mixing_columns; intros cs Hcs.
    revert material_bank Hname; induction cs as [|c cs IH]; intros df Hdf; [exact Hdf|].
    simpl; apply IH; [intros H; apply Hcs; right; exact H|].
    simpl; rewrite find_column_replace_other; [exact Hdf|].
    intros <-; apply Hcs; left; reflexivity. }
  assert (Hloop : forall rows df,
             find_column "name" (columns df) = None ->
             for_each rows (row_iteration Chemical getattr Mixture Hm write_error
                              (valid_properties_of properties)) df =
             (Ok tt, df,
              concat (map (fun i => Print (MsgErrorMaterial i KeyError) :: row_trailer i) rows))).
  { intros rows df Hdf; induction rows as [|i rows IH]; [reflexivity|].
    rewrite for_each_cons, row_iteration_run; unfold loc_get; rewrite Hdf, IH.
    reflexivity. }
  unfold out, output, final; rewrite process_materials_run; cbv zeta; cbn [fst snd].
  unfold row_loop, final, output; rewrite (Hloop _ _ Hname0); cbn [fst snd].
  split; [|reflexivity].
  rewrite !failed_app, failed_warnings.
  simpl; rewrite app_nil_r.
  induction (range_items 0 (shape0 material_bank) 1) as [|i rows IH]; [reflexivity|].
  simpl; rewrite IH; reflexivity.
Qed.

End RunFacts.

Lemma wf_unnamed_rows : wf MoreExamples.unnamed_rows.
Proof.
  split; simpl.
  - repeat constructor; intros [].
  - repeat constructor.
Qed.

Lemma process_materials_keeps_the_input_witness :
  index (final (process_materials Examples.thermo_Chemical Examples.thermo_getattr
                  Examples.thermo_Mixture Examples.thermo_Hm Examples.pandas_write_error
      Examples.pyarrow_to_parquet ["density"] "run")
               Examples.two_rows) = index Examples.two_rows.
Proof.
  pose proof (process_materials_keeps_the_input Examples.thermo_Chemical
                Examples.thermo_getattr Examples.thermo_Mixture Examples.thermo_Hm Examples.pandas_write_error
      Examples.pyarrow_to_parquet
                ["density"] "run" Examples.two_rows wf_two_rows) as H.
  cbv zeta in H; destruct H as (_ & H & _); exact H.
Defined.

Lemma enriched_before_fails (i : Z) :
  0 <= i < shape0 Examples.enriched_before ->
  row_fails Examples.thermo_Chemical Examples.enriched_before i.
Proof.
  unfold shape0; simpl; intros Hi.
  assert (i = 0) by lia; subst i.
  vm_compute; exists ValueError; reflexivity.
Qed.

Lemma wf_enriched_before : wf Examples.enriched_before.
Proof.
  split; simpl; [repeat constructor; simpl; intuition discriminate|repeat constructor].
Qed.

Lemma no_row_no_property_column_witness :
  final (process_materials Examples.thermo_Chemical Examples.thermo_getattr
           Examples.thermo_Mixture Examples.thermo_Hm Examples.pandas_write_error
      Examples.pyarrow_to_parquet ["density"] "run")
        Examples.enriched_before = before_rows Examples.enriched_before.
Proof.
  pose proof (no_row_no_property_column Examples.thermo_Chemical Examples.thermo_getattr
                Examples.thermo_Mixture Examples.thermo_Hm Examples.pandas_write_error
      Examples.pyarrow_to_parquet ["density"] "run"
                Examples.enriched_before wf_enriched_before enriched_before_fails) as H.
  cbv zeta in H; destruct H as (H & _); exact H.
Defined.

Lemma missing_name_column_fails_every_row_witness :
  failed (output (process_materials Examples.thermo_Chemical Examples.thermo_getattr
                    Examples.thermo_Mixture Examples.thermo_Hm Examples.pandas_write_error
      Examples.pyarrow_to_parquet ["density"] "run")
                 MoreExamples.unnamed_rows) =
  map (fun i => (i, KeyError)) (range_items 0 (shape0 MoreExamples.unnamed_rows) 1).
Proof.
  pose proof (missing_name_column_fails_every_row Examples.thermo_Chemical
                Examples.thermo_getattr Examples.thermo_Mixture Examples.thermo_Hm Examples.pandas_write_error
      Examples.pyarrow_to_parquet
                ["density"] "run" MoreExamples.unnamed_rows eq_refl) as H.
  cbv zeta in H; destruct H as (H & _); exact H.
Defined.

(** The write of the file is outside every [try].  On a table whose
    name column holds a string and a number, every row is gone through,
    the water is enriched, and the run raises what [to_parquet] raises. *)
Lemma unwritable_table_ends_the_run :
  let run :=
    process_materials Examples.thermo_Chemical Examples.thermo_getattr
      Examples.thermo_Mixture Examples.thermo_Hm Examples.pandas_write_error
      Examples.pyarrow_to_parquet ["density"] "run" MoreExamples.mixed_names in
  fst (fst run) = Raise (OtherError "ArrowTypeError") /\
  processed (snd run) = [0; 1] /\
  cell (snd (fst run)) 0 "density" = Some (JFloat (FFinite 997)).
Proof. repeat split. Qed.

(** ** Fetch, then enrich *)

Lemma nth_error_range_items (start stop : Z) (k : nat) :
  Z.of_nat k < stop - start ->
  nth_error (range_items start stop 1) k = Some (start + Z.of_nat k).
Proof.
  intros Hk; rewrite range_items_forward.
  apply (map_nth_error (fun k => start + Z.of_nat k)).
  rewrite nth_error_seq.
  replace (k <? Z.to_nat (stop - start))%nat with true
    by (symmetry; apply Nat.ltb_lt; lia).
  reflexivity.
Qed.

(** [loc] on a table whose labels are the identifiers of a range that
    starts at [start_cid >= 0]: the label [i] is at the position
    [i - start_cid]. *)
Lemma loc_get_cid_index (df : DataFrame) (start_cid end_cid i : Z) (c : string) :
  wf df -> 0 <= start_cid -> 0 <= i ->
  index df = map JInt (cid_list_of start_cid end_cid) ->
  loc_get df i c =
  if start_cid <=? i then
    match cell df (Z.to_nat (i - start_cid)) c with
    | Some v => Ok (Scalar v)
    | None => Raise KeyError
    end
  else Raise KeyError.
Proof.
  intros Hwf Hs Hi Hidx; unfold loc_get, cell.
  destruct (find_column c (columns df)) as [cells|] eqn:E; [|destruct (_ <=? _); reflexivity].
  pose proof (wf_column df c cells Hwf E) as Hlen.
  assert (Hidx' : index df =
                  map (fun k => JInt (Z.of_nat k)) (seq (Z.to_nat start_cid) (length cells))).
  { rewrite Hlen, Hidx, length_map; unfold cid_list_of.
    rewrite range_items_forward, length_map, length_seq, map_map.
    rewrite (seq_from (Z.to_nat start_cid)), map_map.
    apply map_ext; intros k; f_equal; lia. }
  rewrite Hidx'.
  rewrite <- (Z2Nat.id i Hi) at 1.
  rewrite select_positions.
  destruct (Z.leb_spec start_cid i) as [Hle|Hgt].
  - replace (Z.to_nat start_cid <=? Z.to_nat i)%nat with true
      by (symmetry; apply Nat.leb_le; lia).
    rewrite Z2Nat.inj_sub by lia.
    destruct (nth_error cells _); reflexivity.
  - replace (Z.to_nat start_cid <=? Z.to_nat i)%nat with false
      by (symmetry; apply Nat.leb_gt; lia).
    destruct (nth_error cells _); reflexivity.
Qed.

Lemma wf_fetched_table (item_of : Z -> pyval) (start_cid end_cid : Z) :
  wf (fetched_table item_of start_cid end_cid).
Proof.
  unfold fetched_table.
  destruct (map (entry_of item_of) (cid_list_of start_cid end_cid)) as [|kv d]; split; simpl.
  - constructor.
  - constructor.
  - repeat constructor; simpl; intuition discriminate.
  - repeat constructor; simpl; rewrite !length_map; reflexivity.
Qed.

Lemma names_fetched_table (item_of : Z -> pyval) (start_cid end_cid : Z) (c : string) :
  In c (names (fetched_table item_of start_cid end_cid)) ->
  In c ["smiles"; "name"; "formula"].
Proof.
  unfold fetched_table, names; simpl.
  destruct (map (entry_of item_of) (cid_list_of start_cid end_cid)); simpl; tauto.
Qed.

Section FetchThenEnrich.

Context {chemical mixture : Type}.
Variable Chemical : located -> result chemical.
Variable getattr : chemical -> string -> result (option pyfloat).
Variable Mixture : list located -> list Q -> result mixture.
Variable Hm : mixture -> result (option pyfloat).
Variable write_error : DataFrame -> Z -> string -> pyval -> option exn.
Variable to_parquet : string -> list (string * list pyval) -> result unit.

(** The iteration of a row number under which no name can be read
    prints its error line. *)
Lemma unreadable_row_line (properties : list string) (run_name : string)
      (material_bank : DataFrame) (i : Z) (e : exn) :
  wf material_bank -> 0 <= i < shape0 material_bank ->
  loc_get material_bank i "name" = Raise e ->
  In (Print (MsgErrorMaterial i e))
     (output (process_materials Chemical getattr Mixture Hm write_error to_parquet
         properties run_name)
             material_bank).
Proof.
  intros Hwf Hi Hloc.
  apply printed_by_row_loop.
  destruct (row_loop_at Chemical getattr Mixture Hm write_error properties material_bank i Hwf Hi)
    as (before & after & at_row & _ & _ & _ & _ & Hname & _ & _ & Hout).
  rewrite Hout, !in_app_iff; right; left.
  unfold output; rewrite row_iteration_run, Hname, Hloc; left; reflexivity.
Qed.

Variable item_of : Z -> pyval.
Variable requests_get : list Z -> result response.

(** X13.  Fetch and enrichment compose by label, not by position.  On
    the table that [generate_material_bank] builds from the complete
    answers to a range that starts above 0, [process_materials] runs
    the row numbers 0 .. n-1 against the identifiers: a row number
    below the first identifier prints a [KeyError] line; a row number
    that is an identifier reads the name of that compound; and the row
    of an identifier that is no row number - the last row always -
    gets no property and no mixing enthalpy: its mixing cells are NaN
    and its property cells NaN or not there. *)
Theorem fetched_table_is_enriched_by_identifier (start_cid end_cid batch_size : Z)
        (properties : list string) (run_name : string) :
  0 < batch_size -> 0 < start_cid <= end_cid ->
  (forall cid, start_cid <= cid <= end_cid -> item_for cid (item_of cid)) ->
  complete_server item_of requests_get start_cid end_cid batch_size ->
  exists material_bank out,
    run (generate_material_bank requests_get start_cid end_cid batch_size) =
      (Ok material_bank, out) /\
    let n := end_cid - start_cid + 1 in
    let after :=
      final (process_materials Chemical getattr Mixture Hm write_error to_parquet
          properties run_name)
            material_bank in
    let lines :=
      output (process_materials Chemical getattr Mixture Hm write_error to_parquet
          properties run_name)
             material_bank in
    shape0 material_bank = n /\ n <= end_cid /\
    (forall i, 0 <= i < n -> i < start_cid ->
       In (Print (MsgErrorMaterial i KeyError)) lines) /\
    (forall i, start_cid <= i < n ->
       loc_get material_bank i "name" = Ok (Scalar (name (record_of (item_of i))))) /\
    (forall p cid,
       nth_error (cid_list_of start_cid end_cid) p = Some cid -> n <= cid ->
       (forall c, In c mixing_columns -> cell after p c = Some NaN) /\
       (forall prop, In prop (map fst (valid_properties_of properties)) ->
          cell after p prop = Some NaN \/ cell after p prop = None)).
Proof.
  intros Hb Hs Hitems Hserver.
  destruct (complete_fetch_run item_of requests_get start_cid end_cid batch_size Hb
              (or_intror (proj1 Hs)) Hitems Hserver) as [out Hrun].
  exists (fetched_table item_of start_cid end_cid), out.
  split; [exact Hrun|]; cbv zeta.
  pose proof (wf_fetched_table item_of start_cid end_cid) as Hwf.
  pose proof (index_fetched_table item_of start_cid end_cid) as Hidx.
  assert (Hn : shape0 (fetched_table item_of start_cid end_cid) = end_cid - start_cid + 1).
  { unfold shape0; rewrite Hidx, length_map, length_cid_list; lia. }
  split; [exact Hn|]; split; [lia|]; split; [|split].
  - intros i Hi Hlt.
    apply (unreadable_row_line properties run_name _ i KeyError Hwf); [lia|].
    rewrite (loc_get_cid_index _ start_cid end_cid i "name" Hwf) by (lia || exact Hidx).
    replace (start_cid <=? i) with false by (symmetry; apply Z.leb_gt; lia).
    reflexivity.
  - intros i Hi.
    rewrite (loc_get_cid_index _ start_cid end_cid i "name" Hwf) by (lia || exact Hidx).
    replace (start_cid <=? i) with true by (symmetry; apply Z.leb_le; lia).
    assert (Hp : nth_error (cid_list_of start_cid end_cid) (Z.to_nat (i - start_cid)) = Some i).
    { unfold cid_list_of; rewrite nth_error_range_items by lia; f_equal; lia. }
    destruct (cell_fetched_table item_of start_cid end_cid _ i Hp) as (_ & -> & _).
    reflexivity.
  - intros p cid Hp Hcid.
    assert (Hl : nth_error (index (fetched_table item_of start_cid end_cid)) p =
                 Some (JInt cid)) by (rewrite Hidx; apply map_nth_error; exact Hp).
    destruct (unprocessed_row Chemical getattr Mixture Hm write_error properties
                (fetched_table item_of start_cid end_cid) p (JInt cid) Hwf Hl)
      as (_ & Hmix & Hother).
    { intros i Hi Heq; rewrite py_eq_ints in Heq; apply Z.eqb_eq in Heq; lia. }
    rewrite final_process_materials.
    split; [exact Hmix|].
    intros prop Hprop.
    destruct (valid_property_supported properties prop Hprop) as [_ Hsup].
    destruct (supported_not_mixing prop Hsup) as [Hnm _].
    assert (Hnone : cell (fetched_table item_of start_cid end_cid) p prop = None).
    { unfold cell.
      destruct (find_column prop (columns (fetched_table item_of start_cid end_cid)))
        as [cells|] eqn:E; [|reflexivity].
      assert (Hin : In prop (names (fetched_table item_of start_cid end_cid)))
        by (apply find_column_In; rewrite E; discriminate).
      apply (names_fetched_table item_of start_cid end_cid prop) in Hin; rename Hin into E'.
      repeat (destruct E' as [<-|E']; [discriminate Hsup|]); destruct E'. }
    destruct (Hother prop Hnm) as [H|[_ H]]; [right; congruence|left; exact H].
Qed.

End FetchThenEnrich.

Lemma fetched_table_is_enriched_by_identifier_witness :
  exists material_bank out,
    run (generate_material_bank Examples.server_complete 1 3 2) = (Ok material_bank, out) /\
    shape0 material_bank = 3 /\
    In (Print (MsgErrorMaterial 0 KeyError))
       (output (process_materials Examples.thermo_Chemical Examples.thermo_getattr
                  Examples.thermo_Mixture Examples.thermo_Hm Examples.pandas_write_error
      Examples.pyarrow_to_parquet ["density"] "run")
               material_bank) /\
    cell (final (process_materials Examples.thermo_Chemical Examples.thermo_getattr
                   Examples.thermo_Mixture Examples.thermo_Hm Examples.pandas_write_error
      Examples.pyarrow_to_parquet ["density"] "run")
                material_bank) 2 (column_name "water" (1 # 2)) = Some NaN.
Proof.
  destruct (fetched_table_is_enriched_by_identifier
              Examples.thermo_Chemical Examples.thermo_getattr
              Examples.thermo_Mixture Examples.thermo_Hm Examples.pandas_write_error
      Examples.pyarrow_to_parquet
              (fun cid => Examples.item cid "C") Examples.server_complete 1 3 2
              ["density"] "run")
    as (material_bank & out & Hrun & Hn & _ & Herr & _ & Hlast).
  - lia.
  - lia.
  - intros cid _; split; [reflexivity|exists (JStr "C"); split; reflexivity].
  - intros c _; eexists; repeat split.
  - exists material_bank, out; split; [exact Hrun|]; split; [exact Hn|]; split.
    + apply Herr; lia.
    + apply (proj1 (Hlast 2%nat 3 eq_refl ltac:(lia))).
      right; left; reflexivity.
Defined.

(** ** The fetcher: an answer that repeats an identifier *)

Lemma dict_store_known {V} (cid : Z) (v : V) (d : dict V) (ids : list Z) :
  map fst d = map JInt ids -> In cid ids ->
  map fst (dict_store (JInt cid) v d) = map fst d /\ In (JInt cid, v) (dict_store (JInt cid) v d).
Proof.
  revert ids; induction d as [|[k0 v0] d IH]; intros [|c ids] Hk Hin; try discriminate.
  - destruct Hin.
  - simpl in Hk; injection Hk as -> Hk; simpl.
    rewrite py_eq_ints.
    destruct (Z.eqb_spec c cid) as [->|Hne].
    + split; [reflexivity|left; reflexivity].
    + destruct Hin as [->|Hin]; [contradiction|].
      destruct (IH ids Hk Hin) as [H1 H2].
      simpl; rewrite H1; split; [reflexivity|right; exact H2].
Qed.

Lemma dict_store_other {V} (k : pyval) (v : V) (d : dict V) (k' : pyval) (v' : V) :
  In (k', v') d -> py_eq k' k = false -> In (k', v') (dict_store k v d).
Proof.
  induction d as [|[k0 v0] d IH]; simpl; intros Hin Hne; [destruct Hin|].
  destruct (py_eq k0 k) eqn:E.
  - destruct Hin as [H|H]; [injection H as -> ->; congruence|right; exact H].
  - destruct Hin as [H|H]; [left; exact H|right; apply IH; auto].
Qed.

Lemma first_occurrences_snoc (ids : list Z) (c : Z) :
  rev (nodup Z.eq_dec (rev (ids ++ [c]))) =
  if in_dec Z.eq_dec c ids then rev (nodup Z.eq_dec (rev ids))
  else rev (nodup Z.eq_dec (rev ids)) ++ [c].
Proof.
  rewrite rev_app_distr; simpl.
  destruct (in_dec Z.eq_dec c (rev ids)) as [H|H], (in_dec Z.eq_dec c ids) as [H'|H'];
    try reflexivity.
  - apply in_rev in H; contradiction.
  - apply in_rev in H'; contradiction.
Qed.

Lemma in_first_occurrences (ids : list Z) (c : Z) :
  In c (rev (nodup Z.eq_dec (rev ids))) <-> In c ids.
Proof. rewrite <- in_rev, nodup_In, <- in_rev; tauto. Qed.

(** The loop of lines 19-29 on items that all carry an identifier and
    a true structure string. *)
Lemma store_answers (answers : list (Z * pyval)) :
  (forall cid prop, In (cid, prop) answers -> item_for cid prop /\ cid <> 0) ->
  exists batch_data,
    for_each (map snd answers) store_item [] = (Ok tt, batch_data, []) /\
    map fst batch_data = map JInt (rev (nodup Z.eq_dec (rev (map fst answers)))) /\
    forall cid a, find (fun a => fst a =? cid) (rev answers) = Some a ->
                  In (JInt cid, record_of (snd a)) batch_data.
Proof.
  induction answers as [|[c prop] answers IH] using rev_ind; intros H.
  - exists []; repeat split; intros; discriminate.
  - destruct IH as (d & Hrun & Hkeys & Hlast).
    { intros cid p Hin; apply H, in_app_iff; left; exact Hin. }
    destruct (H c prop) as [Hitem Hne]; [apply in_app_iff; right; left; reflexivity|].
    exists (dict_store (JInt c) (record_of prop) d).
    split; [|split].
    + rewrite map_app, for_each_app, Hrun; cbn [map snd].
      rewrite for_each_cons, (store_item_for c prop d Hitem Hne); reflexivity.
    + rewrite map_app; simpl map; rewrite first_occurrences_snoc.
      destruct (in_dec Z.eq_dec c (map fst answers)) as [Hin|Hout].
      * rewrite <- Hkeys.
        apply (dict_store_known c (record_of prop) d _ Hkeys).
        apply in_first_occurrences; exact Hin.
      * assert (Hfresh : Forall (fun k' => py_eq k' (JInt c) = false) (map fst d)).
        { rewrite Hkeys; apply Forall_forall; intros k Hk.
          apply in_map_iff in Hk; destruct Hk as (c' & <- & Hc').
          apply (proj1 (in_first_occurrences _ _)) in Hc'.
          rewrite py_eq_ints; apply Z.eqb_neq; intros ->; contradiction. }
        rewrite (dict_store_fresh (JInt c) (record_of prop) d Hfresh), map_app, Hkeys, map_app.
        reflexivity.
    + intros cid a; rewrite rev_app_distr; simpl.
      destruct (Z.eqb_spec c cid) as [->|Hneq].
      * intros Ha; injection Ha as <-; simpl.
        destruct (in_dec Z.eq_dec cid (map fst answers)) as [Hin|Hout].
        -- apply (dict_store_known cid (record_of prop) d _ Hkeys).
           apply in_first_occurrences; exact Hin.
        -- rewrite dict_store_fresh; [apply in_app_iff; right; left; reflexivity|].
           rewrite Hkeys; apply Forall_forall; intros k Hk.
           apply in_map_iff in Hk; destruct Hk as (c' & <- & Hc').
           apply (proj1 (in_first_occurrences _ _)) in Hc'.
           rewrite py_eq_ints; apply Z.eqb_neq; intros ->; contradiction.
      * intros Ha; apply dict_store_other; [apply Hlast; exact Ha|].
        rewrite py_eq_ints; apply Z.eqb_neq; congruence.
Qed.

(** X14.  The keys of a batch come from the answer, not from the
    request.  When the response has status 200 and every item carries
    an integer identifier other than 0 and a true structure string,
    [fetch_details_for_batch] returns, without a printed line, one
    entry per identifier of the answer, in the order in which the
    identifiers first occur, whether or not they were requested; and
    where the answer repeats an identifier, the entry holds the record
    of the last item that carries it. *)
Theorem answer_decides_the_batch (requests_get : list Z -> result response)
        (cids : list Z) (r : response) (answers : list (Z * pyval)) :
  requests_get cids = Ok r -> status_code r = 200 ->
  response_items r = Ok (map snd answers) ->
  (forall cid prop, In (cid, prop) answers -> item_for cid prop /\ cid <> 0) ->
  exists batch_data,
    (forall S (s : S),
       fetch_details_for_batch requests_get cids s = (Ok batch_data, s, [HttpGet cids])) /\
    map fst batch_data = map JInt (rev (nodup Z.eq_dec (rev (map fst answers)))) /\
    forall cid a, find (fun a => fst a =? cid) (rev answers) = Some a ->
                  In (JInt cid, record_of (snd a)) batch_data.
Proof.
  intros Hget Hs Hr Hitems.
  destruct (store_answers answers Hitems) as (d & Hrun & Hkeys & Hlast).
  exists d; split; [|split; [exact Hkeys|exact Hlast]].
  intros S s; rewrite fetch_details_unfold, Hget, Hs; simpl.
  unfold parse_batch, bind, lift; rewrite Hr, Hrun; reflexivity.
Qed.

Lemma answer_decides_the_batch_witness :
  exists batch_data,
    fetch_details_for_batch MoreExamples.server_repeats [1; 2] tt =
      (Ok batch_data, tt, [HttpGet [1; 2]]) /\
    map fst batch_data = [JInt 7; JInt 2] /\
    In (JInt 7, {| smiles := JStr "CCO"; name := JStr "methane"; formula := JStr "CH4" |})
       batch_data.
Proof.
  destruct (answer_decides_the_batch MoreExamples.server_repeats [1; 2] _
              [(7, Examples.item 7 "C"); (2, Examples.item 2 "O"); (7, Examples.item 7 "CCO")]
              eq_refl eq_refl eq_refl)
    as (batch_data & Hrun & Hkeys & Hlast).
  - intros cid prop [H|[H|[H|[]]]]; injection H as <- <-;
      (split; [split; [reflexivity|eexists; split; reflexivity]|lia]).
  - exists batch_data; split; [apply Hrun|]; split; [exact Hkeys|].
    apply (Hlast 7 (7, Examples.item 7 "CCO") eq_refl).
Defined.

(** ** What is written of a fetched table *)

Lemma wf_from_dict (d : dict compound) (nm : option string) :
  wf {| index_name := nm; index := index (from_dict d); columns := columns (from_dict d) |}.
Proof.
  destruct d as [|kv d]; split; simpl.
  - constructor.
  - constructor.
  - repeat constructor; simpl; intuition discriminate.
  - repeat constructor; simpl; rewrite !length_map; reflexivity.
Qed.

(** Lines 53-56: the table is [from_dict] of what the loop gathered,
    with the index named. *)
Lemma generated_table (requests_get : list Z -> result response)
      (start_cid end_cid batch_size : Z) (material_bank : DataFrame) (out : list event) :
  run (generate_material_bank requests_get start_cid end_cid batch_size) =
    (Ok material_bank, out) ->
  wf material_bank /\ index_name material_bank = Some "CID" /\
  forall c, In c (names material_bank) -> In c ["smiles"; "name"; "formula"].
Proof.
  unfold run, generate_material_bank, call, generate_body, bind at 1, lift at 1.
  destruct (range 0 _ batch_size) as [offsets|e]; [|discriminate].
  unfold bind at 1.
  destruct (for_each offsets (batch_iteration requests_get (cid_list_of start_cid end_cid)
                                batch_size) []) as [[[[]|e] d] o]; [|discriminate].
  unfold bind, get, ret; simpl; intros H; injection H as <- _.
  split; [apply wf_from_dict|]; split; [reflexivity|].
  unfold names; simpl; destruct d; simpl; tauto.
Qed.

Section WrittenFile.

Context {chemical mixture : Type}.
Variable Chemical : located -> result chemical.
Variable getattr : chemical -> string -> result (option pyfloat).
Variable Mixture : list located -> list Q -> result mixture.
Variable Hm : mixture -> result (option pyfloat).
Variable write_error : DataFrame -> Z -> string -> pyval -> option exn.
Variable to_parquet : string -> list (string * list pyval) -> result unit.

Lemma written_by_run (properties : list string) (run_name : string)
      (material_bank : DataFrame) :
  written (output (process_materials Chemical getattr Mixture Hm write_error to_parquet
      properties run_name)
                  material_bank) =
  [columns (final (process_materials Chemical getattr Mixture Hm write_error to_parquet
      properties run_name)
                  material_bank)].
Proof.
  rewrite final_process_materials.
  unfold output; rewrite process_materials_run; cbv zeta; cbn [snd].
  rewrite !written_app, written_warnings.
  unfold row_loop at 1.
  rewrite (proj1 (written_loop_events Chemical getattr Mixture Hm write_error _ _ _)).
  reflexivity.
Qed.

Lemma names_after_run (properties : list string) (run_name : string)
      (material_bank : DataFrame) (c : string) :
  wf material_bank ->
  In c (names (final (process_materials Chemical getattr Mixture Hm write_error to_parquet
      properties run_name)
                     material_bank)) ->
  In c (names material_bank) \/ In c mixing_columns \/
  In c (map fst (valid_properties_of properties)).
Proof.
  intros Hwf Hc.
  destruct (before_rows_spec material_bank Hwf) as (Hwf0 & _ & _ & _ & Hnames0).
  destruct (row_loop_written Chemical getattr Mixture Hm write_error properties material_bank
              (fun _ => False))
    as (_ & _ & _ & _ & Hbound1 & _); auto.
  { intros i _; left; intros p []. }
  rewrite final_process_materials in Hc.
  destruct (Hbound1 c Hc) as [H|H].
  - apply Hnames0 in H; tauto.
  - apply in_app_iff in H; tauto.
Qed.

(** X15.  The identifiers of a fetched table are not written.  On a
    table that [generate_material_bank] returned, whatever the server
    answered, [process_materials] writes one table, the columns of the
    table after the rows: its headers are among smiles, name, formula,
    the 12 mixing columns and the valid properties, and CID, the name
    of the index, is none of them. *)
Theorem written_file_has_no_identifier (requests_get : list Z -> result response)
        (start_cid end_cid batch_size : Z) (material_bank : DataFrame) (out : list event)
        (properties : list string) (run_name : string) :
  run (generate_material_bank requests_get start_cid end_cid batch_size) =
    (Ok material_bank, out) ->
  let after :=
    final (process_materials Chemical getattr Mixture Hm write_error to_parquet properties run_name)
          material_bank in
  index_name material_bank = Some "CID" /\
  written (output (process_materials Chemical getattr Mixture Hm write_error to_parquet
      properties run_name)
                  material_bank) = [columns after] /\
  ~ In "CID" (map fst (columns after)) /\
  (forall c, In c (map fst (columns after)) ->
     In c ["smiles"; "name"; "formula"] \/ In c mixing_columns \/
     In c (map fst (valid_properties_of properties))).
Proof.
  intros Hrun after.
  destruct (generated_table requests_get start_cid end_cid batch_size material_bank out Hrun)
    as (Hwf & Hname & Hnames).
  assert (Hbound : forall c, In c (map fst (columns after)) ->
                     In c ["smiles"; "name"; "formula"] \/ In c mixing_columns \/
                     In c (map fst (valid_properties_of properties))).
  { intros c Hc.
    destruct (names_after_run properties run_name material_bank c Hwf Hc) as [H|H];
      [left; apply Hnames; exact H|right; exact H]. }
  split; [exact Hname|]; split; [apply written_by_run|]; split; [|exact Hbound].
  intros Hc; destruct (Hbound "CID" Hc) as [H|[H|H]].
  - repeat (destruct H as [H|H]; [discriminate|]); destruct H.
  - repeat (destruct H as [H|H]; [discriminate|]); destruct H.
  - apply valid_property_supported in H; destruct H as [_ H]; discriminate H.
Qed.

End WrittenFile.

Lemma written_file_has_no_identifier_witness :
  ~ In "CID"
      (map fst (columns (final (process_materials Examples.thermo_Chemical
                                  Examples.thermo_getattr Examples.thermo_Mixture
                                  Examples.thermo_Hm Examples.pandas_write_error
      Examples.pyarrow_to_parquet ["density"] "run")
                               {| index_name := Some "CID";
                                  index := [JInt 5; JInt 6];
                                  columns := [("smiles", [JStr "C"; JStr "C"]);
                                              ("name", [JStr "methane"; JStr "methane"]);
                                              ("formula", [JStr "CH4"; JStr "CH4"])] |}))).
Proof.
  pose proof (written_file_has_no_identifier Examples.thermo_Chemical
                Examples.thermo_getattr Examples.thermo_Mixture Examples.thermo_Hm Examples.pandas_write_error
      Examples.pyarrow_to_parquet
                Examples.server_complete 5 6 100 _
                [HttpGet [5; 6]; Sleep (1 # 5); Print (MsgBatchCompleted 1)]
                ["density"] "run" eq_refl) as H.
  cbv zeta in H; destruct H as (_ & _ & H & _); exact H.
Defined.
